(** * rag-pipeline-operator: the reconciliation and sync engine

    A shallow embedding of the controllers of the RAG pipeline operator
    ([controllers/source_watcher.go], [controllers/embeddingjob_controller.go],
    [controllers/indexjob_controller.go], [controllers/documentset_controller.go])
    together with the properties the specification states about them.

    Conventions.
    - Go [string]s are byte strings: Rocq [string]s (lists of 8-bit [ascii]).
    - Go [int], [int32], [int64] are [Z]; where the source can wrap around
      the wrap is written out ([wrap64]).
    - Go [map[string]string] is [gmap string string]; a nil map or a nil
      pointer is [None].
    - An instant ([time.Time], [metav1.Time]) is a [Z], nanoseconds since the
      epoch; a [time.Duration] is a [Z], nanoseconds.
    - The cluster API, the object store, the HTTP server and the file
      system are the environment: their answers are inputs of the model. *)

From Stdlib Require Import ZArith Ascii String List Lia Bool.
From stdpp Require Import base decidable option list gmap strings sorting pretty.
Import ListNotations.

Local Open Scope string_scope.
Local Open Scope Z_scope.

(** ** Byte strings, as package [strings] sees them *)

Module GoStrings.

(** The quotation mark, byte 34. *)
Definition quote : ascii := "034"%char.

(** [strings.HasPrefix]. *)
Fixpoint HasPrefix (s p : string) : bool :=
  match p, s with
  | EmptyString, _ => true
  | String c p', String d s' => if Ascii.eqb c d then HasPrefix s' p' else false
  | String _ _, EmptyString => false
  end.

(** [strings.TrimPrefix]: [s] without the leading [p], or [s] itself. *)
Definition TrimPrefix (s p : string) : string :=
  if HasPrefix s p
  then String.substring (String.length p) (String.length s - String.length p) s
  else s.

(** The last byte of a string. *)
Fixpoint last_byte (s : string) : option ascii :=
  match s with
  | EmptyString => None
  | String c EmptyString => Some c
  | String _ s' => last_byte s'
  end.

(** [strings.HasSuffix(s, "/")], the only suffix the controllers test. *)
Definition HasSuffixSlash (s : string) : bool :=
  match last_byte s with
  | Some c => Ascii.eqb c "/"%char
  | None => false
  end.

(** [strings.IndexByte]: position of the first [c] in [s]. *)
Fixpoint IndexByte (s : string) (c : ascii) : option nat :=
  match s with
  | EmptyString => None
  | String d s' =>
      if Ascii.eqb d c then Some O
      else match IndexByte s' c with
           | Some i => Some (S i)
           | None => None
           end
  end.

(** The slices [s[:i]] and [s[i:]]. *)
Definition slice_to (s : string) (i : nat) : string := String.substring 0 i s.
Definition slice_from (s : string) (i : nat) : string :=
  String.substring i (String.length s - i) s.

(** [strings.SplitN(s, sep, 2)] for a one-byte separator: at most two
    parts, cut at the first separator. *)
Definition SplitN2 (s : string) (sep : ascii) : list string :=
  match IndexByte s sep with
  | Some i => [slice_to s i; slice_from s (S i)]
  | None => [s]
  end.

(** Dropping the leading bytes equal to [c]. *)
Fixpoint TrimLeftByte (s : string) (c : ascii) : string :=
  match s with
  | EmptyString => EmptyString
  | String d s' => if Ascii.eqb d c then TrimLeftByte s' c else s
  end.

(** Dropping the trailing bytes equal to [c]. *)
Fixpoint TrimRightByte (s : string) (c : ascii) : string :=
  match s with
  | EmptyString => EmptyString
  | String d s' =>
      match TrimRightByte s' c with
      | EmptyString => if Ascii.eqb d c then EmptyString else String d EmptyString
      | r => String d r
      end
  end.

(** [strings.Trim(s, cutset)] for a one-byte cutset: every leading and
    every trailing occurrence of the byte is removed. *)
Definition TrimByte (s : string) (c : ascii) : string :=
  TrimRightByte (TrimLeftByte s c) c.

(** [fmt.Sprintf("%d", n)]. *)
Definition FormatInt (n : Z) : string := pretty n.

(** Concatenation of a list of strings, in order. *)
Fixpoint concat_all (l : list string) : string :=
  match l with
  | [] => EmptyString
  | s :: l' => s ++ concat_all l'
  end.

End GoStrings.

(** ** SHA-256 (FIPS 180-4), as [crypto/sha256] computes it *)

Module SHA256.

Definition w32 (x : Z) : Z := x mod 2 ^ 32.
Definition add32 (x y : Z) : Z := w32 (x + y).
Definition rotr (n x : Z) : Z := Z.lor (Z.shiftr x n) (w32 (Z.shiftl x (32 - n))).
Definition shr (n x : Z) : Z := Z.shiftr x n.
Definition not32 (x : Z) : Z := Z.lxor x (2 ^ 32 - 1).

Definition Ch (x y z : Z) : Z := Z.lxor (Z.land x y) (Z.land (not32 x) z).
Definition Maj (x y z : Z) : Z :=
  Z.lxor (Z.lxor (Z.land x y) (Z.land x z)) (Z.land y z).
Definition bsig0 (x : Z) : Z := Z.lxor (Z.lxor (rotr 2 x) (rotr 13 x)) (rotr 22 x).
Definition bsig1 (x : Z) : Z := Z.lxor (Z.lxor (rotr 6 x) (rotr 11 x)) (rotr 25 x).
Definition ssig0 (x : Z) : Z := Z.lxor (Z.lxor (rotr 7 x) (rotr 18 x)) (shr 3 x).
Definition ssig1 (x : Z) : Z := Z.lxor (Z.lxor (rotr 17 x) (rotr 19 x)) (shr 10 x).

(** Trial division, enough for the first primes. *)
Definition is_prime (n : Z) : bool :=
  (1 <? n)
  && List.forallb (fun d => (n <? d * d) || negb (n mod d =? 0))
       (List.map Z.of_nat (List.seq 2 (Z.to_nat n - 2))).

(** The primes below [n]. *)
Definition primes_below (n : nat) : list Z :=
  List.filter is_prime (List.map Z.of_nat (List.seq 0 n)).

(** The integer cube root, bit by bit from bit [bits - 1] down. *)
Fixpoint icbrt (bits : nat) (x r : Z) : Z :=
  match bits with
  | O => r
  | S b =>
      let r' := r + 2 ^ Z.of_nat b in
      icbrt b x (if r' * r' * r' <=? x then r' else r)
  end.

(** The round constants: the first 32 bits of the fractional parts of
    the cube roots of the first 64 primes. *)
Definition K : list Z :=
  Eval vm_compute in
    List.map (fun p => w32 (icbrt 40 (p * 2 ^ 96) 0)) (primes_below 312).

(** The initial hash value: the first 32 bits of the fractional parts of
    the square roots of the first 8 primes. *)
Definition H0 : list Z :=
  Eval vm_compute in
    List.map (fun p => w32 (Z.sqrt (p * 2 ^ 64))) (primes_below 20).

Definition bytes_of (s : string) : list Z :=
  List.map (fun c => Z.of_N (N_of_ascii c)) (list_ascii_of_string s).

(** Big-endian bytes of [x], [n] of them. *)
Fixpoint be_bytes (n : nat) (x : Z) : list Z :=
  match n with
  | O => []
  | S n' => (be_bytes n' (x / 256) ++ [x mod 256])%list
  end.

(** The padded message: the bytes, 0x80, zeros up to 56 mod 64, and the
    bit length on eight bytes. *)
Definition pad (msg : list Z) : list Z :=
  let len := Z.of_nat (List.length msg) in
  let zeros := Z.to_nat ((55 - len) mod 64) in
  (msg ++ [0x80] ++ List.repeat 0 zeros ++ be_bytes 8 (8 * len))%list.

(** Big-endian 32-bit words of a byte list (whose length is a multiple
    of four). *)
Fixpoint words_of (fuel : nat) (bs : list Z) : list Z :=
  match fuel, bs with
  | S fuel', a :: b :: c :: d :: rest =>
      (((a * 256 + b) * 256 + c) * 256 + d) :: words_of fuel' rest
  | _, _ => []
  end.

(** The message schedule: from the last sixteen words, the [n] next. *)
Fixpoint schedule (n : nat) (window : list Z) : list Z :=
  match n with
  | O => []
  | S n' =>
      let w16 := List.nth 0 window 0 in
      let w15 := List.nth 1 window 0 in
      let w7 := List.nth 9 window 0 in
      let w2 := List.nth 14 window 0 in
      let w := add32 (add32 (ssig1 w2) w7) (add32 (ssig0 w15) w16) in
      w :: schedule n' (List.tl window ++ [w])%list
  end.

Record regs := Regs { ra : Z; rb : Z; rc : Z; rd : Z; re : Z; rf : Z; rg : Z; rh : Z }.

Definition round (r : regs) (kw : Z * Z) : regs :=
  let t1 := add32 (add32 (add32 (rh r) (bsig1 (re r))) (add32 (Ch (re r) (rf r) (rg r)) (fst kw))) (snd kw) in
  let t2 := add32 (bsig0 (ra r)) (Maj (ra r) (rb r) (rc r)) in
  Regs (add32 t1 t2) (ra r) (rb r) (rc r) (add32 (rd r) t1) (re r) (rf r) (rg r).

Definition regs_of (h : list Z) : regs :=
  Regs (List.nth 0 h 0) (List.nth 1 h 0) (List.nth 2 h 0) (List.nth 3 h 0)
       (List.nth 4 h 0) (List.nth 5 h 0) (List.nth 6 h 0) (List.nth 7 h 0).

Definition list_of (r : regs) : list Z :=
  [ra r; rb r; rc r; rd r; re r; rf r; rg r; rh r].

(** One 64-byte block folded into the chaining value. *)
Definition compress (h : list Z) (block : list Z) : list Z :=
  let w0 := words_of 16 block in
  let w := (w0 ++ schedule 48 w0)%list in
  let r := List.fold_left round (List.combine K w) (regs_of h) in
  List.map (fun p => add32 (fst p) (snd p)) (List.combine h (list_of r)).

Fixpoint blocks (fuel : nat) (h : list Z) (bs : list Z) : list Z :=
  match fuel with
  | O => h
  | S fuel' =>
      match bs with
      | [] => h
      | _ => blocks fuel' (compress h (List.firstn 64 bs)) (List.skipn 64 bs)
      end
  end.

(** [sha256.Sum256]: the 32-byte digest. *)
Definition Sum (s : string) : list Z :=
  let p := pad (bytes_of s) in
  List.flat_map (be_bytes 4) (blocks (List.length p) H0 p).

Definition hex_digit (d : Z) : ascii :=
  if d <? 10 then ascii_of_N (Z.to_N (48 + d)) else ascii_of_N (Z.to_N (87 + d)).

(** [hex.EncodeToString]: two lower-case digits per byte. *)
Fixpoint EncodeToString (bs : list Z) : string :=
  match bs with
  | [] => EmptyString
  | b :: bs' => String (hex_digit (b / 16)) (String (hex_digit (b mod 16)) (EncodeToString bs'))
  end.

(** [hex.EncodeToString(h.Sum(nil))] for a hasher fed the bytes of [s]. *)
Definition hex (s : string) : string := EncodeToString (Sum s).

(** A [hash.Hash] is the bytes written so far: [Write] appends. *)
Definition hasher := string.
Definition New : hasher := EmptyString.
Definition Write (h : hasher) (s : string) : hasher := h ++ s.
Definition SumHex (h : hasher) : string := hex h.

End SHA256.

(** ** Results and integers *)

(** A Go call returning [(T, error)]: the value, or the error's text. *)
Inductive result (A : Type) : Type :=
| Ok (a : A)
| Err (msg : string).
Arguments Ok {A} a.
Arguments Err {A} msg.

Definition is_Err {A} (r : result A) : bool :=
  match r with Ok _ => false | Err _ => true end.

(** [int64] arithmetic wraps around. *)
Definition wrap64 (x : Z) : Z := (x + 2 ^ 63) mod 2 ^ 64 - 2 ^ 63.

(** [len(l)] as a Go [int]. *)
Definition len {A} (l : list A) : Z := Z.of_nat (List.length l).

(** ** Durations and instants, as package [time] has them *)

Module GoTime.

Definition Nanosecond : Z := 1.
Definition Second : Z := 1000000000.
Definition Minute : Z := 60 * Second.
Definition Hour : Z := 60 * Minute.

Definition maxDuration : Z := 2 ^ 63 - 1.
Definition minDuration : Z := - 2 ^ 63.

(** [t.Sub(u)]: the difference, saturated to the range of a Duration. *)
Definition Sub (t u : Z) : Z :=
  let d := t - u in
  if d <? minDuration then minDuration
  else if maxDuration <? d then maxDuration
  else d.

(** [time.Since(t)] when the clock reads [now]. *)
Definition Since (now t : Z) : Z := Sub now t.

(** The zero [time.Time], 1 January of year 1, in nanoseconds from the
    epoch. *)
Definition zeroTime : Z := -62135596800 * Second.

(** [t.IsZero()]: the instant is the zero time. *)
Definition IsZero (t : Z) : bool := t =? zeroTime.

(** [t.Unix()]: whole seconds since the epoch. *)
Definition Unix (t : Z) : Z := t / Second.

(** The wall-clock fields [Format] reads. *)
Record Civil := { Year : Z; Month : Z; Day : Z; HourOfDay : Z }.

(** [appendInt]: the decimal digits of [x], zero-padded to [width]. *)
Definition appendInt (x : Z) (width : nat) : string :=
  let digits := pretty (Z.abs x) in
  let padded := String.concat "" (List.repeat "0" (width - String.length digits)) ++ digits in
  if x <? 0 then "-" ++ padded else padded.

(** [t.Format("2006-01-02-15")]: the hour bucket of an instant. *)
Definition Format_hour (t : Civil) : string :=
  appendInt (Year t) 4 ++ "-" ++ appendInt (Month t) 2 ++ "-"
    ++ appendInt (Day t) 2 ++ "-" ++ appendInt (HourOfDay t) 2.

(** The part of [time.ParseDuration] that needs no floating point:
    [[-+]?([0-9]+unit)+], and the literal [0]. A string with a decimal
    point is outside this fragment and is reported as [None] here. *)
Definition unitMap (u : string) : option Z :=
  if String.eqb u "ns" then Some Nanosecond
  else if String.eqb u "us" then Some 1000
  else if String.eqb u (String "194"%char (String "181"%char "s")) then Some 1000
  else if String.eqb u (String "206"%char (String "188"%char "s")) then Some 1000
  else if String.eqb u "ms" then Some 1000000
  else if String.eqb u "s" then Some Second
  else if String.eqb u "m" then Some Minute
  else if String.eqb u "h" then Some Hour
  else None.

Definition is_digit (c : ascii) : bool :=
  let n := Z.of_N (N_of_ascii c) in (48 <=? n) && (n <=? 57).

(** [leadingInt]: the leading digits and the rest. *)
Fixpoint leadingInt (s : string) (acc : Z) : Z * string :=
  match s with
  | String c s' =>
      if is_digit c then leadingInt s' (acc * 10 + (Z.of_N (N_of_ascii c) - 48))
      else (acc, s)
  | EmptyString => (acc, s)
  end.

(** The unit: everything up to the next digit or point. *)
Fixpoint leadingUnit (s : string) : string * string :=
  match s with
  | String c s' =>
      if is_digit c || Ascii.eqb c "."%char then (EmptyString, s)
      else let '(u, r) := leadingUnit s' in (String c u, r)
  | EmptyString => (EmptyString, EmptyString)
  end.

Fixpoint segments (fuel : nat) (s : string) (d : Z) : option Z :=
  match fuel with
  | O => None
  | S fuel' =>
      match s with
      | EmptyString => Some d
      | String c _ =>
          if negb (is_digit c) then None
          else
            let '(v, s1) := leadingInt s 0 in
            let '(u, s2) := leadingUnit s1 in
            match u with
            | EmptyString => None
            | _ =>
                match unitMap u with
                | None => None
                | Some unit =>
                    if 2 ^ 63 / unit <? v then None
                    else
                      let d' := d + v * unit in
                      if 2 ^ 63 <? d' then None else segments fuel' s2 d'
                end
            end
      end
  end.

Definition ParseDuration_integral (s : string) : option Z :=
  let '(neg, body) :=
    match s with
    | String c s' =>
        if Ascii.eqb c "-"%char then (true, s')
        else if Ascii.eqb c "+"%char then (false, s')
        else (false, s)
    | EmptyString => (false, s)
    end in
  if String.eqb body "0" then Some 0
  else if String.eqb body "" then None
  else
    match segments (S (String.length body)) body 0 with
    | None => None
    | Some d =>
        if neg then Some (- d)
        else if 2 ^ 63 - 1 <? d then None else Some d
    end.

(** [fmt.Sprintf("%.0f", d.Seconds())] computed on the exact quotient:
    the nearest whole number of seconds, halves to the even one. *)
Definition FormatSeconds_exact (d : Z) : string :=
  let q := d / Second in
  let r := d mod Second in
  let n := if 2 * r <? Second then q
           else if Second <? 2 * r then q + 1
           else if Z.even q then q else q + 1 in
  pretty n.

End GoTime.

(** ** The API types ([api/v1alpha1]) *)

(** Phases, condition types and source types are Go string constants. *)
Definition DocumentSetPhasePending := "Pending".
Definition DocumentSetPhaseEmbedding := "Embedding".
Definition DocumentSetPhaseIndexing := "Indexing".
Definition DocumentSetPhaseReady := "Ready".
Definition DocumentSetPhaseFailed := "Failed".

Definition SourceTypeS3 := "s3".
Definition SourceTypeHTTP := "http".
Definition SourceTypeGit := "git".
Definition SourceTypePVC := "pvc".

Definition EmbeddingJobPhasePending := "Pending".
Definition EmbeddingJobPhaseRunning := "Running".
Definition EmbeddingJobPhaseSucceeded := "Succeeded".
Definition EmbeddingJobPhaseFailed := "Failed".
Definition EmbeddingJobConditionStarted := "JobStarted".
Definition EmbeddingJobConditionVectorUpserted := "VectorUpserted".

Definition IndexJobPhasePending := "Pending".
Definition IndexJobPhaseBuilding := "Building".
Definition IndexJobPhaseOptimizing := "Optimizing".
Definition IndexJobPhaseSucceeded := "Succeeded".
Definition IndexJobPhaseFailed := "Failed".
Definition IndexJobConditionIndexCreated := "IndexCreated".
Definition IndexJobConditionIndexOptimized := "IndexOptimized".
Definition IndexJobConditionAliasSwapped := "AliasSwapped".

(** Modelled from the spec: the constant [SyncModeAuto], whose declaration
    is not among the sources; the sync policy's mode is one of [auto] and
    [manual]. *)
Definition SyncModeAuto := "auto".

(** [metav1.ObjectMeta], the fields the controllers read. *)
Record ObjectMeta := {
  Name : string;
  Namespace : string;
  Generation : Z;
  DeletionTimestamp : option Z;
  Finalizers : list string
}.

(** [IsZero] on a pointer to a [metav1.Time]: the pointer is nil or the
    time is the zero time. *)
Definition metav1_IsZero (t : option Z) : bool :=
  match t with
  | None => true
  | Some t => GoTime.IsZero t
  end.

Record SecretReference := { SecretName : string }.

Record SourceSpec := {
  SourceType : string;
  URI : string;
  SecretRef : option SecretReference
}.

(** Modelled from the spec: the sync policy, whose declaration is not
    among the sources (syncPolicy: mode, interval, triggerOn,
    incrementalSync, maxConcurrentSyncs, pauseSync). The fields are the
    ones the source watcher reads, with the types it reads them at. *)
Record SyncPolicy := {
  Mode : string;
  Interval : string;
  PauseSync : bool
}.

(** Modelled from the spec: the source metadata, whose declaration is not
    among the sources (per-file hash map, git commit hash, HTTP ETag,
    last-modified instant, total byte size, file count). The fields are
    the ones the source watcher reads and writes. *)
Record SourceMetadata := {
  FileHashes : option (gmap string string);
  GitBranch : string;
  GitCommitHash : string;
  S3ETag : string;
  LastModifiedTime : option Z;
  TotalSize : Z;
  FileCount : Z
}.


(** The spec and the status of a DocumentSet: the fields the modelled
    functions read or write. The declarations among the sources have no
    [SyncPolicy], [LastSourceHash], [SourceMetadata] and
    [LastSourceCheckTime]; these four are taken from the source watcher's
    use of them. *)
Record DocumentSetSpec := {
  Source : SourceSpec;
  AutoRetry : bool;
  DSSyncPolicy : option SyncPolicy
}.

Record DocumentSetStatus := {
  DSPhase : string;
  DSMessage : string;
  LastUpdateTime : option Z;
  ObservedGeneration : Z;
  LastSourceHash : string;
  DSSourceMetadata : option SourceMetadata;
  LastSourceCheckTime : option Z
}.

Record DocumentSet := {
  DSMeta : ObjectMeta;
  DSSpec : DocumentSetSpec;
  DSStatus : DocumentSetStatus
}.

(** ** The source watcher ([controllers/source_watcher.go]) *)

Record SourceChangeResult := {
  Changed : bool;
  NewHash : string;
  NewMetadata : option SourceMetadata;
  FilesChanged : Z;
  FilesAdded : Z;
  FilesDeleted : Z;
  ChangedFiles : list string;
  AddedFiles : list string;
  DeletedFiles : list string
}.

(** A result as the checks first build it: a hash and its metadata, every
    other field at its zero value. *)
Definition newResult (h : string) (md : SourceMetadata) : SourceChangeResult :=
  {| Changed := false; NewHash := h; NewMetadata := Some md;
     FilesChanged := 0; FilesAdded := 0; FilesDeleted := 0;
     ChangedFiles := []; AddedFiles := []; DeletedFiles := [] |}.

Definition set_Changed (r : SourceChangeResult) (b : bool) : SourceChangeResult :=
  {| Changed := b; NewHash := NewHash r; NewMetadata := NewMetadata r;
     FilesChanged := FilesChanged r; FilesAdded := FilesAdded r;
     FilesDeleted := FilesDeleted r; ChangedFiles := ChangedFiles r;
     AddedFiles := AddedFiles r; DeletedFiles := DeletedFiles r |}.

Definition set_FilesAdded (r : SourceChangeResult) (n : Z) : SourceChangeResult :=
  {| Changed := Changed r; NewHash := NewHash r; NewMetadata := NewMetadata r;
     FilesChanged := FilesChanged r; FilesAdded := n;
     FilesDeleted := FilesDeleted r; ChangedFiles := ChangedFiles r;
     AddedFiles := AddedFiles r; DeletedFiles := DeletedFiles r |}.

Definition set_FilesChanged (r : SourceChangeResult) (n : Z) : SourceChangeResult :=
  {| Changed := Changed r; NewHash := NewHash r; NewMetadata := NewMetadata r;
     FilesChanged := n; FilesAdded := FilesAdded r;
     FilesDeleted := FilesDeleted r; ChangedFiles := ChangedFiles r;
     AddedFiles := AddedFiles r; DeletedFiles := DeletedFiles r |}.

(** The three lists of a diff and their lengths. *)
Definition set_diff (r : SourceChangeResult) (d : list string * list string * list string)
  : SourceChangeResult :=
  let '(added, deleted, changed) := d in
  {| Changed := Changed r; NewHash := NewHash r; NewMetadata := NewMetadata r;
     FilesChanged := len changed; FilesAdded := len added;
     FilesDeleted := len deleted; ChangedFiles := changed;
     AddedFiles := added; DeletedFiles := deleted |}.

(** *** What the watcher asks of the world *)

Record S3Object := {
  ObjKey : option string;
  ObjETag : option string;
  ObjSize : option Z
}.

Definition aws_ToString (p : option string) : string := default "" p.
Definition aws_ToInt64 (p : option Z) : Z := default 0 p.

Inductive awsOption :=
| WithCredentialsProvider (accessKey secretKey : string)
| WithRegion (region : string).

Record HTTPClient := { ClientTimeout : Z }.

Record HTTPRequest := {
  Method : string;
  URL : string;
  Body : option string;
  Header : gmap string string
}.

Record HTTPResponse := {
  StatusCode : Z;
  RespHeader : gmap string string;
  ContentLength : Z
}.

Definition Header_Get (h : gmap string string) (k : string) : string :=
  default "" (h !! k).

Definition Header_Set (h : gmap string string) (k v : string) : gmap string string :=
  <[k := v]> h.

Definition StatusOK : Z := 200.

Inductive statResult := StatOk | StatNotExist | StatError (msg : string).

(** One call of the walk function: an error handed to it, a directory,
    or a regular file with its path relative to the root, its size, its
    modification instant and what [hashFile] returns for it. *)
Inductive walkEntry :=
| WalkError (msg : string)
| WalkDir
| WalkFile (relPath : string) (size : Z) (modTime : Z) (md5 : result string).

Record World := {
  (** [client.Get] of a secret by namespace and name: its data. *)
  getSecret : string -> string -> result (option (gmap string string));
  (** [config.LoadDefaultConfig]. *)
  awsLoadDefaultConfig : list awsOption -> result unit;
  (** The pages the list-objects paginator yields for a bucket and a prefix. *)
  s3ListPages : list awsOption -> string -> string -> list (result (list S3Object));
  (** [http.NewRequestWithContext]: whether the method and URL are accepted. *)
  httpNewRequest : string -> string -> result unit;
  (** [client.Do]. *)
  httpDo : HTTPClient -> HTTPRequest -> result HTTPResponse;
  (** [os.Stat]. *)
  osStat : string -> statResult;
  (** The calls [filepath.Walk] makes, in order. *)
  fsWalk : string -> list walkEntry;
  (** [time.Now()], as an instant and as wall-clock fields. *)
  now : Z;
  nowCivil : GoTime.Civil
}.

(** [sort.Strings]: ascending byte-wise order ([String.le] compares byte
    by byte, a proper prefix first). *)
Definition sort_Strings (l : list string) : list string := merge_sort String.le l.

(** The combined digest of the S3 and PVC checks: every file name, in the
    order given, followed by its entry in the hash map (the empty string
    when there is none). *)
Definition combinedHash (files : list string) (hashes : gmap string string) : string :=
  SHA256.SumHex
    (List.fold_left
       (fun h f => SHA256.Write (SHA256.Write h f) (default "" (hashes !! f)))
       files SHA256.New).

(** [diffFileHashes]. Go ranges over a map in no specified order; the
    model ranges in the order of [map_to_list], and the three lists are
    meaningful up to their order. *)
Definition diffFileHashes (old new : gmap string string)
  : list string * list string * list string :=
  let '(added, changed) :=
    List.fold_left
      (fun (acc : list string * list string) (e : string * string) =>
         let '(file, newHash) := e in
         match old !! file with
         | None => (fst acc ++ [file], snd acc)%list
         | Some oldHash =>
             if String.eqb oldHash newHash then acc
             else (fst acc, snd acc ++ [file])%list
         end)
      (map_to_list new) ([], []) in
  let deleted :=
    List.fold_left
      (fun (acc : list string) (e : string * string) =>
         match new !! (fst e) with
         | None => (acc ++ [fst e])%list
         | Some _ => acc
         end)
      (map_to_list old) [] in
  (added, deleted, changed).

(** The comparison with the previous state that ends the S3 and the PVC
    checks. *)
Definition compareWithPrevious (ds : DocumentSet) (result : SourceChangeResult)
    (fileHashes : gmap string string) (fileCount : Z) : SourceChangeResult :=
  let last := LastSourceHash (DSStatus ds) in
  if negb (String.eqb last "") && negb (String.eqb last (NewHash result)) then
    let result := set_Changed result true in
    match DSSourceMetadata (DSStatus ds) with
    | Some md =>
        match FileHashes md with
        | Some old => set_diff result (diffFileHashes old fileHashes)
        | None => result
        end
    | None => result
    end
  else if String.eqb last "" then
    set_FilesAdded (set_Changed result true) fileCount
  else result.

(** *** S3 *)

Record s3Listing := {
  allFiles : list string;
  fileHashes : gmap string string;
  totalSize : Z;
  fileCount : Z
}.

Definition s3Empty : s3Listing :=
  {| allFiles := []; fileHashes := ∅; totalSize := 0; fileCount := 0 |}.

(** The body of the loop over the objects of a page. *)
Definition s3Visit (acc : s3Listing) (obj : S3Object) : s3Listing :=
  let key := aws_ToString (ObjKey obj) in
  if GoStrings.HasSuffixSlash key then acc
  else
    {| allFiles := (allFiles acc ++ [key])%list;
       fileHashes :=
         <[key := GoStrings.TrimByte (aws_ToString (ObjETag obj)) GoStrings.quote]>
           (fileHashes acc);
       totalSize := wrap64 (totalSize acc + aws_ToInt64 (ObjSize obj));
       fileCount := fileCount acc + 1 |}.

(** The loop over the pages: the first page that fails ends the check. *)
Fixpoint s3Paginate (pages : list (result (list S3Object))) (acc : s3Listing)
  : result s3Listing :=
  match pages with
  | [] => Ok acc
  | Err e :: _ => Err ("failed to list S3 objects: " ++ e)
  | Ok objs :: rest => s3Paginate rest (List.fold_left s3Visit objs acc)
  end.

(** The options built from the secret. *)
Definition s3Options (secretData : option (gmap string string)) : list awsOption :=
  match secretData with
  | None => []
  | Some data =>
      let accessKey := default "" (data !! "AWS_ACCESS_KEY_ID") in
      let secretKey := default "" (data !! "AWS_SECRET_ACCESS_KEY") in
      let region := default "" (data !! "AWS_REGION") in
      ((if negb (String.eqb accessKey "") && negb (String.eqb secretKey "")
        then [WithCredentialsProvider accessKey secretKey] else [])
       ++ (if negb (String.eqb region "") then [WithRegion region] else []))%list
  end.

(** What the check does with a complete listing. *)
Definition s3Digest (ds : DocumentSet) (l : s3Listing) : SourceChangeResult :=
  let sorted := sort_Strings (allFiles l) in
  let newHash := combinedHash sorted (fileHashes l) in
  let result :=
    newResult newHash
      {| FileHashes := Some (fileHashes l); GitBranch := ""; GitCommitHash := "";
         S3ETag := ""; LastModifiedTime := None;
         TotalSize := totalSize l; FileCount := fileCount l |} in
  compareWithPrevious ds result (fileHashes l) (fileCount l).

Definition checkS3Source (w : World) (ds : DocumentSet)
    (secretData : option (gmap string string)) : result SourceChangeResult :=
  let uri := URI (Source (DSSpec ds)) in
  if negb (GoStrings.HasPrefix uri "s3://") then Err ("invalid S3 URI: " ++ uri)
  else
    let parts := GoStrings.SplitN2 (GoStrings.TrimPrefix uri "s3://") "/"%char in
    let bucket := List.nth 0 parts "" in
    let prefix := if 1 <? len parts then List.nth 1 parts "" else "" in
    let opts := s3Options secretData in
    match awsLoadDefaultConfig w opts with
    | Err e => Err ("failed to load AWS config: " ++ e)
    | Ok _ =>
        match s3Paginate (s3ListPages w opts bucket prefix) s3Empty with
        | Err e => Err e
        | Ok l => Ok (s3Digest ds l)
        end
    end.

(** *** HTTP *)

Definition httpRequestFor (uri : string) (secretData : option (gmap string string))
  : HTTPRequest :=
  let h0 : gmap string string := ∅ in
  let h :=
    match secretData with
    | None => h0
    | Some data =>
        let token := default "" (data !! "HTTP_AUTH_TOKEN") in
        let h1 := if 0 <? Z.of_nat (String.length token)
                  then Header_Set h0 "Authorization" ("Bearer " ++ token) else h0 in
        let basicAuth := default "" (data !! "HTTP_BASIC_AUTH") in
        if 0 <? Z.of_nat (String.length basicAuth)
        then Header_Set h1 "Authorization" ("Basic " ++ basicAuth) else h1
    end in
  {| Method := "HEAD"; URL := uri; Body := None; Header := h |}.

Definition httpClient : HTTPClient := {| ClientTimeout := 30 * GoTime.Second |}.

(** What the check does with a response whose status is 200. *)
Definition httpDigest (ds : DocumentSet) (resp : HTTPResponse) : SourceChangeResult :=
  let etag := Header_Get (RespHeader resp) "ETag" in
  let lastModified := Header_Get (RespHeader resp) "Last-Modified" in
  let contentLength := ContentLength resp in
  let hasher := SHA256.Write (SHA256.Write (SHA256.Write SHA256.New etag) lastModified)
                  (GoStrings.FormatInt contentLength) in
  let newHash := SHA256.SumHex hasher in
  let result :=
    newResult newHash
      {| FileHashes := None; GitBranch := ""; GitCommitHash := "";
         S3ETag := etag; LastModifiedTime := None;
         TotalSize := contentLength; FileCount := 0 |} in
  let last := LastSourceHash (DSStatus ds) in
  if negb (String.eqb last "") && negb (String.eqb last newHash) then
    set_FilesChanged (set_Changed result true) 1
  else if String.eqb last "" then
    set_FilesAdded (set_Changed result true) 1
  else result.

Definition checkHTTPSource (w : World) (ds : DocumentSet)
    (secretData : option (gmap string string)) : result SourceChangeResult :=
  let uri := URI (Source (DSSpec ds)) in
  match httpNewRequest w "HEAD" uri with
  | Err e => Err ("failed to create HTTP request: " ++ e)
  | Ok _ =>
      match httpDo w httpClient (httpRequestFor uri secretData) with
      | Err e => Err ("HTTP HEAD request failed: " ++ e)
      | Ok resp =>
          if negb (StatusCode resp =? StatusOK)
          then Err ("HTTP HEAD returned status " ++ GoStrings.FormatInt (StatusCode resp))
          else Ok (httpDigest ds resp)
      end
  end.

(** *** Git *)

(** The repository and the branch named by a URI: [repo#branch], the
    branch [main] when there is no [#]. *)
Definition parseGitURI (uri : string) : string * string :=
  match GoStrings.IndexByte uri "#"%char with
  | Some idx => (GoStrings.slice_to uri idx, GoStrings.slice_from uri (S idx))
  | None => (uri, "main")
  end.

Definition checkGitSource (w : World) (ds : DocumentSet)
    (secretData : option (gmap string string)) : result SourceChangeResult :=
  let '(uri, branch) := parseGitURI (URI (Source (DSSpec ds))) in
  let hasher :=
    SHA256.Write (SHA256.Write (SHA256.Write SHA256.New uri) branch)
      (GoTime.Format_hour (nowCivil w)) in
  let newHash := SHA256.SumHex hasher in
  let commit := GoStrings.slice_to newHash 12 in
  let result :=
    newResult newHash
      {| FileHashes := None; GitBranch := branch; GitCommitHash := commit;
         S3ETag := ""; LastModifiedTime := None; TotalSize := 0; FileCount := 0 |} in
  let firstCheck :=
    if String.eqb (LastSourceHash (DSStatus ds)) "" then set_Changed result true
    else result in
  Ok match DSSourceMetadata (DSStatus ds) with
     | Some md =>
         if negb (String.eqb (GitCommitHash md) "") then
           if negb (String.eqb (GitCommitHash md) commit) then set_Changed result true
           else result
         else firstCheck
     | None => firstCheck
     end.

(** *** PVC *)

Record pvcListing := {
  pvcFiles : list string;
  pvcHashes : gmap string string;
  pvcTotalSize : Z;
  latestModTime : Z
}.

Definition pvcEmpty : pvcListing :=
  {| pvcFiles := []; pvcHashes := ∅; pvcTotalSize := 0; latestModTime := GoTime.zeroTime |}.

(** The hashing threshold, 10 MiB. *)
Definition hashLimit : Z := 10 * 1024 * 1024.

(** The stand-in for a content hash: ["<mtime_unix>-<size>"]. *)
Definition syntheticHash (modTime size : Z) : string :=
  GoStrings.FormatInt (GoTime.Unix modTime) ++ "-" ++ GoStrings.FormatInt size.

(** The walk function applied to a regular file. *)
Definition pvcVisit (acc : pvcListing) (relPath : string) (size modTime : Z)
    (md5 : result string) : pvcListing :=
  {| pvcFiles := (pvcFiles acc ++ [relPath])%list;
     pvcHashes :=
       <[relPath :=
           if size <? hashLimit then
             match md5 with
             | Ok hash => hash
             | Err _ => syntheticHash modTime size
             end
           else syntheticHash modTime size]> (pvcHashes acc);
     pvcTotalSize := wrap64 (pvcTotalSize acc + size);
     latestModTime := if latestModTime acc <? modTime then modTime else latestModTime acc |}.

(** [filepath.Walk] with the walk function of the check: an error handed
    to the function stops the walk, a directory is passed over. *)
Fixpoint pvcWalk (entries : list walkEntry) (acc : pvcListing) : result pvcListing :=
  match entries with
  | [] => Ok acc
  | WalkError e :: _ => Err e
  | WalkDir :: rest => pvcWalk rest acc
  | WalkFile relPath size modTime md5 :: rest =>
      pvcWalk rest (pvcVisit acc relPath size modTime md5)
  end.

(** What the check does with a complete walk. *)
Definition pvcDigest (ds : DocumentSet) (l : pvcListing) : SourceChangeResult :=
  let sorted := sort_Strings (pvcFiles l) in
  let newHash := combinedHash sorted (pvcHashes l) in
  let result :=
    newResult newHash
      {| FileHashes := Some (pvcHashes l); GitBranch := ""; GitCommitHash := "";
         S3ETag := ""; LastModifiedTime := Some (latestModTime l);
         TotalSize := pvcTotalSize l; FileCount := len (pvcFiles l) |} in
  compareWithPrevious ds result (pvcHashes l) (len (pvcFiles l)).

(** What the check answers when the mount path does not exist. *)
Definition pvcUnmounted (ds : DocumentSet) (pvcName subPath : string) : SourceChangeResult :=
  let hasher := SHA256.Write (SHA256.Write SHA256.New pvcName) subPath in
  let result :=
    newResult (SHA256.SumHex hasher)
      {| FileHashes := None; GitBranch := ""; GitCommitHash := "";
         S3ETag := ""; LastModifiedTime := None; TotalSize := 0; FileCount := 0 |} in
  if String.eqb (LastSourceHash (DSStatus ds)) "" then set_Changed result true
  else result.

Section Watcher.

(** Three functions of the Go libraries are parameters of the model:
    [filepath.Join], [time.ParseDuration] (whose fractions go through
    floating point) and the rendering [%.0f] of a duration in seconds. *)
Variable filepath_Join : list string -> string.
Variable ParseDuration : string -> option Z.
Variable FormatSeconds : Z -> string.

(** The PVC name and sub-path of a [pvc://] URI. *)
Definition parsePVCURI (uri : string) : string * string :=
  let parts := GoStrings.SplitN2 (GoStrings.TrimPrefix uri "pvc://") "/"%char in
  (List.nth 0 parts "", if 1 <? len parts then List.nth 1 parts "" else "").

Definition checkPVCSource (w : World) (ds : DocumentSet) : result SourceChangeResult :=
  let uri := URI (Source (DSSpec ds)) in
  if negb (GoStrings.HasPrefix uri "pvc://") then Err ("invalid PVC URI: " ++ uri)
  else
    let '(pvcName, subPath) := parsePVCURI uri in
    let basePath := filepath_Join ["/mnt/pvc"; pvcName; subPath] in
    match osStat w basePath with
    | StatNotExist => Ok (pvcUnmounted ds pvcName subPath)
    | _ =>
        match pvcWalk (fsWalk w basePath) pvcEmpty with
        | Err e => Err ("failed to walk PVC directory: " ++ e)
        | Ok l => Ok (pvcDigest ds l)
        end
    end.

(** [CheckSourceChanges]: the credentials first, then the check of the
    source type. *)
Definition CheckSourceChanges (w : World) (ds : DocumentSet) : result SourceChangeResult :=
  let secret :=
    match SecretRef (Source (DSSpec ds)) with
    | None => Ok None
    | Some ref =>
        match getSecret w (Namespace (DSMeta ds)) (SecretName ref) with
        | Err e => Err ("failed to get source secret: " ++ e)
        | Ok data => Ok data
        end
    end in
  match secret with
  | Err e => Err e
  | Ok secretData =>
      let ty := SourceType (Source (DSSpec ds)) in
      if String.eqb ty SourceTypeS3 then checkS3Source w ds secretData
      else if String.eqb ty SourceTypeHTTP then checkHTTPSource w ds secretData
      else if String.eqb ty SourceTypeGit then checkGitSource w ds secretData
      else if String.eqb ty SourceTypePVC then checkPVCSource w ds
      else Err ("unsupported source type: " ++ ty)
  end.

(** [ShouldSync]: whether a sync may start now, and why. *)
Definition ShouldSync (w : World) (ds : DocumentSet) : bool * string :=
  match DSSyncPolicy (DSSpec ds) with
  | None => (false, "no sync policy configured")
  | Some policy =>
      if PauseSync policy then (false, "sync is paused")
      else if negb (String.eqb (Mode policy) SyncModeAuto) then (false, "sync mode is not auto")
      else
        let interval :=
          match ParseDuration (Interval policy) with
          | Some d => d
          | None => 5 * GoTime.Minute
          end in
        match LastSourceCheckTime (DSStatus ds) with
        | Some t =>
            let elapsed := GoTime.Since (now w) t in
            if elapsed <? interval
            then (false, "waiting for interval (" ++ FormatSeconds (wrap64 (interval - elapsed))
                           ++ "s remaining)")
            else (true, "sync interval reached")
        | None => (true, "sync interval reached")
        end
  end.

(** [GetSyncInterval]: the interval of the policy, five minutes when it
    is absent or does not parse, never less than a minute. *)
Definition GetSyncInterval (ds : DocumentSet) : Z :=
  match DSSyncPolicy (DSSpec ds) with
  | None => 5 * GoTime.Minute
  | Some policy =>
      if String.eqb (Interval policy) "" then 5 * GoTime.Minute
      else
        match ParseDuration (Interval policy) with
        | None => 5 * GoTime.Minute
        | Some interval =>
            if interval <? GoTime.Minute then GoTime.Minute else interval
        end
  end.

End Watcher.

(** ** The cluster, as a reconciliation sees it *)

(** [ctrl.Result]. *)
Record ctrlResult := { Requeue : bool; RequeueAfter : Z }.

Definition noRequeue : ctrlResult := {| Requeue := false; RequeueAfter := 0 |}.
Definition requeueNow : ctrlResult := {| Requeue := true; RequeueAfter := 0 |}.
Definition requeueIn (d : Z) : ctrlResult := {| Requeue := false; RequeueAfter := d |}.

(** [requeueAfter], thirty seconds. *)
Definition requeueAfter : Z := 30 * GoTime.Second.

(** How a call of a Go function ends: it returns a result, it returns an
    error, or it panics on a nil pointer. *)
Inductive returned :=
| Return (r : ctrlResult)
| ReturnErr (msg : string)
| Panic.

Inductive getResult (A : Type) :=
| Found (a : A)
| NotFound
| GetError (msg : string).
Arguments Found {A} a.
Arguments NotFound {A}.
Arguments GetError {A} msg.

Inductive createResult := Created | AlreadyExists | CreateError (msg : string).
Inductive deleteResult := Deleted | DeleteNotFound | DeleteError (msg : string).

(** The status of a [batchv1.Job]. *)
Record JobStatus := { Succeeded : Z; Failed : Z; Active : Z }.

(** The answers of the API server during one reconciliation of a task. *)
Record Cluster := {
  (** The first [Get], of the task itself. *)
  getSelf : getResult unit;
  (** [Get] of the DocumentSet the task names. *)
  getDocumentSet : string -> string -> result unit;
  SetControllerReference : result unit;
  (** [Create] of the workload. *)
  createJob : string -> string -> createResult;
  (** [Get] of the workload by namespace and name. *)
  getJob : string -> string -> getResult JobStatus;
  (** [Status().Update] and [Update] of the task. *)
  statusUpdate : result unit;
  update : result unit;
  (** [Delete] of the workload. *)
  deleteJob : string -> string -> deleteResult;
  (** [metav1.Now()]. *)
  clock : Z
}.

(** The writes a reconciliation sends to the API server. *)
Inductive call :=
| CallUpdate
| CallStatusUpdate
| CallCreateJob (namespace name : string)
| CallDeleteJob (namespace name : string).

(** A reconciliation of an object of type [T]: the object as the API
    server holds it afterwards, the writes sent, in order, and how the
    call ended. *)
Record run (T : Type) := {
  stored : T;
  calls : list call;
  outcome : returned
}.
Arguments stored {T} r.
Arguments calls {T} r.
Arguments outcome {T} r.

(** [metav1.Condition]. *)
Record Condition := {
  CondType : string;
  CondStatus : bool;
  Reason : string;
  CondMessage : string;
  LastTransitionTime : Z
}.

(** [meta.SetStatusCondition]: the first condition of the type is
    brought up to date, or the new one is appended. *)
Fixpoint SetStatusCondition (clk : Z) (conditions : list Condition) (new : Condition)
  : list Condition :=
  match conditions with
  | [] =>
      [ if LastTransitionTime new =? GoTime.zeroTime
        then {| CondType := CondType new; CondStatus := CondStatus new; Reason := Reason new;
                CondMessage := CondMessage new; LastTransitionTime := clk |}
        else new ]
  | c :: rest =>
      if String.eqb (CondType c) (CondType new) then
        {| CondType := CondType c;
           CondStatus := CondStatus new;
           Reason := Reason new;
           CondMessage := CondMessage new;
           LastTransitionTime :=
             if Bool.eqb (CondStatus c) (CondStatus new) then LastTransitionTime c
             else if LastTransitionTime new =? GoTime.zeroTime then clk
             else LastTransitionTime new |} :: rest
      else c :: SetStatusCondition clk rest new
  end.

(** [controllerutil.ContainsFinalizer], [AddFinalizer], [RemoveFinalizer]. *)
Definition ContainsFinalizer (m : ObjectMeta) (f : string) : bool :=
  List.existsb (String.eqb f) (Finalizers m).

Definition withFinalizers (m : ObjectMeta) (fs : list string) : ObjectMeta :=
  {| Name := Name m; Namespace := Namespace m; Generation := Generation m;
     DeletionTimestamp := DeletionTimestamp m; Finalizers := fs |}.

Definition AddFinalizer (m : ObjectMeta) (f : string) : ObjectMeta :=
  if ContainsFinalizer m f then m else withFinalizers m (Finalizers m ++ [f])%list.

Definition RemoveFinalizer (m : ObjectMeta) (f : string) : ObjectMeta :=
  withFinalizers m (List.filter (fun g => negb (String.eqb g f)) (Finalizers m)).

Record RetryPolicy := { MaxRetries : Z; BackoffSeconds : Z }.

(** [time.Duration(n) * time.Second]. *)
Definition seconds (n : Z) : Z := wrap64 (n * GoTime.Second).

(** The writes [cs] were sent before the run [r]. *)
Definition after {T} (cs : list call) (r : run T) : run T :=
  {| stored := stored r; calls := (cs ++ calls r)%list; outcome := outcome r |}.

(** ** The Embed-Task reconciler ([controllers/embeddingjob_controller.go]) *)

Record JobProgress := { TotalChunks : Z; ProcessedChunks : Z; Percentage : Z }.

Record EmbeddingJobSpec := {
  EJDocumentSet : string;
  EJRetryPolicy : option RetryPolicy
}.

Record EmbeddingJobStatus := {
  EJPhase : string;
  EJProgress : JobProgress;
  EJStartTime : option Z;
  EJCompletionTime : option Z;
  EJMessage : string;
  EJConditions : list Condition;
  EJJobRef : string;
  EJRetryCount : Z
}.

Record EmbeddingJob := {
  EJMeta : ObjectMeta;
  EJSpec : EmbeddingJobSpec;
  EJStatus : EmbeddingJobStatus
}.

Module EmbeddingJobReconciler.

Definition embeddingJobFinalizer := "embeddingjob.rag.ai/finalizer".

Definition withStatus (job : EmbeddingJob) (st : EmbeddingJobStatus) : EmbeddingJob :=
  {| EJMeta := EJMeta job; EJSpec := EJSpec job; EJStatus := st |}.

Definition withMeta (job : EmbeddingJob) (m : ObjectMeta) : EmbeddingJob :=
  {| EJMeta := m; EJSpec := EJSpec job; EJStatus := EJStatus job |}.

(** [r.Status().Update(ctx, job)] with the status [st] set on the
    object, then [return res, nil]; the error of the update otherwise. *)
Definition statusUpdateThen (c : Cluster) (job : EmbeddingJob) (st : EmbeddingJobStatus)
    (res : ctrlResult) : run EmbeddingJob :=
  match statusUpdate c with
  | Err e => {| stored := job; calls := [CallStatusUpdate]; outcome := ReturnErr e |}
  | Ok _ => {| stored := withStatus job st; calls := [CallStatusUpdate]; outcome := Return res |}
  end.

Definition initializeStatus (c : Cluster) (job : EmbeddingJob) : run EmbeddingJob :=
  let s := EJStatus job in
  statusUpdateThen c job
    {| EJPhase := EmbeddingJobPhasePending;
       EJProgress := EJProgress s; EJStartTime := EJStartTime s;
       EJCompletionTime := EJCompletionTime s;
       EJMessage := "EmbeddingJob created, waiting to start";
       EJConditions := EJConditions s; EJJobRef := EJJobRef s;
       EJRetryCount := EJRetryCount s |}
    requeueNow.

Definition updateStatusSucceeded (c : Cluster) (job : EmbeddingJob) : run EmbeddingJob :=
  let s := EJStatus job in
  let now := clock c in
  statusUpdateThen c job
    {| EJPhase := EmbeddingJobPhaseSucceeded;
       EJProgress := EJProgress s; EJStartTime := EJStartTime s;
       EJCompletionTime := Some now;
       EJMessage := "Embedding generation completed successfully";
       EJConditions :=
         SetStatusCondition now (EJConditions s)
           {| CondType := EmbeddingJobConditionVectorUpserted; CondStatus := true;
              Reason := "JobSucceeded";
              CondMessage := "All vectors upserted to vector database";
              LastTransitionTime := now |};
       EJJobRef := EJJobRef s; EJRetryCount := EJRetryCount s |}
    noRequeue.

Definition updateStatusFailed (c : Cluster) (job : EmbeddingJob) (message : string)
  : run EmbeddingJob :=
  let s := EJStatus job in
  statusUpdateThen c job
    {| EJPhase := EmbeddingJobPhaseFailed;
       EJProgress := EJProgress s; EJStartTime := EJStartTime s;
       EJCompletionTime := Some (clock c);
       EJMessage := message;
       EJConditions := EJConditions s; EJJobRef := EJJobRef s;
       EJRetryCount := EJRetryCount s |}
    noRequeue.

(** The name of the workload [buildK8sJob] builds; the rest of the
    workload (image, command, environment) plays no part below. *)
Definition k8sJobName (job : EmbeddingJob) : string := Name (EJMeta job) ++ "-job".

Definition handlePendingPhase (c : Cluster) (job : EmbeddingJob) : run EmbeddingJob :=
  let ns := Namespace (EJMeta job) in
  match getDocumentSet c ns (EJDocumentSet (EJSpec job)) with
  | Err e => updateStatusFailed c job ("Failed to get DocumentSet: " ++ e)
  | Ok _ =>
      match SetControllerReference c with
      | Err e => {| stored := job; calls := []; outcome := ReturnErr e |}
      | Ok _ =>
          let created := [CallCreateJob ns (k8sJobName job)] in
          let start :=
            let s := EJStatus job in
            let now := clock c in
            after created
              (statusUpdateThen c job
                 {| EJPhase := EmbeddingJobPhaseRunning;
                    EJProgress := EJProgress s; EJStartTime := Some now;
                    EJCompletionTime := EJCompletionTime s;
                    EJMessage := "Kubernetes Job created, processing embeddings";
                    EJConditions :=
                      SetStatusCondition now (EJConditions s)
                        {| CondType := EmbeddingJobConditionStarted; CondStatus := true;
                           Reason := "JobCreated";
                           CondMessage := "Kubernetes Job created successfully";
                           LastTransitionTime := now |};
                    EJJobRef := k8sJobName job; EJRetryCount := EJRetryCount s |}
                 (requeueIn requeueAfter)) in
          match createJob c ns (k8sJobName job) with
          | Created | AlreadyExists => start
          | CreateError e =>
              after created (updateStatusFailed c job ("Failed to create Job: " ++ e))
          end
      end
  end.

Definition handleRunningPhase (c : Cluster) (job : EmbeddingJob) : run EmbeddingJob :=
  let s := EJStatus job in
  let ns := Namespace (EJMeta job) in
  let jobName := if String.eqb (EJJobRef s) "" then k8sJobName job else EJJobRef s in
  match getJob c ns jobName with
  | NotFound => initializeStatus c job
  | GetError e => {| stored := job; calls := []; outcome := ReturnErr e |}
  | Found k8sJob =>
      if 0 <? Succeeded k8sJob then updateStatusSucceeded c job
      else if 0 <? Failed k8sJob then
        let maxRetries :=
          match EJRetryPolicy (EJSpec job) with
          | Some p => MaxRetries p
          | None => 3
          end in
        if EJRetryCount s <? maxRetries then
          let retryCount := EJRetryCount s + 1 in
          let retrying :=
            {| EJPhase := EmbeddingJobPhasePending;
               EJProgress := EJProgress s; EJStartTime := EJStartTime s;
               EJCompletionTime := EJCompletionTime s;
               EJMessage := "Retrying (" ++ GoStrings.FormatInt retryCount ++ "/"
                              ++ GoStrings.FormatInt maxRetries ++ ")";
               EJConditions := EJConditions s; EJJobRef := EJJobRef s;
               EJRetryCount := retryCount |} in
          match statusUpdate c with
          | Err e => {| stored := job; calls := [CallStatusUpdate]; outcome := ReturnErr e |}
          | Ok _ =>
              let sent := [CallStatusUpdate; CallDeleteJob ns jobName] in
              match deleteJob c ns jobName with
              | DeleteError e =>
                  {| stored := withStatus job retrying; calls := sent; outcome := ReturnErr e |}
              | Deleted | DeleteNotFound =>
                  {| stored := withStatus job retrying; calls := sent;
                     outcome :=
                       match EJRetryPolicy (EJSpec job) with
                       | Some p => Return (requeueIn (seconds (BackoffSeconds p)))
                       | None => Panic
                       end |}
              end
          end
        else updateStatusFailed c job "Job failed after maximum retries"
      else
        statusUpdateThen c job
          {| EJPhase := EJPhase s;
             EJProgress := EJProgress s; EJStartTime := EJStartTime s;
             EJCompletionTime := EJCompletionTime s;
             EJMessage := "Job running: " ++ GoStrings.FormatInt (Active k8sJob) ++ " active pods";
             EJConditions := EJConditions s; EJJobRef := EJJobRef s;
             EJRetryCount := EJRetryCount s |}
          (requeueIn requeueAfter)
  end.

Definition handleDeletion (c : Cluster) (job : EmbeddingJob) : run EmbeddingJob :=
  match update c with
  | Err e => {| stored := job; calls := [CallUpdate]; outcome := ReturnErr e |}
  | Ok _ =>
      {| stored := withMeta job (RemoveFinalizer (EJMeta job) embeddingJobFinalizer);
         calls := [CallUpdate]; outcome := Return noRequeue |}
  end.

Definition Reconcile (c : Cluster) (job : EmbeddingJob) : run EmbeddingJob :=
  match getSelf c with
  | NotFound => {| stored := job; calls := []; outcome := Return noRequeue |}
  | GetError e => {| stored := job; calls := []; outcome := ReturnErr e |}
  | Found _ =>
      if negb (metav1_IsZero (DeletionTimestamp (EJMeta job))) then handleDeletion c job
      else if negb (ContainsFinalizer (EJMeta job) embeddingJobFinalizer) then
        match update c with
        | Err e => {| stored := job; calls := [CallUpdate]; outcome := ReturnErr e |}
        | Ok _ =>
            {| stored := withMeta job (AddFinalizer (EJMeta job) embeddingJobFinalizer);
               calls := [CallUpdate]; outcome := Return requeueNow |}
        end
      else
        let phase := EJPhase (EJStatus job) in
        if String.eqb phase "" then initializeStatus c job
        else if String.eqb phase EmbeddingJobPhasePending then handlePendingPhase c job
        else if String.eqb phase EmbeddingJobPhaseRunning then handleRunningPhase c job
        else if String.eqb phase EmbeddingJobPhaseSucceeded
                || String.eqb phase EmbeddingJobPhaseFailed
        then {| stored := job; calls := []; outcome := Return noRequeue |}
        else initializeStatus c job
  end.

End EmbeddingJobReconciler.

(** ** The Index-Task reconciler ([controllers/indexjob_controller.go]) *)

Record IndexProgress := { IndexedVectors : Z; TotalVectors : Z; IndexPercentage : Z }.

Record IndexJobSpec := {
  IJDocumentSet : string;
  IJCollection : string;
  TargetAlias : string;
  IJRetryPolicy : option RetryPolicy
}.

Record IndexJobStatus := {
  IJPhase : string;
  IJProgress : IndexProgress;
  IJMessage : string;
  IJStartTime : option Z;
  IJCompletionTime : option Z;
  IJConditions : list Condition;
  IJJobRef : string;
  AliasSwapped : bool;
  IJRetryCount : Z
}.

Record IndexJob := {
  IJMeta : ObjectMeta;
  IJSpec : IndexJobSpec;
  IJStatus : IndexJobStatus
}.

Module IndexJobReconciler.

Definition indexJobFinalizer := "indexjob.rag.ai/finalizer".

Definition withStatus (job : IndexJob) (st : IndexJobStatus) : IndexJob :=
  {| IJMeta := IJMeta job; IJSpec := IJSpec job; IJStatus := st |}.

Definition withMeta (job : IndexJob) (m : ObjectMeta) : IndexJob :=
  {| IJMeta := m; IJSpec := IJSpec job; IJStatus := IJStatus job |}.

Definition statusUpdateThen (c : Cluster) (job : IndexJob) (st : IndexJobStatus)
    (res : ctrlResult) : run IndexJob :=
  match statusUpdate c with
  | Err e => {| stored := job; calls := [CallStatusUpdate]; outcome := ReturnErr e |}
  | Ok _ => {| stored := withStatus job st; calls := [CallStatusUpdate]; outcome := Return res |}
  end.

Definition initializeStatus (c : Cluster) (job : IndexJob) : run IndexJob :=
  let s := IJStatus job in
  statusUpdateThen c job
    {| IJPhase := IndexJobPhasePending; IJProgress := IJProgress s;
       IJMessage := "IndexJob created, waiting to start";
       IJStartTime := IJStartTime s; IJCompletionTime := IJCompletionTime s;
       IJConditions := IJConditions s; IJJobRef := IJJobRef s;
       AliasSwapped := AliasSwapped s; IJRetryCount := IJRetryCount s |}
    requeueNow.

Definition updateStatusFailed (c : Cluster) (job : IndexJob) (message : string)
  : run IndexJob :=
  let s := IJStatus job in
  statusUpdateThen c job
    {| IJPhase := IndexJobPhaseFailed; IJProgress := IJProgress s;
       IJMessage := message;
       IJStartTime := IJStartTime s; IJCompletionTime := Some (clock c);
       IJConditions := IJConditions s; IJJobRef := IJJobRef s;
       AliasSwapped := AliasSwapped s; IJRetryCount := IJRetryCount s |}
    noRequeue.

Definition k8sJobName (job : IndexJob) : string := Name (IJMeta job) ++ "-job".

Definition handlePendingPhase (c : Cluster) (job : IndexJob) : run IndexJob :=
  let ns := Namespace (IJMeta job) in
  match getDocumentSet c ns (IJDocumentSet (IJSpec job)) with
  | Err e => updateStatusFailed c job ("Failed to get DocumentSet: " ++ e)
  | Ok _ =>
      match SetControllerReference c with
      | Err e => {| stored := job; calls := []; outcome := ReturnErr e |}
      | Ok _ =>
          let created := [CallCreateJob ns (k8sJobName job)] in
          let start :=
            let s := IJStatus job in
            let now := clock c in
            after created
              (statusUpdateThen c job
                 {| IJPhase := IndexJobPhaseBuilding; IJProgress := IJProgress s;
                    IJMessage := "Index building started";
                    IJStartTime := Some now; IJCompletionTime := IJCompletionTime s;
                    IJConditions :=
                      SetStatusCondition now (IJConditions s)
                        {| CondType := IndexJobConditionIndexCreated; CondStatus := false;
                           Reason := "BuildingIndex";
                           CondMessage := "Index build in progress";
                           LastTransitionTime := now |};
                    IJJobRef := k8sJobName job;
                    AliasSwapped := AliasSwapped s; IJRetryCount := IJRetryCount s |}
                 (requeueIn requeueAfter)) in
          match createJob c ns (k8sJobName job) with
          | Created | AlreadyExists => start
          | CreateError e =>
              after created (updateStatusFailed c job ("Failed to create Job: " ++ e))
          end
      end
  end.

Definition handleJobSucceeded (c : Cluster) (job : IndexJob) : run IndexJob :=
  let s := IJStatus job in
  let now := clock c in
  let conds1 :=
    SetStatusCondition now (IJConditions s)
      {| CondType := IndexJobConditionIndexCreated; CondStatus := true;
         Reason := "IndexBuilt"; CondMessage := "Index built successfully";
         LastTransitionTime := now |} in
  let swap := negb (String.eqb (TargetAlias (IJSpec job)) "") in
  let conds2 :=
    if swap then
      SetStatusCondition now conds1
        {| CondType := IndexJobConditionAliasSwapped; CondStatus := true;
           Reason := "AliasSwapped";
           CondMessage := "Alias '" ++ TargetAlias (IJSpec job)
                            ++ "' switched to collection '" ++ IJCollection (IJSpec job) ++ "'";
           LastTransitionTime := now |}
    else conds1 in
  statusUpdateThen c job
    {| IJPhase := IndexJobPhaseSucceeded; IJProgress := IJProgress s;
       IJMessage := "Index building completed successfully";
       IJStartTime := IJStartTime s; IJCompletionTime := Some now;
       IJConditions :=
         SetStatusCondition now conds2
           {| CondType := IndexJobConditionIndexOptimized; CondStatus := true;
              Reason := "IndexOptimized";
              CondMessage := "Index optimized and ready for queries";
              LastTransitionTime := now |};
       IJJobRef := IJJobRef s;
       AliasSwapped := if swap then true else AliasSwapped s;
       IJRetryCount := IJRetryCount s |}
    noRequeue.

Definition handleOptimizingPhase (c : Cluster) (job : IndexJob) : run IndexJob :=
  handleJobSucceeded c job.

Definition handleBuildingPhase (c : Cluster) (job : IndexJob) : run IndexJob :=
  let s := IJStatus job in
  let ns := Namespace (IJMeta job) in
  let jobName := if String.eqb (IJJobRef s) "" then k8sJobName job else IJJobRef s in
  match getJob c ns jobName with
  | NotFound => initializeStatus c job
  | GetError e => {| stored := job; calls := []; outcome := ReturnErr e |}
  | Found k8sJob =>
      if 0 <? Succeeded k8sJob then handleJobSucceeded c job
      else if 0 <? Failed k8sJob then
        let maxRetries :=
          match IJRetryPolicy (IJSpec job) with
          | Some p => MaxRetries p
          | None => 3
          end in
        if IJRetryCount s <? maxRetries then
          let retryCount := IJRetryCount s + 1 in
          let retrying :=
            {| IJPhase := IndexJobPhasePending; IJProgress := IJProgress s;
               IJMessage := "Retrying (" ++ GoStrings.FormatInt retryCount ++ "/"
                              ++ GoStrings.FormatInt maxRetries ++ ")";
               IJStartTime := IJStartTime s; IJCompletionTime := IJCompletionTime s;
               IJConditions := IJConditions s; IJJobRef := IJJobRef s;
               AliasSwapped := AliasSwapped s; IJRetryCount := retryCount |} in
          match statusUpdate c with
          | Err e => {| stored := job; calls := [CallStatusUpdate]; outcome := ReturnErr e |}
          | Ok _ =>
              let sent := [CallStatusUpdate; CallDeleteJob ns jobName] in
              match deleteJob c ns jobName with
              | DeleteError e =>
                  {| stored := withStatus job retrying; calls := sent; outcome := ReturnErr e |}
              | Deleted | DeleteNotFound =>
                  let backoff :=
                    match IJRetryPolicy (IJSpec job) with
                    | Some p => BackoffSeconds p
                    | None => 30
                    end in
                  {| stored := withStatus job retrying; calls := sent;
                     outcome := Return (requeueIn (seconds backoff)) |}
              end
          end
        else updateStatusFailed c job "Job failed after maximum retries"
      else
        statusUpdateThen c job
          {| IJPhase := IJPhase s; IJProgress := IJProgress s;
             IJMessage := "Index build running: " ++ GoStrings.FormatInt (Active k8sJob)
                            ++ " active pods";
             IJStartTime := IJStartTime s; IJCompletionTime := IJCompletionTime s;
             IJConditions := IJConditions s; IJJobRef := IJJobRef s;
             AliasSwapped := AliasSwapped s; IJRetryCount := IJRetryCount s |}
          (requeueIn requeueAfter)
  end.

Definition handleDeletion (c : Cluster) (job : IndexJob) : run IndexJob :=
  match update c with
  | Err e => {| stored := job; calls := [CallUpdate]; outcome := ReturnErr e |}
  | Ok _ =>
      {| stored := withMeta job (RemoveFinalizer (IJMeta job) indexJobFinalizer);
         calls := [CallUpdate]; outcome := Return noRequeue |}
  end.

Definition Reconcile (c : Cluster) (job : IndexJob) : run IndexJob :=
  match getSelf c with
  | NotFound => {| stored := job; calls := []; outcome := Return noRequeue |}
  | GetError e => {| stored := job; calls := []; outcome := ReturnErr e |}
  | Found _ =>
      if negb (metav1_IsZero (DeletionTimestamp (IJMeta job))) then handleDeletion c job
      else if negb (ContainsFinalizer (IJMeta job) indexJobFinalizer) then
        match update c with
        | Err e => {| stored := job; calls := [CallUpdate]; outcome := ReturnErr e |}
        | Ok _ =>
            {| stored := withMeta job (AddFinalizer (IJMeta job) indexJobFinalizer);
               calls := [CallUpdate]; outcome := Return requeueNow |}
        end
      else
        let phase := IJPhase (IJStatus job) in
        if String.eqb phase "" then initializeStatus c job
        else if String.eqb phase IndexJobPhasePending then handlePendingPhase c job
        else if String.eqb phase IndexJobPhaseBuilding then handleBuildingPhase c job
        else if String.eqb phase IndexJobPhaseOptimizing then handleOptimizingPhase c job
        else if String.eqb phase IndexJobPhaseSucceeded
                || String.eqb phase IndexJobPhaseFailed
        then {| stored := job; calls := []; outcome := Return noRequeue |}
        else initializeStatus c job
  end.

End IndexJobReconciler.

(** ** The Pipeline reconciler ([controllers/documentset_controller.go]) *)

Module DocumentSetReconciler.

Definition withStatus (ds : DocumentSet) (st : DocumentSetStatus) : DocumentSet :=
  {| DSMeta := DSMeta ds; DSSpec := DSSpec ds; DSStatus := st |}.

Definition initializeStatus (c : Cluster) (ds : DocumentSet) : run DocumentSet :=
  let s := DSStatus ds in
  let st :=
    {| DSPhase := DocumentSetPhasePending;
       DSMessage := "DocumentSet created, waiting for processing";
       LastUpdateTime := Some (clock c);
       ObservedGeneration := Generation (DSMeta ds);
       LastSourceHash := LastSourceHash s;
       DSSourceMetadata := DSSourceMetadata s;
       LastSourceCheckTime := LastSourceCheckTime s |} in
  match statusUpdate c with
  | Err e => {| stored := ds; calls := [CallStatusUpdate]; outcome := ReturnErr e |}
  | Ok _ => {| stored := withStatus ds st; calls := [CallStatusUpdate];
               outcome := Return requeueNow |}
  end.

(** [handleReadyPhase]: a new generation of the spec restarts the
    pipeline; nothing else does. *)
Definition handleReadyPhase (c : Cluster) (ds : DocumentSet) : run DocumentSet :=
  if negb (Generation (DSMeta ds) =? ObservedGeneration (DSStatus ds))
  then initializeStatus c ds
  else {| stored := ds; calls := []; outcome := Return noRequeue |}.

End DocumentSetReconciler.

(** ** Instances used to run the model *)

(** [filepath.Join] on elements that are already clean: the non-empty
    ones, separated by slashes. *)
Definition filepath_Join_clean (elems : list string) : string :=
  String.concat "/" (List.filter (fun e => negb (String.eqb e "")) elems).

Definition mkObject (key etag : string) (size : Z) : S3Object :=
  {| ObjKey := Some key; ObjETag := Some etag; ObjSize := Some size |}.

(** A world in which nothing is reachable: no secret data, an empty
    bucket, no HTTP server, no mounted volume. *)
Definition quietWorld : World :=
  {| getSecret := fun _ _ => Ok None;
     awsLoadDefaultConfig := fun _ => Ok tt;
     s3ListPages := fun _ _ _ => [Ok []];
     httpNewRequest := fun _ _ => Ok tt;
     httpDo := fun _ _ => Err "connection refused";
     osStat := fun _ => StatNotExist;
     fsWalk := fun _ => [];
     now := 0;
     nowCivil := {| GoTime.Year := 2025; GoTime.Month := 1; GoTime.Day := 15;
                    GoTime.HourOfDay := 10 |} |}.

(** The world of a bucket: what it lists, and the time of the clock. *)
Definition bucketWorld (pages : list (result (list S3Object))) (clk : Z) : World :=
  {| getSecret := getSecret quietWorld;
     awsLoadDefaultConfig := awsLoadDefaultConfig quietWorld;
     s3ListPages := fun _ _ _ => pages;
     httpNewRequest := httpNewRequest quietWorld;
     httpDo := httpDo quietWorld;
     osStat := osStat quietWorld;
     fsWalk := fsWalk quietWorld;
     now := clk;
     nowCivil := nowCivil quietWorld |}.


(** The world at a given hour of 15 January 2025. *)
Definition worldAtHour (h : Z) : World :=
  {| getSecret := getSecret quietWorld;
     awsLoadDefaultConfig := awsLoadDefaultConfig quietWorld;
     s3ListPages := s3ListPages quietWorld;
     httpNewRequest := httpNewRequest quietWorld;
     httpDo := httpDo quietWorld;
     osStat := osStat quietWorld;
     fsWalk := fsWalk quietWorld;
     now := now quietWorld;
     nowCivil := {| GoTime.Year := 2025; GoTime.Month := 1; GoTime.Day := 15;
                    GoTime.HourOfDay := h |} |}.

Definition mkMeta (name : string) (gen : Z) (fins : list string) : ObjectMeta :=
  {| Name := name; Namespace := "default"; Generation := gen;
     DeletionTimestamp := None; Finalizers := fins |}.

(** A pipeline over a source, with a sync policy and a recorded state. *)
Definition mkPipeline (ty uri : string) (policy : option SyncPolicy) (phase : string)
    (lastHash : string) (md : option SourceMetadata) (lastCheck : option Z) : DocumentSet :=
  {| DSMeta := mkMeta "docs" 1 ["documentset.rag.ai/finalizer"];
     DSSpec := {| Source := {| SourceType := ty; URI := uri; SecretRef := None |};
                  AutoRetry := true; DSSyncPolicy := policy |};
     DSStatus := {| DSPhase := phase; DSMessage := ""; LastUpdateTime := None;
                    ObservedGeneration := 1; LastSourceHash := lastHash;
                    DSSourceMetadata := md; LastSourceCheckTime := lastCheck |} |}.

Definition autoEvery (interval : string) : SyncPolicy :=
  {| Mode := SyncModeAuto; Interval := interval; PauseSync := false |}.

(** A Ready pipeline over a bucket that held [a] (ETag x) and [b] (ETag y)
    when it was last synchronised, checked at instant 0, policy: auto,
    every minute. *)
Definition readyPipeline : DocumentSet :=
  mkPipeline SourceTypeS3 "s3://company-docs/manuals/" (Some (autoEvery "1m"))
    DocumentSetPhaseReady (SHA256.hex "axby")
    (Some {| FileHashes := Some (<["a" := "x"]> (<["b" := "y"]> ∅));
             GitBranch := ""; GitCommitHash := ""; S3ETag := "";
             LastModifiedTime := None; TotalSize := 20; FileCount := 2 |})
    (Some 0).

(** Two minutes later the bucket holds [a] (ETag x) and [c] (ETag z). *)
Definition changedBucket : World :=
  bucketWorld [Ok [mkObject "a" "x" 10; mkObject "c" "z" 7]] (2 * GoTime.Minute).

(** A healthy API server. *)
Definition healthyCluster (job : getResult JobStatus) : Cluster :=
  {| getSelf := Found tt;
     getDocumentSet := fun _ _ => Ok tt;
     SetControllerReference := Ok tt;
     createJob := fun _ _ => Created;
     getJob := fun _ _ => job;
     statusUpdate := Ok tt;
     update := Ok tt;
     deleteJob := fun _ _ => Deleted;
     clock := 1000 |}.

Definition emptyProgress : JobProgress :=
  {| TotalChunks := 0; ProcessedChunks := 0; Percentage := 0 |}.

(** A running Embed Task that has retried [n] times. *)
Definition runningEmbedTask (policy : option RetryPolicy) (n : Z) : EmbeddingJob :=
  {| EJMeta := mkMeta "docs-embedding-1" 1 ["embeddingjob.rag.ai/finalizer"];
     EJSpec := {| EJDocumentSet := "docs"; EJRetryPolicy := policy |};
     EJStatus := {| EJPhase := EmbeddingJobPhaseRunning; EJProgress := emptyProgress;
                    EJStartTime := Some 0; EJCompletionTime := None;
                    EJMessage := "Kubernetes Job created, processing embeddings";
                    EJConditions := []; EJJobRef := "docs-embedding-1-job";
                    EJRetryCount := n |} |}.

Definition emptyIndexProgress : IndexProgress :=
  {| IndexedVectors := 0; TotalVectors := 0; IndexPercentage := 0 |}.

(** A building Index Task that has retried [n] times. *)
Definition buildingIndexTask (policy : option RetryPolicy) (n : Z) : IndexJob :=
  {| IJMeta := mkMeta "docs-index-1" 1 ["indexjob.rag.ai/finalizer"];
     IJSpec := {| IJDocumentSet := "docs"; IJCollection := "docs_20250115100000";
                  TargetAlias := "docs_prod"; IJRetryPolicy := policy |};
     IJStatus := {| IJPhase := IndexJobPhaseBuilding; IJProgress := emptyIndexProgress;
                    IJMessage := "Index building started";
                    IJStartTime := Some 0; IJCompletionTime := None;
                    IJConditions := []; IJJobRef := "docs-index-1-job";
                    AliasSwapped := false; IJRetryCount := n |} |}.

(** A workload with one failed pod. *)
Definition failedOnce : JobStatus := {| Succeeded := 0; Failed := 1; Active := 0 |}.

(** A pipeline over a Git repository, never checked before. *)
Definition gitPipeline : DocumentSet :=
  mkPipeline SourceTypeGit "https://github.com/company/wiki.git#main"
    (Some (autoEvery "5m")) DocumentSetPhaseReady "" None None.

(** A Ready pipeline whose policy asks for a check every ten seconds,
    last checked at instant 0. *)
Definition hastyPipeline : DocumentSet :=
  mkPipeline SourceTypeS3 "s3://company-docs/manuals/" (Some (autoEvery "10s"))
    DocumentSetPhaseReady (SHA256.hex "axby") None (Some 0).

(** ** Notions used in the statements *)

(** The retry policy in force: the one of the spec, three retries when
    the spec has none. *)
Definition effectiveMaxRetries (p : option RetryPolicy) : Z :=
  match p with
  | Some rp => MaxRetries rp
  | None => 3
  end.

Definition deleteFailed (d : deleteResult) : bool :=
  match d with DeleteError _ => true | _ => false end.

(** A byte that does not occur in a string. *)
Fixpoint absent (c : ascii) (s : string) : Prop :=
  match s with
  | EmptyString => True
  | String d s' => d <> c /\ absent c s'
  end.

(** The interval [ShouldSync] compares with: the parsed one, five minutes
    when the string does not parse. *)
Definition parsedInterval (ParseDuration : string -> option Z) (policy : SyncPolicy) : Z :=
  match ParseDuration (Interval policy) with
  | Some d => d
  | None => 5 * GoTime.Minute
  end.

(** A file name followed by its entry in a hash map. *)
Definition keyed (hashes : gmap string string) (f : string) : string :=
  f ++ default "" (hashes !! f).

(** The key of a listed object, its ETag without the quotation marks
    around it, and its size. *)
Definition s3Key (o : S3Object) : string := aws_ToString (ObjKey o).
Definition s3ETag (o : S3Object) : string :=
  GoStrings.TrimByte (aws_ToString (ObjETag o)) GoStrings.quote.
Definition s3Size (o : S3Object) : Z := aws_ToInt64 (ObjSize o).

(** The objects of a listing that are files: those whose key does not
    end in a slash. *)
Definition s3Files (objs : list S3Object) : list S3Object :=
  List.filter (fun o => negb (GoStrings.HasSuffixSlash (s3Key o))) objs.

Fixpoint sumSizes (objs : list S3Object) : Z :=
  match objs with
  | [] => 0
  | o :: rest => s3Size o + sumSizes rest
  end.

(** [n] copies of a byte. *)
Fixpoint repeat_byte (c : ascii) (n : nat) : string :=
  match n with
  | O => EmptyString
  | S n' => String c (repeat_byte c n')
  end.

Definition first_byte (s : string) : option ascii :=
  match s with
  | EmptyString => None
  | String c _ => Some c
  end.

(** The three lists of a diff, read off the entries of the two maps. *)
Definition addedIn (old : gmap string string) (entries : list (string * string)) : list string :=
  List.map fst (List.filter (fun e => match old !! fst e with None => true | Some _ => false end)
                  entries).

Definition changedIn (old : gmap string string) (entries : list (string * string)) : list string :=
  List.map fst (List.filter (fun e => match old !! fst e with
                                      | None => false
                                      | Some h => negb (String.eqb h (snd e))
                                      end)
                  entries).

(** The change determination of a check, for a pipeline [ds], the result
    [r] of the check and the per-file hashes [current] it found:
    - no previous digest: changed, every current file counted as added;
    - the previous digest again: not changed;
    - another digest: changed, and when the previous per-file hashes are at
      hand the three lists are the diff of the previous and the current
      hashes, with their lengths as counts. *)
Definition changeDetermination (ds : DocumentSet) (r : SourceChangeResult)
    (current : gmap string string) : Prop :=
  let last := LastSourceHash (DSStatus ds) in
  exists md,
    NewMetadata r = Some md
    /\ (last = "" -> Changed r = true /\ FilesAdded r = FileCount md)
    /\ (last = NewHash r -> Changed r = false)
    /\ (last <> "" -> last <> NewHash r ->
        Changed r = true
        /\ forall prev old,
             DSSourceMetadata (DSStatus ds) = Some prev ->
             FileHashes prev = Some old ->
             (AddedFiles r, DeletedFiles r, ChangedFiles r) = diffFileHashes old current
             /\ FilesAdded r = len (AddedFiles r)
             /\ FilesDeleted r = len (DeletedFiles r)
             /\ FilesChanged r = len (ChangedFiles r)).

(** The pipeline of scenario S1 once Ready, and the listing of scenario
    S3: [a] unchanged, [b] gone, [c] new. *)
Definition listingS3 : s3Listing :=
  {| allFiles := ["a"; "c"];
     fileHashes := <["a" := "x"]> (<["c" := "z"]> ∅);
     totalSize := 17; fileCount := 2 |}.

(** The hash the walk records for a regular file, and the files of a
    walk with their hashes. *)
Definition pvcFileHash (size modTime : Z) (md5 : result string) : string :=
  if size <? hashLimit then
    match md5 with
    | Ok hash => hash
    | Err _ => syntheticHash modTime size
    end
  else syntheticHash modTime size.

Fixpoint walkFiles (entries : list walkEntry) : list (string * string) :=
  match entries with
  | [] => []
  | WalkFile relPath size modTime md5 :: rest =>
      (relPath, pvcFileHash size modTime md5) :: walkFiles rest
  | _ :: rest => walkFiles rest
  end.

Definition walkFails (e : walkEntry) : bool :=
  match e with WalkError _ => true | _ => false end.

(** *** The life of a task *)

(** A terminal phase of a task. *)
Definition terminal (phase : string) : Prop := phase = "Succeeded" \/ phase = "Failed".

Definition withProgress (job : EmbeddingJob) (p : JobProgress) : EmbeddingJob :=
  let s := EJStatus job in
  EmbeddingJobReconciler.withStatus job
    {| EJPhase := EJPhase s; EJProgress := p; EJStartTime := EJStartTime s;
       EJCompletionTime := EJCompletionTime s; EJMessage := EJMessage s;
       EJConditions := EJConditions s; EJJobRef := EJJobRef s;
       EJRetryCount := EJRetryCount s |}.

Definition withIndexProgress (job : IndexJob) (p : IndexProgress) : IndexJob :=
  let s := IJStatus job in
  IndexJobReconciler.withStatus job
    {| IJPhase := IJPhase s; IJProgress := p; IJMessage := IJMessage s;
       IJStartTime := IJStartTime s; IJCompletionTime := IJCompletionTime s;
       IJConditions := IJConditions s; IJJobRef := IJJobRef s;
       AliasSwapped := AliasSwapped s; IJRetryCount := IJRetryCount s |}.

(** The metadata after an edit of the spec: the generation [g]. *)
Definition withGeneration (m : ObjectMeta) (g : Z) : ObjectMeta :=
  {| Name := Name m; Namespace := Namespace m; Generation := g;
     DeletionTimestamp := DeletionTimestamp m; Finalizers := Finalizers m |}.

(** A task after an edit of its spec by a user: another spec, retry
    policy included, and another generation; the status is kept. *)
Definition embedEdited (job : EmbeddingJob) (spec : EmbeddingJobSpec) (g : Z) : EmbeddingJob :=
  {| EJMeta := withGeneration (EJMeta job) g; EJSpec := spec; EJStatus := EJStatus job |}.

Definition indexEdited (job : IndexJob) (spec : IndexJobSpec) (g : Z) : IndexJob :=
  {| IJMeta := withGeneration (IJMeta job) g; IJSpec := spec; IJStatus := IJStatus job |}.

(** The states an Embed Task goes through from the state [job0] in which
    it was created: the reconciler runs, against any answers of the API
    server, the worker reports its progress, and a user edits the spec,
    by an edit that [admitted] lets through for the task as it is. *)
Inductive embedReachable (admitted : EmbeddingJob -> EmbeddingJobSpec -> Prop)
    (job0 : EmbeddingJob) : EmbeddingJob -> Prop :=
| embed_created : embedReachable admitted job0 job0
| embed_reconciled (c : Cluster) (job : EmbeddingJob) :
    embedReachable admitted job0 job ->
    embedReachable admitted job0 (stored (EmbeddingJobReconciler.Reconcile c job))
| embed_progress (p : JobProgress) (job : EmbeddingJob) :
    embedReachable admitted job0 job ->
    embedReachable admitted job0 (withProgress job p)
| embed_edited (spec : EmbeddingJobSpec) (g : Z) (job : EmbeddingJob) :
    embedReachable admitted job0 job ->
    admitted job spec ->
    Generation (EJMeta job) <= g ->
    embedReachable admitted job0 (embedEdited job spec g).

(** The same for an Index Task. *)
Inductive indexReachable (admitted : IndexJob -> IndexJobSpec -> Prop)
    (job0 : IndexJob) : IndexJob -> Prop :=
| index_created : indexReachable admitted job0 job0
| index_reconciled (c : Cluster) (job : IndexJob) :
    indexReachable admitted job0 job ->
    indexReachable admitted job0 (stored (IndexJobReconciler.Reconcile c job))
| index_progress (p : IndexProgress) (job : IndexJob) :
    indexReachable admitted job0 job ->
    indexReachable admitted job0 (withIndexProgress job p)
| index_edited (spec : IndexJobSpec) (g : Z) (job : IndexJob) :
    indexReachable admitted job0 job ->
    admitted job spec ->
    Generation (IJMeta job) <= g ->
    indexReachable admitted job0 (indexEdited job spec g).

(** Every edit of the spec. *)
Definition anyEdit {T S : Type} (job : T) (spec : S) : Prop := True.

(** The edits that leave the bound of the new retry policy at or above
    the retries already made. *)
Definition keepsEmbedBound (job : EmbeddingJob) (spec : EmbeddingJobSpec) : Prop :=
  EJRetryCount (EJStatus job) <= effectiveMaxRetries (EJRetryPolicy spec).

Definition keepsIndexBound (job : IndexJob) (spec : IndexJobSpec) : Prop :=
  IJRetryCount (IJStatus job) <= effectiveMaxRetries (IJRetryPolicy spec).

(** A task after a series of reconciliations, one against each of the
    API servers of the list. *)
Definition embedAfter (cs : list Cluster) (job : EmbeddingJob) : EmbeddingJob :=
  List.fold_left (fun j c => stored (EmbeddingJobReconciler.Reconcile c j)) cs job.

Definition indexAfter (cs : list Cluster) (job : IndexJob) : IndexJob :=
  List.fold_left (fun j c => stored (IndexJobReconciler.Reconcile c j)) cs job.

(** An Embed Task and an Index Task as the Pipeline reconciler creates
    them: no status yet. *)
Definition newEmbedTask (policy : option RetryPolicy) : EmbeddingJob :=
  {| EJMeta := mkMeta "docs-embedding-1" 1 [];
     EJSpec := {| EJDocumentSet := "docs"; EJRetryPolicy := policy |};
     EJStatus := {| EJPhase := ""; EJProgress := emptyProgress;
                    EJStartTime := None; EJCompletionTime := None;
                    EJMessage := ""; EJConditions := []; EJJobRef := "";
                    EJRetryCount := 0 |} |}.

Definition newIndexTask (policy : option RetryPolicy) : IndexJob :=
  {| IJMeta := mkMeta "docs-index-1" 1 [];
     IJSpec := {| IJDocumentSet := "docs"; IJCollection := "docs_20250115100000";
                  TargetAlias := "docs_prod"; IJRetryPolicy := policy |};
     IJStatus := {| IJPhase := ""; IJProgress := emptyIndexProgress;
                    IJMessage := ""; IJStartTime := None; IJCompletionTime := None;
                    IJConditions := []; IJJobRef := "";
                    AliasSwapped := false; IJRetryCount := 0 |} |}.

(** The retry policy the Pipeline reconciler gives its tasks. *)
Definition defaultPolicy : RetryPolicy := {| MaxRetries := 3; BackoffSeconds := 30 |}.

(** A step of an Embed Task: the spec is kept, and the retry count is
    kept or, below the bound, goes up by one. *)
Definition embedStep (job job' : EmbeddingJob) : Prop :=
  EJSpec job' = EJSpec job
  /\ (EJRetryCount (EJStatus job') = EJRetryCount (EJStatus job)
      \/ (EJRetryCount (EJStatus job') = EJRetryCount (EJStatus job) + 1
          /\ EJRetryCount (EJStatus job) < effectiveMaxRetries (EJRetryPolicy (EJSpec job)))).

Definition indexStep (job job' : IndexJob) : Prop :=
  IJSpec job' = IJSpec job
  /\ (IJRetryCount (IJStatus job') = IJRetryCount (IJStatus job)
      \/ (IJRetryCount (IJStatus job') = IJRetryCount (IJStatus job) + 1
          /\ IJRetryCount (IJStatus job) < effectiveMaxRetries (IJRetryPolicy (IJSpec job)))).

(** *** HTTP and PVC sources *)





(** A pipeline over a volume, with the digest recorded last. *)
Definition pvcPipeline (lastHash : string) : DocumentSet :=
  mkPipeline SourceTypePVC "pvc://docs-volume/manuals/en"
    (Some (autoEvery "5m")) DocumentSetPhaseReady lastHash None None.


(** ** The Pipeline reconciler, in full ([controllers/documentset_controller.go]) *)

(** The wall clock to the second, and [t.Format("20060102150405")]. *)
Record Stamp := { StampHour : GoTime.Civil; MinuteOfHour : Z; SecondOfMinute : Z }.

Definition Format_compact (t : Stamp) : string :=
  GoTime.appendInt (GoTime.Year (StampHour t)) 4
    ++ GoTime.appendInt (GoTime.Month (StampHour t)) 2
    ++ GoTime.appendInt (GoTime.Day (StampHour t)) 2
    ++ GoTime.appendInt (GoTime.HourOfDay (StampHour t)) 2
    ++ GoTime.appendInt (MinuteOfHour t) 2
    ++ GoTime.appendInt (SecondOfMinute t) 2.

(** The fields of the spec and of the status of a DocumentSet that the
    handlers below use beside those of [DocumentSetSpec] and
    [DocumentSetStatus]. *)
Record PipelineSpec := {
  EmbeddingModel : string;
  IndexVectorDB : string;
  IndexCollection : string;
  IndexAlias : string
}.

Record PipelineStatus := {
  DSConditions : list Condition;
  LastEmbeddingJobRef : string;
  LastIndexJobRef : string;
  CurrentCollection : string;
  DSTotalChunks : Z;
  DSTotalVectors : Z
}.

Record Pipeline := {
  PDocumentSet : DocumentSet;
  PSpec : PipelineSpec;
  PStatus : PipelineStatus
}.

(** The child tasks as the Pipeline reconciler builds them. *)
Record NewEmbeddingJob := {
  NEName : string;
  NENamespace : string;
  NELabels : list (string * string);
  NEDocumentSet : string;
  NEEmbeddingModel : string;
  NEVectorDBType : string;
  NEVectorDBCollection : string;
  NERetryPolicy : option RetryPolicy
}.

Record NewIndexJob := {
  NIName : string;
  NINamespace : string;
  NILabels : list (string * string);
  NIDocumentSet : string;
  NIVectorDBType : string;
  NIVectorDBCollection : string;
  NITargetAlias : string;
  NIIndexType : string;
  NIParameters : list (string * string);
  NIRetryPolicy : option RetryPolicy
}.

Definition IndexTypeHNSW := "HNSW".
Definition ConditionTypeChunkingCompleted := "ChunkingCompleted".
Definition ConditionTypeEmbeddingCompleted := "EmbeddingCompleted".
Definition ConditionTypeIndexingCompleted := "IndexingCompleted".
Definition documentSetFinalizer := "documentset.rag.ai/finalizer".

(** The answers of the API server during one reconciliation of a
    pipeline: those of [Cluster] that concern the object itself, and the
    reads and creations of its children. *)
Record PipelineCluster := {
  PCluster : Cluster;
  getEmbeddingJob : string -> string -> getResult EmbeddingJob;
  apiCreateEmbeddingJob : NewEmbeddingJob -> createResult;
  getIndexJob : string -> string -> getResult IndexJob;
  apiCreateIndexJob : NewIndexJob -> createResult;
  (** [time.Now()] as the timestamps of the names read it. *)
  nowStamp : Stamp
}.

Inductive pipelineCall :=
| PCallUpdate
| PCallStatusUpdate
| PCallCreateEmbeddingJob (job : NewEmbeddingJob)
| PCallCreateIndexJob (job : NewIndexJob).

Record pipelineRun := {
  pStored : Pipeline;
  pCalls : list pipelineCall;
  pOutcome : returned
}.

Module PipelineReconciler.

Definition phaseOf (p : Pipeline) : string := DSPhase (DSStatus (PDocumentSet p)).

(** The status with a phase, a message and the time of the update. *)
Definition withPhase (st : DocumentSetStatus) (phase message : string) (t : Z)
  : DocumentSetStatus :=
  {| DSPhase := phase; DSMessage := message; LastUpdateTime := Some t;
     ObservedGeneration := ObservedGeneration st;
     LastSourceHash := LastSourceHash st;
     DSSourceMetadata := DSSourceMetadata st;
     LastSourceCheckTime := LastSourceCheckTime st |}.

Definition withObserved (st : DocumentSetStatus) (g : Z) : DocumentSetStatus :=
  {| DSPhase := DSPhase st; DSMessage := DSMessage st; LastUpdateTime := LastUpdateTime st;
     ObservedGeneration := g;
     LastSourceHash := LastSourceHash st;
     DSSourceMetadata := DSSourceMetadata st;
     LastSourceCheckTime := LastSourceCheckTime st |}.

Definition withStatus (p : Pipeline) (st : DocumentSetStatus) (rest : PipelineStatus)
  : Pipeline :=
  {| PDocumentSet := DocumentSetReconciler.withStatus (PDocumentSet p) st;
     PSpec := PSpec p; PStatus := rest |}.

Definition withMeta (p : Pipeline) (m : ObjectMeta) : Pipeline :=
  {| PDocumentSet := {| DSMeta := m; DSSpec := DSSpec (PDocumentSet p);
                        DSStatus := DSStatus (PDocumentSet p) |};
     PSpec := PSpec p; PStatus := PStatus p |}.

(** [r.Status().Update(ctx, ds)] with the status set, then
    [return res, nil]; the error of the update otherwise. *)
Definition statusUpdateThen (c : PipelineCluster) (p : Pipeline)
    (st : DocumentSetStatus) (rest : PipelineStatus) (res : ctrlResult) : pipelineRun :=
  match statusUpdate (PCluster c) with
  | Err e => {| pStored := p; pCalls := [PCallStatusUpdate]; pOutcome := ReturnErr e |}
  | Ok _ => {| pStored := withStatus p st rest; pCalls := [PCallStatusUpdate];
               pOutcome := Return res |}
  end.

Definition pafter (cs : list pipelineCall) (r : pipelineRun) : pipelineRun :=
  {| pStored := pStored r; pCalls := (cs ++ pCalls r)%list; pOutcome := pOutcome r |}.

Definition initializeStatus (c : PipelineCluster) (p : Pipeline) : pipelineRun :=
  let ds := PDocumentSet p in
  statusUpdateThen c p
    (withObserved
       (withPhase (DSStatus ds) DocumentSetPhasePending
          "DocumentSet created, waiting for processing" (clock (PCluster c)))
       (Generation (DSMeta ds)))
    (PStatus p) requeueNow.

Definition updateStatusFailed (c : PipelineCluster) (p : Pipeline) (message : string)
  : pipelineRun :=
  statusUpdateThen c p
    (withPhase (DSStatus (PDocumentSet p)) DocumentSetPhaseFailed message (clock (PCluster c)))
    (PStatus p) (requeueIn (5 * GoTime.Minute)).

Definition handlePendingPhase (c : PipelineCluster) (p : Pipeline) : pipelineRun :=
  let ds := PDocumentSet p in
  let name := Name (DSMeta ds) in
  let timestamp := Format_compact (nowStamp c) in
  let collectionName := IndexCollection (PSpec p) ++ "_" ++ timestamp in
  let embeddingJob :=
    {| NEName := name ++ "-embedding-" ++ timestamp;
       NENamespace := Namespace (DSMeta ds);
       NELabels := [("rag.ai/documentset", name); ("rag.ai/job-type", "embedding")];
       NEDocumentSet := name;
       NEEmbeddingModel := EmbeddingModel (PSpec p);
       NEVectorDBType := IndexVectorDB (PSpec p);
       NEVectorDBCollection := collectionName;
       NERetryPolicy := Some {| MaxRetries := 3; BackoffSeconds := 30 |} |} in
  match SetControllerReference (PCluster c) with
  | Err e => {| pStored := p; pCalls := []; pOutcome := ReturnErr e |}
  | Ok _ =>
      let created := [PCallCreateEmbeddingJob embeddingJob] in
      let now := clock (PCluster c) in
      let proceed :=
        pafter created
          (statusUpdateThen c p
             (withPhase (DSStatus ds) DocumentSetPhaseEmbedding
                "EmbeddingJob created, processing documents" now)
             {| DSConditions :=
                  SetStatusCondition now (DSConditions (PStatus p))
                    {| CondType := ConditionTypeChunkingCompleted; CondStatus := false;
                       Reason := "EmbeddingJobCreated";
                       CondMessage := "Waiting for embedding job to complete";
                       LastTransitionTime := now |};
                LastEmbeddingJobRef := NEName embeddingJob;
                LastIndexJobRef := LastIndexJobRef (PStatus p);
                CurrentCollection := collectionName;
                DSTotalChunks := DSTotalChunks (PStatus p);
                DSTotalVectors := DSTotalVectors (PStatus p) |}
             (requeueIn requeueAfter)) in
      match apiCreateEmbeddingJob c embeddingJob with
      | Created | AlreadyExists => proceed
      | CreateError e =>
          pafter created (updateStatusFailed c p ("Failed to create EmbeddingJob: " ++ e))
      end
  end.

Definition createIndexJob (c : PipelineCluster) (p : Pipeline) : pipelineRun :=
  let ds := PDocumentSet p in
  let name := Name (DSMeta ds) in
  let timestamp := Format_compact (nowStamp c) in
  let indexJob :=
    {| NIName := name ++ "-index-" ++ timestamp;
       NINamespace := Namespace (DSMeta ds);
       NILabels := [("rag.ai/documentset", name); ("rag.ai/job-type", "index")];
       NIDocumentSet := name;
       NIVectorDBType := IndexVectorDB (PSpec p);
       NIVectorDBCollection := CurrentCollection (PStatus p);
       NITargetAlias := IndexAlias (PSpec p);
       NIIndexType := IndexTypeHNSW;
       NIParameters := [("efConstruction", "200"); ("M", "16")];
       NIRetryPolicy := Some {| MaxRetries := 3; BackoffSeconds := 30 |} |} in
  match SetControllerReference (PCluster c) with
  | Err e => {| pStored := p; pCalls := []; pOutcome := ReturnErr e |}
  | Ok _ =>
      let created := [PCallCreateIndexJob indexJob] in
      let now := clock (PCluster c) in
      let proceed :=
        pafter created
          (statusUpdateThen c p
             (withPhase (DSStatus ds) DocumentSetPhaseIndexing
                "IndexJob created, building vector index" now)
             {| DSConditions :=
                  SetStatusCondition now (DSConditions (PStatus p))
                    {| CondType := ConditionTypeEmbeddingCompleted; CondStatus := true;
                       Reason := "EmbeddingJobSucceeded";
                       CondMessage := "Embedding generation completed successfully";
                       LastTransitionTime := now |};
                LastEmbeddingJobRef := LastEmbeddingJobRef (PStatus p);
                LastIndexJobRef := NIName indexJob;
                CurrentCollection := CurrentCollection (PStatus p);
                DSTotalChunks := DSTotalChunks (PStatus p);
                DSTotalVectors := DSTotalVectors (PStatus p) |}
             (requeueIn requeueAfter)) in
      match apiCreateIndexJob c indexJob with
      | Created | AlreadyExists => proceed
      | CreateError e =>
          pafter created (updateStatusFailed c p ("Failed to create IndexJob: " ++ e))
      end
  end.

Definition handleEmbeddingPhase (c : PipelineCluster) (p : Pipeline) : pipelineRun :=
  let ds := PDocumentSet p in
  match getEmbeddingJob c (Namespace (DSMeta ds)) (LastEmbeddingJobRef (PStatus p)) with
  | NotFound => initializeStatus c p
  | GetError e => {| pStored := p; pCalls := []; pOutcome := ReturnErr e |}
  | Found embeddingJob =>
      let phase := EJPhase (EJStatus embeddingJob) in
      if String.eqb phase EmbeddingJobPhaseSucceeded then createIndexJob c p
      else if String.eqb phase EmbeddingJobPhaseFailed then
        updateStatusFailed c p ("EmbeddingJob failed: " ++ EJMessage (EJStatus embeddingJob))
      else if String.eqb phase EmbeddingJobPhaseRunning then
        let progress := EJProgress (EJStatus embeddingJob) in
        statusUpdateThen c p
          (withPhase (DSStatus ds) (DSPhase (DSStatus ds))
             ("Embedding in progress: " ++ GoStrings.FormatInt (ProcessedChunks progress)
                ++ "/" ++ GoStrings.FormatInt (TotalChunks progress) ++ " chunks")
             (clock (PCluster c)))
          {| DSConditions := DSConditions (PStatus p);
             LastEmbeddingJobRef := LastEmbeddingJobRef (PStatus p);
             LastIndexJobRef := LastIndexJobRef (PStatus p);
             CurrentCollection := CurrentCollection (PStatus p);
             DSTotalChunks := TotalChunks progress;
             DSTotalVectors := DSTotalVectors (PStatus p) |}
          (requeueIn requeueAfter)
      else {| pStored := p; pCalls := []; pOutcome := Return (requeueIn requeueAfter) |}
  end.

Definition updateStatusReady (c : PipelineCluster) (p : Pipeline) (indexJob : IndexJob)
  : pipelineRun :=
  let ds := PDocumentSet p in
  let now := clock (PCluster c) in
  statusUpdateThen c p
    (withObserved
       (withPhase (DSStatus ds) DocumentSetPhaseReady "DocumentSet is ready for queries" now)
       (Generation (DSMeta ds)))
    {| DSConditions :=
         SetStatusCondition now (DSConditions (PStatus p))
           {| CondType := ConditionTypeIndexingCompleted; CondStatus := true;
              Reason := "IndexJobSucceeded";
              CondMessage := "Index building completed successfully";
              LastTransitionTime := now |};
       LastEmbeddingJobRef := LastEmbeddingJobRef (PStatus p);
       LastIndexJobRef := LastIndexJobRef (PStatus p);
       CurrentCollection := CurrentCollection (PStatus p);
       DSTotalChunks := DSTotalChunks (PStatus p);
       DSTotalVectors := TotalVectors (IJProgress (IJStatus indexJob)) |}
    noRequeue.

Definition handleIndexingPhase (c : PipelineCluster) (p : Pipeline) : pipelineRun :=
  let ds := PDocumentSet p in
  match getIndexJob c (Namespace (DSMeta ds)) (LastIndexJobRef (PStatus p)) with
  | NotFound => createIndexJob c p
  | GetError e => {| pStored := p; pCalls := []; pOutcome := ReturnErr e |}
  | Found indexJob =>
      let phase := IJPhase (IJStatus indexJob) in
      if String.eqb phase IndexJobPhaseSucceeded then updateStatusReady c p indexJob
      else if String.eqb phase IndexJobPhaseFailed then
        updateStatusFailed c p ("IndexJob failed: " ++ IJMessage (IJStatus indexJob))
      else if String.eqb phase IndexJobPhaseBuilding
              || String.eqb phase IndexJobPhaseOptimizing then
        let progress := IJProgress (IJStatus indexJob) in
        statusUpdateThen c p
          (withPhase (DSStatus ds) (DSPhase (DSStatus ds))
             ("Index building in progress: " ++ GoStrings.FormatInt (IndexedVectors progress)
                ++ "/" ++ GoStrings.FormatInt (TotalVectors progress) ++ " vectors")
             (clock (PCluster c)))
          {| DSConditions := DSConditions (PStatus p);
             LastEmbeddingJobRef := LastEmbeddingJobRef (PStatus p);
             LastIndexJobRef := LastIndexJobRef (PStatus p);
             CurrentCollection := CurrentCollection (PStatus p);
             DSTotalChunks := DSTotalChunks (PStatus p);
             DSTotalVectors := TotalVectors progress |}
          (requeueIn requeueAfter)
      else {| pStored := p; pCalls := []; pOutcome := Return (requeueIn requeueAfter) |}
  end.

Definition handleReadyPhase (c : PipelineCluster) (p : Pipeline) : pipelineRun :=
  let ds := PDocumentSet p in
  if negb (Generation (DSMeta ds) =? ObservedGeneration (DSStatus ds))
  then initializeStatus c p
  else {| pStored := p; pCalls := []; pOutcome := Return noRequeue |}.

Definition handleFailedPhase (c : PipelineCluster) (p : Pipeline) : pipelineRun :=
  let ds := PDocumentSet p in
  if negb (Generation (DSMeta ds) =? ObservedGeneration (DSStatus ds))
  then initializeStatus c p
  else
    let wait := {| pStored := p; pCalls := [];
                   pOutcome := Return (requeueIn (5 * GoTime.Minute)) |} in
    if AutoRetry (DSSpec ds) then
      match LastUpdateTime (DSStatus ds) with
      | Some t =>
          if 5 * GoTime.Minute <? GoTime.Since (clock (PCluster c)) t
          then initializeStatus c p
          else wait
      | None => wait
      end
    else wait.

Definition handleDeletion (c : PipelineCluster) (p : Pipeline) : pipelineRun :=
  match update (PCluster c) with
  | Err e => {| pStored := p; pCalls := [PCallUpdate]; pOutcome := ReturnErr e |}
  | Ok _ =>
      {| pStored := withMeta p (RemoveFinalizer (DSMeta (PDocumentSet p)) documentSetFinalizer);
         pCalls := [PCallUpdate]; pOutcome := Return noRequeue |}
  end.

Definition Reconcile (c : PipelineCluster) (p : Pipeline) : pipelineRun :=
  let ds := PDocumentSet p in
  match getSelf (PCluster c) with
  | NotFound => {| pStored := p; pCalls := []; pOutcome := Return noRequeue |}
  | GetError e => {| pStored := p; pCalls := []; pOutcome := ReturnErr e |}
  | Found _ =>
      if negb (metav1_IsZero (DeletionTimestamp (DSMeta ds))) then handleDeletion c p
      else if negb (ContainsFinalizer (DSMeta ds) documentSetFinalizer) then
        match update (PCluster c) with
        | Err e => {| pStored := p; pCalls := [PCallUpdate]; pOutcome := ReturnErr e |}
        | Ok _ =>
            {| pStored := withMeta p (AddFinalizer (DSMeta ds) documentSetFinalizer);
               pCalls := [PCallUpdate]; pOutcome := Return requeueNow |}
        end
      else
        let phase := DSPhase (DSStatus ds) in
        if String.eqb phase "" then initializeStatus c p
        else if String.eqb phase DocumentSetPhasePending then handlePendingPhase c p
        else if String.eqb phase DocumentSetPhaseEmbedding then handleEmbeddingPhase c p
        else if String.eqb phase DocumentSetPhaseIndexing then handleIndexingPhase c p
        else if String.eqb phase DocumentSetPhaseReady then handleReadyPhase c p
        else if String.eqb phase DocumentSetPhaseFailed then handleFailedPhase c p
        else initializeStatus c p
  end.

End PipelineReconciler.

(** ** Notions used in the further statements *)

(** The cluster [c] with another answer to the creation of a workload. *)
Definition withCreateJob (c : Cluster) (answer : createResult) : Cluster :=
  {| getSelf := getSelf c; getDocumentSet := getDocumentSet c;
     SetControllerReference := SetControllerReference c;
     createJob := fun _ _ => answer;
     getJob := getJob c; statusUpdate := statusUpdate c; update := update c;
     deleteJob := deleteJob c; clock := clock c |}.

(** The cluster [c] with another answer to the lookup of a workload. *)
Definition withGetJob (c : Cluster) (answer : getResult JobStatus) : Cluster :=
  {| getSelf := getSelf c; getDocumentSet := getDocumentSet c;
     SetControllerReference := SetControllerReference c;
     createJob := createJob c;
     getJob := fun _ _ => answer; statusUpdate := statusUpdate c; update := update c;
     deleteJob := deleteJob c; clock := clock c |}.

(** The cluster [c] with failing writes of the object. *)
Definition withFailingWrites (c : Cluster) (e : string) : Cluster :=
  {| getSelf := getSelf c; getDocumentSet := getDocumentSet c;
     SetControllerReference := SetControllerReference c;
     createJob := createJob c;
     getJob := getJob c; statusUpdate := Err e; update := Err e;
     deleteJob := deleteJob c; clock := clock c |}.

(** [meta.FindStatusCondition], reduced to the status it finds. *)
Fixpoint conditionStatus (conditions : list Condition) (ty : string) : option bool :=
  match conditions with
  | [] => None
  | c :: rest =>
      if String.eqb (CondType c) ty then Some (CondStatus c) else conditionStatus rest ty
  end.

(** The name of the workload a Running task looks up. *)
Definition embedJobName (job : EmbeddingJob) : string :=
  if String.eqb (EJJobRef (EJStatus job)) "" then EmbeddingJobReconciler.k8sJobName job
  else EJJobRef (EJStatus job).

Definition indexJobName (job : IndexJob) : string :=
  if String.eqb (IJJobRef (IJStatus job)) "" then IndexJobReconciler.k8sJobName job
  else IJJobRef (IJStatus job).

Definition isDeleteCall (x : call) : bool :=
  match x with CallDeleteJob _ _ => true | _ => false end.

Definition isCreateCall (x : call) : bool :=
  match x with CallCreateJob _ _ => true | _ => false end.

(** A pending Embed Task and a pending Index Task, with their finalizers. *)
Definition pendingEmbedTask (policy : option RetryPolicy) : EmbeddingJob :=
  {| EJMeta := mkMeta "docs-embedding-1" 1 ["embeddingjob.rag.ai/finalizer"];
     EJSpec := {| EJDocumentSet := "docs"; EJRetryPolicy := policy |};
     EJStatus := {| EJPhase := EmbeddingJobPhasePending; EJProgress := emptyProgress;
                    EJStartTime := None; EJCompletionTime := None;
                    EJMessage := "EmbeddingJob created, waiting to start";
                    EJConditions := []; EJJobRef := ""; EJRetryCount := 0 |} |}.

Definition succeededOnce : JobStatus := {| Succeeded := 1; Failed := 0; Active := 0 |}.

(** The backoff in force: the one of the spec, thirty seconds when the
    spec has no policy. *)
Definition effectiveBackoff (p : option RetryPolicy) : Z :=
  match p with
  | Some rp => BackoffSeconds rp
  | None => 30
  end.

Definition createFailed (r : createResult) : bool :=
  match r with CreateError _ => true | _ => false end.

(** The metadata of an object under deletion since [t]. *)
Definition deleting (m : ObjectMeta) (t : Z) : ObjectMeta :=
  {| Name := Name m; Namespace := Namespace m; Generation := Generation m;
     DeletionTimestamp := Some t; Finalizers := Finalizers m |}.

(** *** The life of a pipeline *)

(** The moves of the phase of a pipeline in one reconciliation: it stays,
    or Pending goes to Embedding or Failed, Embedding to Pending, Indexing
    or Failed, Indexing to Ready or Failed, and every other phase (Ready,
    Failed, none, unknown) to Pending. *)
Definition pipelineStep (from to : string) : bool :=
  String.eqb from to
  || (if String.eqb from DocumentSetPhasePending then
        String.eqb to DocumentSetPhaseEmbedding || String.eqb to DocumentSetPhaseFailed
      else if String.eqb from DocumentSetPhaseEmbedding then
        String.eqb to DocumentSetPhasePending || String.eqb to DocumentSetPhaseIndexing
        || String.eqb to DocumentSetPhaseFailed
      else if String.eqb from DocumentSetPhaseIndexing then
        String.eqb to DocumentSetPhaseReady || String.eqb to DocumentSetPhaseFailed
      else String.eqb to DocumentSetPhasePending).

(** The phases in which a collection is being filled or served. *)
Definition hasCollection (phase : string) : bool :=
  String.eqb phase DocumentSetPhaseEmbedding
  || String.eqb phase DocumentSetPhaseIndexing
  || String.eqb phase DocumentSetPhaseReady.

(** The phases in which an Index Task has been created. *)
Definition hasIndexTask (phase : string) : bool :=
  String.eqb phase DocumentSetPhaseIndexing || String.eqb phase DocumentSetPhaseReady.

(** The pipeline after an edit of its spec by the user: another spec, a
    generation that is not smaller. *)
Definition edited (p : Pipeline) (spec : DocumentSetSpec) (rest : PipelineSpec) (g : Z)
  : Pipeline :=
  {| PDocumentSet :=
       {| DSMeta := {| Name := Name (DSMeta (PDocumentSet p));
                       Namespace := Namespace (DSMeta (PDocumentSet p));
                       Generation := g;
                       DeletionTimestamp := DeletionTimestamp (DSMeta (PDocumentSet p));
                       Finalizers := Finalizers (DSMeta (PDocumentSet p)) |};
          DSSpec := spec;
          DSStatus := DSStatus (PDocumentSet p) |};
     PSpec := rest; PStatus := PStatus p |}.

(** The states a pipeline goes through from the state [p0] in which it
    was created: the reconciler runs, against any answers of the API
    server, and the user edits the spec. *)
Inductive pipelineReachable (p0 : Pipeline) : Pipeline -> Prop :=
| pipeline_created : pipelineReachable p0 p0
| pipeline_reconciled (c : PipelineCluster) (p : Pipeline) :
    pipelineReachable p0 p ->
    pipelineReachable p0 (pStored (PipelineReconciler.Reconcile c p))
| pipeline_edited (spec : DocumentSetSpec) (rest : PipelineSpec) (g : Z) (p : Pipeline) :
    pipelineReachable p0 p ->
    Generation (DSMeta (PDocumentSet p)) <= g ->
    pipelineReachable p0 (edited p spec rest g).

(** A pipeline as the user creates it: generation 1, no status. *)
Definition newPipeline : Pipeline :=
  {| PDocumentSet :=
       {| DSMeta := mkMeta "docs" 1 [];
          DSSpec := {| Source := {| SourceType := SourceTypeS3;
                                    URI := "s3://company-docs/manuals/";
                                    SecretRef := None |};
                       AutoRetry := true; DSSyncPolicy := None |};
          DSStatus := {| DSPhase := ""; DSMessage := ""; LastUpdateTime := None;
                         ObservedGeneration := 0; LastSourceHash := "";
                         DSSourceMetadata := None; LastSourceCheckTime := None |} |};
     PSpec := {| EmbeddingModel := "bge-large-en"; IndexVectorDB := "qdrant";
                 IndexCollection := "docs"; IndexAlias := "docs_prod" |};
     PStatus := {| DSConditions := []; LastEmbeddingJobRef := ""; LastIndexJobRef := "";
                   CurrentCollection := ""; DSTotalChunks := 0; DSTotalVectors := 0 |} |}.

(** A healthy API server for a pipeline, with the children it shows and
    the time on the clock. *)
Definition healthyPipelineCluster (embed : getResult EmbeddingJob) (index : getResult IndexJob)
    (clk : Z) (second : Z) : PipelineCluster :=
  {| PCluster := {| getSelf := Found tt;
                    getDocumentSet := fun _ _ => Ok tt;
                    SetControllerReference := Ok tt;
                    createJob := fun _ _ => Created;
                    getJob := fun _ _ => NotFound;
                    statusUpdate := Ok tt;
                    update := Ok tt;
                    deleteJob := fun _ _ => Deleted;
                    clock := clk |};
     getEmbeddingJob := fun _ _ => embed;
     apiCreateEmbeddingJob := fun _ => Created;
     getIndexJob := fun _ _ => index;
     apiCreateIndexJob := fun _ => Created;
     nowStamp := {| StampHour := {| GoTime.Year := 2025; GoTime.Month := 1;
                                    GoTime.Day := 15; GoTime.HourOfDay := 10 |};
                    MinuteOfHour := 0; SecondOfMinute := second |} |}.

(** An Embed Task and an Index Task in a given phase, as children. *)
Definition embedChild (phase message : string) : EmbeddingJob :=
  {| EJMeta := mkMeta "docs-embedding-20250115100000" 1 ["embeddingjob.rag.ai/finalizer"];
     EJSpec := {| EJDocumentSet := "docs"; EJRetryPolicy := Some defaultPolicy |};
     EJStatus := {| EJPhase := phase; EJProgress := emptyProgress;
                    EJStartTime := Some 0; EJCompletionTime := None;
                    EJMessage := message; EJConditions := []; EJJobRef := "";
                    EJRetryCount := 0 |} |}.

Definition indexChild (phase message : string) (vectors : Z) : IndexJob :=
  {| IJMeta := mkMeta "docs-index-20250115100007" 1 ["indexjob.rag.ai/finalizer"];
     IJSpec := {| IJDocumentSet := "docs"; IJCollection := "docs_20250115100000";
                  TargetAlias := "docs_prod"; IJRetryPolicy := Some defaultPolicy |};
     IJStatus := {| IJPhase := phase;
                    IJProgress := {| IndexedVectors := vectors; TotalVectors := vectors;
                                     IndexPercentage := 100 |};
                    IJMessage := message; IJStartTime := Some 0; IJCompletionTime := None;
                    IJConditions := []; IJJobRef := ""; AliasSwapped := false;
                    IJRetryCount := 0 |} |}.

(** The status updates of the Pipeline reconciler, by what they do to the
    phase, to the references and to the observed generation of a pipeline
    [p]: [st] and [rest] are the status written. *)
Inductive statusMove (p : Pipeline) (st : DocumentSetStatus) (rest : PipelineStatus) : Prop :=
| move_restart :
    DSPhase st = DocumentSetPhasePending ->
    PipelineReconciler.phaseOf p <> DocumentSetPhasePending ->
    PipelineReconciler.phaseOf p <> DocumentSetPhaseIndexing ->
    rest = PStatus p ->
    ObservedGeneration st = Generation (DSMeta (PDocumentSet p)) ->
    statusMove p st rest
| move_fail :
    DSPhase st = DocumentSetPhaseFailed ->
    PipelineReconciler.phaseOf p = DocumentSetPhasePending
    \/ PipelineReconciler.phaseOf p = DocumentSetPhaseEmbedding
    \/ PipelineReconciler.phaseOf p = DocumentSetPhaseIndexing ->
    rest = PStatus p ->
    ObservedGeneration st = ObservedGeneration (DSStatus (PDocumentSet p)) ->
    statusMove p st rest
| move_embed :
    DSPhase st = DocumentSetPhaseEmbedding ->
    PipelineReconciler.phaseOf p = DocumentSetPhasePending ->
    CurrentCollection rest <> "" ->
    LastEmbeddingJobRef rest <> "" ->
    LastIndexJobRef rest = LastIndexJobRef (PStatus p) ->
    ObservedGeneration st = ObservedGeneration (DSStatus (PDocumentSet p)) ->
    statusMove p st rest
| move_index :
    DSPhase st = DocumentSetPhaseIndexing ->
    PipelineReconciler.phaseOf p = DocumentSetPhaseEmbedding
    \/ PipelineReconciler.phaseOf p = DocumentSetPhaseIndexing ->
    CurrentCollection rest = CurrentCollection (PStatus p) ->
    LastEmbeddingJobRef rest = LastEmbeddingJobRef (PStatus p) ->
    LastIndexJobRef rest <> "" ->
    ObservedGeneration st = ObservedGeneration (DSStatus (PDocumentSet p)) ->
    statusMove p st rest
| move_progress :
    DSPhase st = PipelineReconciler.phaseOf p ->
    CurrentCollection rest = CurrentCollection (PStatus p) ->
    LastEmbeddingJobRef rest = LastEmbeddingJobRef (PStatus p) ->
    LastIndexJobRef rest = LastIndexJobRef (PStatus p) ->
    ObservedGeneration st = ObservedGeneration (DSStatus (PDocumentSet p)) ->
    statusMove p st rest
| move_ready :
    DSPhase st = DocumentSetPhaseReady ->
    PipelineReconciler.phaseOf p = DocumentSetPhaseIndexing ->
    CurrentCollection rest = CurrentCollection (PStatus p) ->
    LastEmbeddingJobRef rest = LastEmbeddingJobRef (PStatus p) ->
    LastIndexJobRef rest = LastIndexJobRef (PStatus p) ->
    ObservedGeneration st = Generation (DSMeta (PDocumentSet p)) ->
    statusMove p st rest.

(** What one reconciliation does to the stored pipeline: nothing, a
    change of the finalizers, or one of the status updates. *)
Inductive pipelineMove (p : Pipeline) : Pipeline -> Prop :=
| pipeline_kept : pipelineMove p p
| pipeline_finalizers (fs : list string) :
    pipelineMove p (PipelineReconciler.withMeta p (withFinalizers (DSMeta (PDocumentSet p)) fs))
| pipeline_status (st : DocumentSetStatus) (rest : PipelineStatus) :
    statusMove p st rest ->
    pipelineMove p (PipelineReconciler.withStatus p st rest).

(** The pipeline after a series of reconciliations, one against each of
    the API servers of the list. *)
Definition pipelineAfter (cs : list PipelineCluster) (p : Pipeline) : Pipeline :=
  List.fold_left (fun q c => pStored (PipelineReconciler.Reconcile c q)) cs p.

(** A Failed pipeline is due for another attempt: its spec has a new
    generation, or automatic retries are on and the last update of the
    status is more than five minutes old. *)
Definition retryDue (now : Z) (ds : DocumentSet) : Prop :=
  Generation (DSMeta ds) <> ObservedGeneration (DSStatus ds)
  \/ (AutoRetry (DSSpec ds) = true
      /\ exists t, LastUpdateTime (DSStatus ds) = Some t
                   /\ 5 * GoTime.Minute < GoTime.Since now t).

(** A pipeline that failed at instant [t], with or without automatic
    retries. *)
Definition failedPipeline (auto : bool) (t : Z) : Pipeline :=
  {| PDocumentSet :=
       {| DSMeta := mkMeta "docs" 1 [documentSetFinalizer];
          DSSpec := {| Source := {| SourceType := SourceTypeS3;
                                    URI := "s3://company-docs/manuals/";
                                    SecretRef := None |};
                       AutoRetry := auto; DSSyncPolicy := None |};
          DSStatus := {| DSPhase := DocumentSetPhaseFailed;
                         DSMessage := "EmbeddingJob failed: out of memory";
                         LastUpdateTime := Some t;
                         ObservedGeneration := 1; LastSourceHash := "";
                         DSSourceMetadata := None; LastSourceCheckTime := None |} |};
     PSpec := {| EmbeddingModel := "bge-large-en"; IndexVectorDB := "qdrant";
                 IndexCollection := "docs"; IndexAlias := "docs_prod" |};
     PStatus := {| DSConditions := []; LastEmbeddingJobRef := "docs-embedding-20250115100000";
                   LastIndexJobRef := ""; CurrentCollection := "docs_20250115100000";
                   DSTotalChunks := 0; DSTotalVectors := 0 |} |}.

(** *** The source watcher, further notions *)

(** A world whose secrets cannot be read. *)
Definition lockedWorld (e : string) : World :=
  {| getSecret := fun _ _ => Err e;
     awsLoadDefaultConfig := awsLoadDefaultConfig quietWorld;
     s3ListPages := s3ListPages quietWorld;
     httpNewRequest := httpNewRequest quietWorld;
     httpDo := httpDo quietWorld;
     osStat := osStat quietWorld;
     fsWalk := fsWalk quietWorld;
     now := now quietWorld;
     nowCivil := nowCivil quietWorld |}.

(** The world of a mounted volume: what a walk of it meets. *)
Definition volumeWorld (entries : list walkEntry) : World :=
  {| getSecret := getSecret quietWorld;
     awsLoadDefaultConfig := awsLoadDefaultConfig quietWorld;
     s3ListPages := s3ListPages quietWorld;
     httpNewRequest := httpNewRequest quietWorld;
     httpDo := httpDo quietWorld;
     osStat := fun _ => StatOk;
     fsWalk := fun _ => entries;
     now := now quietWorld;
     nowCivil := nowCivil quietWorld |}.

(** A pipeline whose source names a secret. *)
Definition securedPipeline (ty uri secret : string) : DocumentSet :=
  {| DSMeta := mkMeta "docs" 1 ["documentset.rag.ai/finalizer"];
     DSSpec := {| Source := {| SourceType := ty; URI := uri;
                               SecretRef := Some {| SecretName := secret |} |};
                  AutoRetry := true; DSSyncPolicy := None |};
     DSStatus := {| DSPhase := DocumentSetPhaseReady; DSMessage := ""; LastUpdateTime := None;
                    ObservedGeneration := 1; LastSourceHash := "";
                    DSSourceMetadata := None; LastSourceCheckTime := None |} |}.

(** The secret of the source can be read, when the source names one. *)
Definition secretReadable (w : World) (ds : DocumentSet) : Prop :=
  forall ref, SecretRef (Source (DSSpec ds)) = Some ref ->
              is_Err (getSecret w (Namespace (DSMeta ds)) (SecretName ref)) = false.

(** The source type is one of the four the watcher knows. *)
Definition knownSourceType (ty : string) : bool :=
  String.eqb ty SourceTypeS3 || String.eqb ty SourceTypeHTTP
  || String.eqb ty SourceTypeGit || String.eqb ty SourceTypePVC.

(** The pipeline whose status holds the digest and the metadata of the
    result [r] of a check, in the two fields that the checks compare
    with. *)
Definition withSourceState (ds : DocumentSet) (r : SourceChangeResult) : DocumentSet :=
  {| DSMeta := DSMeta ds; DSSpec := DSSpec ds;
     DSStatus := {| DSPhase := DSPhase (DSStatus ds);
                    DSMessage := DSMessage (DSStatus ds);
                    LastUpdateTime := LastUpdateTime (DSStatus ds);
                    ObservedGeneration := ObservedGeneration (DSStatus ds);
                    LastSourceHash := NewHash r;
                    DSSourceMetadata := NewMetadata r;
                    LastSourceCheckTime := LastSourceCheckTime (DSStatus ds) |} |}.

(** The sizes of the files of a walk, added up, and the latest of their
    modification instants (the zero time when there is no file). *)
Fixpoint walkSize (entries : list walkEntry) : Z :=
  match entries with
  | [] => 0
  | WalkFile _ size _ _ :: rest => size + walkSize rest
  | _ :: rest => walkSize rest
  end.

Fixpoint walkLatest (entries : list walkEntry) : Z :=
  match entries with
  | [] => GoTime.zeroTime
  | WalkFile _ _ modTime _ :: rest => Z.max modTime (walkLatest rest)
  | _ :: rest => walkLatest rest
  end.

(** Two calls of the walk function that the check cannot tell apart:
    the same call, or the same file with the same size and modification
    instant whose content is not hashed (10 MiB or more) or cannot be
    read. *)
Inductive sameStat : walkEntry -> walkEntry -> Prop :=
| sameStat_same (e : walkEntry) : sameStat e e
| sameStat_large (relPath : string) (size modTime : Z) (md5 md5' : result string) :
    hashLimit <= size ->
    sameStat (WalkFile relPath size modTime md5) (WalkFile relPath size modTime md5')
| sameStat_unreadable (relPath : string) (size modTime : Z) (e e' : string) :
    sameStat (WalkFile relPath size modTime (Err e)) (WalkFile relPath size modTime (Err e')).

(** A pipeline under deletion since [t], in a given phase, with the
    finalizer of its controller and one of another. *)
Definition deletedPipeline (phase : string) (t : Z) : Pipeline :=
  {| PDocumentSet :=
       {| DSMeta := deleting (mkMeta "docs" 1 [documentSetFinalizer; "backup.example.com/hold"]) t;
          DSSpec := DSSpec (PDocumentSet newPipeline);
          DSStatus := {| DSPhase := phase; DSMessage := ""; LastUpdateTime := Some 0;
                         ObservedGeneration := 1; LastSourceHash := "";
                         DSSourceMetadata := None; LastSourceCheckTime := None |} |};
     PSpec := PSpec newPipeline;
     PStatus := {| DSConditions := []; LastEmbeddingJobRef := "docs-embedding-20250115100000";
                   LastIndexJobRef := ""; CurrentCollection := "docs_20250115100000";
                   DSTotalChunks := 0; DSTotalVectors := 0 |} |}.

(** A write that creates a child. *)
Definition isPipelineCreate (x : pipelineCall) : bool :=
  match x with
  | PCallCreateEmbeddingJob _ | PCallCreateIndexJob _ => true
  | _ => false
  end.

(** The API server [c] refusing the writes of the status. *)
Definition withFailingStatus (c : PipelineCluster) (e : string) : PipelineCluster :=
  {| PCluster := {| getSelf := getSelf (PCluster c);
                    getDocumentSet := getDocumentSet (PCluster c);
                    SetControllerReference := SetControllerReference (PCluster c);
                    createJob := createJob (PCluster c);
                    getJob := getJob (PCluster c);
                    statusUpdate := Err e;
                    update := update (PCluster c);
                    deleteJob := deleteJob (PCluster c);
                    clock := clock (PCluster c) |};
     getEmbeddingJob := getEmbeddingJob c;
     apiCreateEmbeddingJob := apiCreateEmbeddingJob c;
     getIndexJob := getIndexJob c;
     apiCreateIndexJob := apiCreateIndexJob c;
     nowStamp := nowStamp c |}.

(** The API server [c] refusing to create children. *)
Definition withRefusedChildren (c : PipelineCluster) (e : string) : PipelineCluster :=
  {| PCluster := PCluster c;
     getEmbeddingJob := getEmbeddingJob c;
     apiCreateEmbeddingJob := fun _ => CreateError e;
     getIndexJob := getIndexJob c;
     apiCreateIndexJob := fun _ => CreateError e;
     nowStamp := nowStamp c |}.

(** Why a pipeline failed, as the message of its status tells it. *)
Inductive failureCause (c : PipelineCluster) (p : Pipeline) : string -> Prop :=
| embed_task_refused (e : NewEmbeddingJob) (msg : string) :
    PipelineReconciler.phaseOf p = DocumentSetPhasePending ->
    apiCreateEmbeddingJob c e = CreateError msg ->
    failureCause c p ("Failed to create EmbeddingJob: " ++ msg)
| embed_task_failed (child : EmbeddingJob) :
    PipelineReconciler.phaseOf p = DocumentSetPhaseEmbedding ->
    getEmbeddingJob c (Namespace (DSMeta (PDocumentSet p))) (LastEmbeddingJobRef (PStatus p))
    = Found child ->
    EJPhase (EJStatus child) = EmbeddingJobPhaseFailed ->
    failureCause c p ("EmbeddingJob failed: " ++ EJMessage (EJStatus child))
| index_task_refused (j : NewIndexJob) (msg : string) :
    PipelineReconciler.phaseOf p = DocumentSetPhaseEmbedding
    \/ PipelineReconciler.phaseOf p = DocumentSetPhaseIndexing ->
    apiCreateIndexJob c j = CreateError msg ->
    failureCause c p ("Failed to create IndexJob: " ++ msg)
| index_task_failed (child : IndexJob) :
    PipelineReconciler.phaseOf p = DocumentSetPhaseIndexing ->
    getIndexJob c (Namespace (DSMeta (PDocumentSet p))) (LastIndexJobRef (PStatus p))
    = Found child ->
    IJPhase (IJStatus child) = IndexJobPhaseFailed ->
    failureCause c p ("IndexJob failed: " ++ IJMessage (IJStatus child)).
(** * Properties *)

(** ** The library models on known values *)

Example sha256_constants :
  List.length SHA256.K = 64%nat /\ List.length SHA256.H0 = 8%nat
  /\ List.nth 0 SHA256.K 0 = 0x428a2f98 /\ List.nth 63 SHA256.K 0 = 0xc67178f2
  /\ List.nth 0 SHA256.H0 0 = 0x6a09e667 /\ List.nth 7 SHA256.H0 0 = 0x5be0cd19.
Proof. repeat split. Qed.

Example sha256_empty :
  SHA256.hex "" = "e3b0c44298fc1c149afbf4c8996fb92427ae41e4649b934ca495991b7852b855".
Proof. vm_compute. reflexivity. Qed.

Example sha256_abc :
  SHA256.hex "abc" = "ba7816bf8f01cfea414140de5dae2223b00361a396177a9cb410ff61f20015ad".
Proof. vm_compute. reflexivity. Qed.

Example sha256_two_blocks :
  SHA256.hex "abcdbcdecdefdefgefghfghighijhijkijkljklmklmnlmnomnopnopq"
  = "248d6a61d20638b8e5c026930c3e6039a33ce45964ff2167f6ecedd419db06c1".
Proof. vm_compute. reflexivity. Qed.

Example ParseDuration_5m : GoTime.ParseDuration_integral "5m" = Some (5 * GoTime.Minute).
Proof. reflexivity. Qed.
Example ParseDuration_1h30m : GoTime.ParseDuration_integral "1h30m" = Some (90 * GoTime.Minute).
Proof. reflexivity. Qed.
Example ParseDuration_empty : GoTime.ParseDuration_integral "" = None.
Proof. reflexivity. Qed.
Example ParseDuration_no_unit : GoTime.ParseDuration_integral "5" = None.
Proof. reflexivity. Qed.
Example ParseDuration_bad_unit : GoTime.ParseDuration_integral "5 minutes" = None.
Proof. reflexivity. Qed.
Example Format_hour_ex :
  GoTime.Format_hour {| GoTime.Year := 2025; GoTime.Month := 1; GoTime.Day := 15; GoTime.HourOfDay := 9 |}
  = "2025-01-15-09".
Proof. vm_compute. reflexivity. Qed.


(** ** C1: the Ready handler and the source watcher *)

(** At the instant of [changedBucket] the watcher is due and sees the
    change: one file added, one deleted. *)
Lemma readyPipeline_source_changed :
  ShouldSync GoTime.ParseDuration_integral GoTime.FormatSeconds_exact changedBucket readyPipeline
    = (true, "sync interval reached")
  /\ exists r,
       CheckSourceChanges filepath_Join_clean changedBucket readyPipeline = Ok r
       /\ Changed r = true /\ AddedFiles r = ["c"] /\ DeletedFiles r = ["b"]
       /\ ChangedFiles r = [].
Proof.
  split; [vm_compute; reflexivity|].
  eexists. split; [vm_compute; reflexivity|].
  repeat split; reflexivity.
Qed.

(** When the generation has been observed, the Ready handler returns at
    once: nothing is written, nothing is scheduled. *)
Lemma handleReadyPhase_same_generation (c : Cluster) (ds : DocumentSet) :
  Generation (DSMeta ds) = ObservedGeneration (DSStatus ds) ->
  DocumentSetReconciler.handleReadyPhase c ds
  = {| stored := ds; calls := []; outcome := Return noRequeue |}.
Proof.
  intros Hgen. unfold DocumentSetReconciler.handleReadyPhase.
  rewrite Hgen, Z.eqb_refl. reflexivity.
Qed.

(** A new generation sends the pipeline back to Pending. *)
Lemma handleReadyPhase_new_generation (c : Cluster) (ds : DocumentSet) :
  Generation (DSMeta ds) <> ObservedGeneration (DSStatus ds) ->
  statusUpdate c = Ok tt ->
  let r := DocumentSetReconciler.handleReadyPhase c ds in
  DSPhase (DSStatus (stored r)) = DocumentSetPhasePending
  /\ ObservedGeneration (DSStatus (stored r)) = Generation (DSMeta ds)
  /\ outcome r = Return requeueNow.
Proof.
  intros Hgen Hupd. unfold DocumentSetReconciler.handleReadyPhase.
  apply Z.eqb_neq in Hgen. rewrite Hgen. cbn.
  unfold DocumentSetReconciler.initializeStatus. rewrite Hupd. cbn. auto.
Qed.

(** C1. The Ready handler of the Pipeline Reconciler, on a Ready pipeline
    whose generation equals observedGeneration, is claimed to consult the
    Source Watcher, to re-enqueue itself every interval and to return to
    Pending on a source change. The handler evaluated on [readyPipeline],
    whose source changed and whose check is due: for every answer of the
    API server it writes nothing, leaves the pipeline Ready and asks for
    no requeue. *)
Theorem handleReadyPhase_ignores_source_change :
  DSPhase (DSStatus readyPipeline) = DocumentSetPhaseReady
  /\ Generation (DSMeta readyPipeline) = ObservedGeneration (DSStatus readyPipeline)
  /\ fst (ShouldSync GoTime.ParseDuration_integral GoTime.FormatSeconds_exact
            changedBucket readyPipeline) = true
  /\ (exists r, CheckSourceChanges filepath_Join_clean changedBucket readyPipeline = Ok r
                /\ Changed r = true)
  /\ forall c : Cluster,
       let r := DocumentSetReconciler.handleReadyPhase c readyPipeline in
       stored r = readyPipeline
       /\ calls r = []
       /\ outcome r = Return {| Requeue := false; RequeueAfter := 0 |}.
Proof.
  destruct readyPipeline_source_changed as [Hsync (r & Hr & Hch & _)].
  split; [reflexivity|]. split; [reflexivity|].
  split; [rewrite Hsync; reflexivity|].
  split; [exists r; auto|].
  intros c. rewrite handleReadyPhase_same_generation by reflexivity.
  cbn. auto.
Qed.

(** ** C2: a failed workload of an Embed Task *)

(** With a retry policy, a failure below the bound is retried as
    specified: the count goes up by one, the workload is deleted, the
    task is Pending again and is requeued after the backoff. *)
Lemma handleRunningPhase_retries (c : Cluster) (job : EmbeddingJob) (p : RetryPolicy)
    (k : JobStatus) :
  let s := EJStatus job in
  let ns := Namespace (EJMeta job) in
  let jobName := if String.eqb (EJJobRef s) "" then EmbeddingJobReconciler.k8sJobName job
                 else EJJobRef s in
  EJRetryPolicy (EJSpec job) = Some p ->
  getJob c ns jobName = Found k ->
  Succeeded k <= 0 -> 0 < Failed k ->
  EJRetryCount s < MaxRetries p ->
  statusUpdate c = Ok tt ->
  deleteFailed (deleteJob c ns jobName) = false ->
  let r := EmbeddingJobReconciler.handleRunningPhase c job in
  EJRetryCount (EJStatus (stored r)) = EJRetryCount s + 1
  /\ EJPhase (EJStatus (stored r)) = EmbeddingJobPhasePending
  /\ calls r = [CallStatusUpdate; CallDeleteJob ns jobName]
  /\ outcome r = Return (requeueIn (seconds (BackoffSeconds p))).
Proof.
  intros s ns jobName Hp Hget Hs Hf Hlt Hupd Hdel.
  unfold EmbeddingJobReconciler.handleRunningPhase.
  fold s ns jobName. rewrite Hget.
  destruct (0 <? Succeeded k) eqn:E1; [apply Z.ltb_lt in E1; lia|].
  destruct (0 <? Failed k) eqn:E2; [|apply Z.ltb_ge in E2; lia].
  rewrite Hp. destruct (EJRetryCount s <? MaxRetries p) eqn:E3; [|apply Z.ltb_ge in E3; lia].
  rewrite Hupd. destruct (deleteJob c ns jobName); cbn in Hdel; try discriminate; cbn; auto.
Qed.

(** At the bound the task is marked Failed. *)
Lemma handleRunningPhase_gives_up (c : Cluster) (job : EmbeddingJob) (k : JobStatus) :
  let s := EJStatus job in
  let ns := Namespace (EJMeta job) in
  let jobName := if String.eqb (EJJobRef s) "" then EmbeddingJobReconciler.k8sJobName job
                 else EJJobRef s in
  getJob c ns jobName = Found k ->
  Succeeded k <= 0 -> 0 < Failed k ->
  effectiveMaxRetries (EJRetryPolicy (EJSpec job)) <= EJRetryCount s ->
  statusUpdate c = Ok tt ->
  let r := EmbeddingJobReconciler.handleRunningPhase c job in
  EJPhase (EJStatus (stored r)) = EmbeddingJobPhaseFailed
  /\ EJMessage (EJStatus (stored r)) = "Job failed after maximum retries"
  /\ EJRetryCount (EJStatus (stored r)) = EJRetryCount s
  /\ outcome r = Return noRequeue.
Proof.
  intros s ns jobName Hget Hs Hf Hge Hupd.
  unfold EmbeddingJobReconciler.handleRunningPhase.
  fold s ns jobName. rewrite Hget.
  destruct (0 <? Succeeded k) eqn:E1; [apply Z.ltb_lt in E1; lia|].
  destruct (0 <? Failed k) eqn:E2; [|apply Z.ltb_ge in E2; lia].
  unfold effectiveMaxRetries in Hge.
  match goal with |- context [EJRetryCount s <? ?m] => destruct (EJRetryCount s <? m) eqn:E3 end.
  - apply Z.ltb_lt in E3. destruct (EJRetryPolicy (EJSpec job)); lia.
  - unfold EmbeddingJobReconciler.updateStatusFailed, EmbeddingJobReconciler.statusUpdateThen.
    rewrite Hupd. cbn. auto.
Qed.

(** Without a retry policy, a failure below the default bound of three
    ends in a nil dereference, after the count has been written and the
    workload deleted. *)
Lemma handleRunningPhase_nil_policy (c : Cluster) (job : EmbeddingJob) (k : JobStatus) :
  let s := EJStatus job in
  let ns := Namespace (EJMeta job) in
  let jobName := if String.eqb (EJJobRef s) "" then EmbeddingJobReconciler.k8sJobName job
                 else EJJobRef s in
  EJRetryPolicy (EJSpec job) = None ->
  getJob c ns jobName = Found k ->
  Succeeded k <= 0 -> 0 < Failed k ->
  EJRetryCount s < 3 ->
  statusUpdate c = Ok tt ->
  deleteFailed (deleteJob c ns jobName) = false ->
  outcome (EmbeddingJobReconciler.handleRunningPhase c job) = Panic.
Proof.
  intros s ns jobName Hp Hget Hs Hf Hlt Hupd Hdel.
  unfold EmbeddingJobReconciler.handleRunningPhase.
  fold s ns jobName. rewrite Hget.
  destruct (0 <? Succeeded k) eqn:E1; [apply Z.ltb_lt in E1; lia|].
  destruct (0 <? Failed k) eqn:E2; [|apply Z.ltb_ge in E2; lia].
  rewrite Hp. destruct (EJRetryCount s <? 3) eqn:E3; [|apply Z.ltb_ge in E3; lia].
  rewrite Hupd. destruct (deleteJob c ns jobName); cbn in Hdel; try discriminate; reflexivity.
Qed.

(** The Index-Task handler never panics: it reads the backoff under a
    nil check and falls back to thirty seconds. *)
Lemma handleBuildingPhase_total (c : Cluster) (job : IndexJob) :
  outcome (IndexJobReconciler.handleBuildingPhase c job) <> Panic.
Proof.
  unfold IndexJobReconciler.handleBuildingPhase, IndexJobReconciler.initializeStatus,
    IndexJobReconciler.handleJobSucceeded, IndexJobReconciler.updateStatusFailed,
    IndexJobReconciler.statusUpdateThen.
  repeat match goal with
         | |- context [match ?x with _ => _ end] => destruct x; cbn
         end; discriminate.
Qed.

Lemma handleBuildingPhase_nil_policy :
  outcome (IndexJobReconciler.handleBuildingPhase (healthyCluster (Found failedOnce))
             (buildingIndexTask None 0))
  = Return (requeueIn (30 * GoTime.Second)).
Proof. vm_compute. reflexivity. Qed.

(** C2. On a Running Embed Task whose workload reports failed > 0 the
    handler is claimed never to crash, also without a retry policy, and
    to retry with the defaults (3 retries, 30 s). The handler evaluated on
    a task without retry policy at its first failure: the retry count is
    written, the workload is deleted, and the call panics instead of
    returning a requeue after thirty seconds. *)
Theorem handleRunningPhase_panics_without_retryPolicy :
  let job := runningEmbedTask None 0 in
  let r := EmbeddingJobReconciler.handleRunningPhase (healthyCluster (Found failedOnce)) job in
  EJRetryPolicy (EJSpec job) = None
  /\ outcome r = Panic
  /\ outcome r <> Return (requeueIn (30 * GoTime.Second))
  /\ EJRetryCount (EJStatus (stored r)) = 1
  /\ EJPhase (EJStatus (stored r)) = EmbeddingJobPhasePending
  /\ calls r = [CallStatusUpdate; CallDeleteJob "default" "docs-embedding-1-job"].
Proof.
  cbv zeta. repeat split; try reflexivity. vm_compute. discriminate.
Qed.

(** ** C3: the digest of a Git source *)

Lemma append_assoc (a b c : string) : (a ++ b) ++ c = a ++ (b ++ c).
Proof.
  induction a as [|x a IH].
  - reflexivity.
  - change (String x ((a ++ b) ++ c) = String x (a ++ (b ++ c))). now rewrite IH.
Qed.

Lemma append_nil_r (a : string) : a ++ "" = a.
Proof.
  induction a as [|x a IH]; [reflexivity|].
  change (String x (a ++ "") = String x a). now rewrite IH.
Qed.

Lemma append_cons (x : ascii) (a b : string) : String x a ++ b = String x (a ++ b).
Proof. reflexivity. Qed.

Lemma length_append (a b : string) :
  String.length (a ++ b) = (String.length a + String.length b)%nat.
Proof.
  induction a as [|x a IH]; [reflexivity|].
  rewrite append_cons. cbn. now rewrite IH.
Qed.

Lemma substring_all (s : string) : String.substring 0 (String.length s) s = s.
Proof. induction s as [|x s IH]; cbn; [reflexivity | now rewrite IH]. Qed.

Lemma substring_prefix (a b : string) :
  String.substring 0 (String.length a) (a ++ b) = a.
Proof.
  induction a as [|x a IH].
  - destruct b; reflexivity.
  - rewrite append_cons. cbn. now rewrite IH.
Qed.

Lemma substring_skip (a b : string) (n : nat) :
  String.substring (String.length a) n (a ++ b) = String.substring 0 n b.
Proof.
  induction a as [|x a IH]; [reflexivity|].
  rewrite append_cons. cbn. exact IH.
Qed.

Lemma slice_from_append (a b : string) :
  GoStrings.slice_from (a ++ b) (String.length a) = b.
Proof.
  unfold GoStrings.slice_from. rewrite substring_skip, length_append.
  replace (String.length a + String.length b - String.length a)%nat
    with (String.length b) by lia.
  apply substring_all.
Qed.

Lemma IndexByte_absent (c : ascii) (s : string) :
  absent c s -> GoStrings.IndexByte s c = None.
Proof.
  induction s as [|d s IH]; cbn; [reflexivity|].
  intros [Hd Hs]. apply Ascii.eqb_neq in Hd. rewrite Hd, IH by assumption. reflexivity.
Qed.

Lemma IndexByte_first (c : ascii) (a b : string) :
  absent c a -> GoStrings.IndexByte (a ++ String c b) c = Some (String.length a).
Proof.
  induction a as [|d a IH].
  - intros _. change ("" ++ String c b) with (String c b). cbn.
    rewrite Ascii.eqb_refl. reflexivity.
  - intros [Hd Ha]. rewrite append_cons. cbn.
    apply Ascii.eqb_neq in Hd. rewrite Hd, IH by assumption. reflexivity.
Qed.

(** The URI [repo#branch] names the branch after the first [#]. *)
Lemma parseGitURI_branch (repo branch : string) :
  absent "#"%char repo ->
  parseGitURI (repo ++ String "#"%char branch) = (repo, branch).
Proof.
  intros Habs. unfold parseGitURI. rewrite IndexByte_first by assumption.
  unfold GoStrings.slice_to. rewrite substring_prefix. f_equal.
  change (String "#"%char branch) with ("#" ++ branch).
  rewrite <- append_assoc.
  replace (S (String.length repo)) with (String.length (repo ++ "#"))
    by (rewrite length_append; cbn; lia).
  apply slice_from_append.
Qed.

(** A URI without [#] names the branch [main]. *)
Lemma parseGitURI_default (uri : string) :
  absent "#"%char uri -> parseGitURI uri = (uri, "main").
Proof.
  intros Habs. unfold parseGitURI. now rewrite IndexByte_absent.
Qed.

Lemma set_Changed_NewHash r b : NewHash (set_Changed r b) = NewHash r.
Proof. reflexivity. Qed.

Lemma set_Changed_NewMetadata r b : NewMetadata (set_Changed r b) = NewMetadata r.
Proof. reflexivity. Qed.

(** C3. For a Git source the digest is claimed to come from the remote
    tip commit of the branch, and that commit to be recorded as
    gitCommitHash. What the check computes, for every world and pipeline:
    the URI is parsed as claimed, but the digest is the SHA-256 of the
    repository, the branch and the hour of the clock, and the recorded
    commit hash is the first twelve digits of that digest; no remote is
    read. *)
Theorem checkGitSource_digest_is_hour_bucket (w : World) (ds : DocumentSet)
    (secretData : option (gmap string string)) :
  exists r md,
    checkGitSource w ds secretData = Ok r
    /\ NewMetadata r = Some md
    /\ NewHash r
       = SHA256.hex (fst (parseGitURI (URI (Source (DSSpec ds))))
                     ++ snd (parseGitURI (URI (Source (DSSpec ds))))
                     ++ GoTime.Format_hour (nowCivil w))
    /\ GitBranch md = snd (parseGitURI (URI (Source (DSSpec ds))))
    /\ GitCommitHash md = GoStrings.slice_to (NewHash r) 12.
Proof.
  unfold checkGitSource.
  destruct (parseGitURI (URI (Source (DSSpec ds)))) as [uri branch]. cbn [fst snd].
  eexists. eexists. split; [reflexivity|].
  unfold SHA256.SumHex, SHA256.Write, SHA256.New.
  change ("" ++ uri) with uri. rewrite append_assoc.
  destruct (DSSourceMetadata (DSStatus ds)) as [md|];
    [destruct (negb (String.eqb (GitCommitHash md) ""));
     [destruct (negb (String.eqb (GitCommitHash md) _))|]|];
    destruct (String.eqb (LastSourceHash (DSStatus ds)) "");
    rewrite ?set_Changed_NewHash, ?set_Changed_NewMetadata; cbn;
    repeat split; reflexivity.
Qed.

(** The wiki repository at ten o'clock: the recorded commit hash is a
    prefix of the digest of the URI and the hour. *)
Example checkGitSource_wiki_at_ten :
  exists r md,
    checkGitSource (worldAtHour 10) gitPipeline None = Ok r
    /\ NewMetadata r = Some md
    /\ NewHash r = SHA256.hex "https://github.com/company/wiki.gitmain2025-01-15-10"
    /\ GitBranch md = "main"
    /\ GitCommitHash md = "a6062f40bc2a".
Proof.
  eexists. eexists. split; [vm_compute; reflexivity|].
  split; [reflexivity|]. split; [vm_compute; reflexivity|]. split; reflexivity.
Qed.

(** ** C5: when a sync may start *)

Section SyncPolicy.

Variable ParseDuration : string -> option Z.
Variable FormatSeconds : Z -> string.

(** [ShouldSync] permits a sync exactly when there is a policy, it is
    not paused, its mode is auto, and the interval as parsed (five
    minutes by default, no floor) has elapsed since the last check, if
    there was one. *)
Lemma ShouldSync_permits_iff (w : World) (ds : DocumentSet) :
  fst (ShouldSync ParseDuration FormatSeconds w ds) = true <->
  exists policy,
    DSSyncPolicy (DSSpec ds) = Some policy
    /\ PauseSync policy = false
    /\ Mode policy = SyncModeAuto
    /\ forall t, LastSourceCheckTime (DSStatus ds) = Some t ->
                 parsedInterval ParseDuration policy <= GoTime.Since (now w) t.
Proof.
  unfold ShouldSync, parsedInterval.
  destruct (DSSyncPolicy (DSSpec ds)) as [policy|]; cbn.
  2:{ split; [discriminate | intros (p & H & _); discriminate]. }
  destruct (PauseSync policy) eqn:Hpause; cbn.
  { split; [discriminate | intros (p & H & Hp & _); congruence]. }
  destruct (String.eqb (Mode policy) SyncModeAuto) eqn:Hmode; cbn.
  2:{ split; [discriminate|]. intros (p & H & _ & Hm & _).
      apply String.eqb_neq in Hmode. congruence. }
  apply String.eqb_eq in Hmode.
  destruct (LastSourceCheckTime (DSStatus ds)) as [t|]; cbn.
  - match goal with |- context [?a <? ?b] => destruct (a <? b) eqn:Hlt end; cbn.
    + split; [discriminate|]. intros (p & H & _ & _ & Hint).
      injection H as <-. specialize (Hint t eq_refl). apply Z.ltb_lt in Hlt. lia.
    + split; [|reflexivity]. intros _. exists policy. repeat split; auto.
      intros t' Ht'. injection Ht' as <-. apply Z.ltb_ge in Hlt. lia.
  - split; [|reflexivity]. intros _. exists policy. repeat split; auto. discriminate.
Qed.

(** A deferred sync comes with a reason that is not empty. *)
Lemma ShouldSync_deferred_reason (w : World) (ds : DocumentSet) :
  fst (ShouldSync ParseDuration FormatSeconds w ds) = false ->
  snd (ShouldSync ParseDuration FormatSeconds w ds) <> "".
Proof.
  unfold ShouldSync.
  destruct (DSSyncPolicy (DSSpec ds)) as [policy|]; cbn; [|discriminate].
  destruct (PauseSync policy); cbn; [discriminate|].
  destruct (negb _); cbn; [discriminate|].
  destruct (LastSourceCheckTime (DSStatus ds)) as [t|]; cbn; [|discriminate].
  match goal with |- context [?a <? ?b] => destruct (a <? b) end; cbn; [|discriminate].
  intros _ H. apply (f_equal String.length) in H.
  rewrite length_append in H. cbn in H. lia.
Qed.

(** [GetSyncInterval] is never below a minute. *)
Lemma GetSyncInterval_floor (ds : DocumentSet) :
  GoTime.Minute <= GetSyncInterval ParseDuration ds.
Proof.
  unfold GetSyncInterval.
  destruct (DSSyncPolicy (DSSpec ds)) as [policy|]; [|vm_compute; discriminate].
  destruct (String.eqb (Interval policy) ""); [vm_compute; discriminate|].
  destruct (ParseDuration (Interval policy)) as [d|]; [|vm_compute; discriminate].
  destruct (d <? GoTime.Minute) eqn:H; [lia|]. apply Z.ltb_ge in H. lia.
Qed.

(** [GetSyncInterval] is five minutes without a policy, with an empty
    interval and with one that does not parse. *)
Lemma GetSyncInterval_default (ds : DocumentSet) :
  (forall policy, DSSyncPolicy (DSSpec ds) = Some policy ->
                  Interval policy = "" \/ ParseDuration (Interval policy) = None) ->
  GetSyncInterval ParseDuration ds = 5 * GoTime.Minute.
Proof.
  intros H. unfold GetSyncInterval.
  destruct (DSSyncPolicy (DSSpec ds)) as [policy|]; [|reflexivity].
  destruct (H policy eq_refl) as [-> | ->]; [reflexivity|].
  destruct (String.eqb (Interval policy) ""); reflexivity.
Qed.

(** [GetSyncInterval] on an interval that parses. *)
Lemma GetSyncInterval_parsed (ds : DocumentSet) (policy : SyncPolicy) (d : Z) :
  DSSyncPolicy (DSSpec ds) = Some policy ->
  Interval policy <> "" ->
  ParseDuration (Interval policy) = Some d ->
  GetSyncInterval ParseDuration ds = Z.max d GoTime.Minute.
Proof.
  intros Hp Hne Hd. unfold GetSyncInterval. rewrite Hp.
  apply String.eqb_neq in Hne. rewrite Hne, Hd.
  destruct (d <? GoTime.Minute) eqn:H; [apply Z.ltb_lt in H | apply Z.ltb_ge in H]; lia.
Qed.

End SyncPolicy.

(** C5. [ShouldSync] is claimed to permit a sync if and only if there is
    a policy, it is not paused, its mode is auto and the interval has
    elapsed, the interval being parsed with a default of five minutes and
    a floor of one minute. [ShouldSync] evaluated on a policy of ten
    seconds, thirty seconds after the last check: the interval with its
    floor, as [GetSyncInterval] computes it, is a minute and has not
    elapsed, and [ShouldSync] permits the sync. *)
Theorem ShouldSync_ignores_the_floor :
  let w := bucketWorld [] (30 * GoTime.Second) in
  LastSourceCheckTime (DSStatus hastyPipeline) = Some 0
  /\ GoTime.Since (now w) 0 = 30 * GoTime.Second
  /\ GetSyncInterval GoTime.ParseDuration_integral hastyPipeline = GoTime.Minute
  /\ GoTime.Since (now w) 0 < GetSyncInterval GoTime.ParseDuration_integral hastyPipeline
  /\ ShouldSync GoTime.ParseDuration_integral GoTime.FormatSeconds_exact w hastyPipeline
     = (true, "sync interval reached").
Proof.
  cbv zeta. repeat split; vm_compute; reflexivity.
Qed.

(** ** C7: the digest of an unchanged source *)

(** C7. Two successive checks of an unchanged source are claimed to give
    the same digest, for every source. The Git check evaluated twice on
    the same pipeline, at ten and at eleven o'clock of the same day: the
    two digests differ, whatever the repository holds. *)
Theorem git_digest_changes_with_the_hour :
  exists r10 r11,
    checkGitSource (worldAtHour 10) gitPipeline None = Ok r10
    /\ checkGitSource (worldAtHour 11) gitPipeline None = Ok r11
    /\ NewHash r10 = "a6062f40bc2a391a2cbffe2223979e78baa63da3fa7aecbb623f90c1db9ac24e"
    /\ NewHash r11 = "3e91f9dfdd2542d0f8d4f44c3f938e0117184e6728d2c46d56fe51cca2be1eb3"
    /\ NewHash r10 <> NewHash r11.
Proof.
  eexists. eexists.
  split; [vm_compute; reflexivity|]. split; [vm_compute; reflexivity|].
  cbn [NewHash]. repeat split. discriminate.
Qed.

(** ** Sorting and hashing the file names *)

Lemma sort_Strings_Permutation (l : list string) : sort_Strings l ≡ₚ l.
Proof. apply merge_sort_Permutation. Qed.

Lemma sort_Strings_sorted (l : list string) : StronglySorted String.le (sort_Strings l).
Proof. apply StronglySorted_merge_sort; apply _. Qed.

(** The sorted list depends on the names only, not on their order. *)
Lemma sort_Strings_order_invariant (l1 l2 : list string) :
  l1 ≡ₚ l2 -> sort_Strings l1 = sort_Strings l2.
Proof.
  intros Hperm. apply (StronglySorted_unique String.le).
  - apply sort_Strings_sorted.
  - apply sort_Strings_sorted.
  - now rewrite !sort_Strings_Permutation.
Qed.

Lemma combinedHash_fold (hashes : gmap string string) (files : list string) (acc : string) :
  List.fold_left
    (fun h f => SHA256.Write (SHA256.Write h f) (default "" (hashes !! f))) files acc
  = acc ++ GoStrings.concat_all (List.map (keyed hashes) files).
Proof.
  revert acc. induction files as [|f files IH]; intros acc; cbn.
  - now rewrite append_nil_r.
  - rewrite IH. unfold SHA256.Write, keyed. now rewrite !append_assoc.
Qed.

(** The combined digest is the SHA-256 of the names, each followed by
    its hash, concatenated in the order given. *)
Lemma combinedHash_concat (files : list string) (hashes : gmap string string) :
  combinedHash files hashes
  = SHA256.hex (GoStrings.concat_all (List.map (keyed hashes) files)).
Proof.
  unfold combinedHash, SHA256.SumHex. now rewrite combinedHash_fold.
Qed.

(** ** The S3 listing *)

Lemma s3Visit_file (acc : s3Listing) (o : S3Object) :
  GoStrings.HasSuffixSlash (s3Key o) = false ->
  s3Visit acc o
  = {| allFiles := (allFiles acc ++ [s3Key o])%list;
       fileHashes := <[s3Key o := s3ETag o]> (fileHashes acc);
       totalSize := wrap64 (totalSize acc + s3Size o);
       fileCount := fileCount acc + 1 |}.
Proof. intros H. unfold s3Visit. fold (s3Key o). now rewrite H. Qed.

Lemma s3Visit_directory (acc : s3Listing) (o : S3Object) :
  GoStrings.HasSuffixSlash (s3Key o) = true -> s3Visit acc o = acc.
Proof. intros H. unfold s3Visit. fold (s3Key o). now rewrite H. Qed.

Lemma s3Visit_files (objs : list S3Object) (acc : s3Listing) :
  List.fold_left s3Visit objs acc = List.fold_left s3Visit (s3Files objs) acc.
Proof.
  revert acc. induction objs as [|o objs IH]; intros acc; [reflexivity|].
  cbn. destruct (GoStrings.HasSuffixSlash (s3Key o)) eqn:H; cbn.
  - rewrite s3Visit_directory by assumption. apply IH.
  - apply IH.
Qed.

Lemma s3Files_all_files (objs : list S3Object) (o : S3Object) :
  In o (s3Files objs) -> GoStrings.HasSuffixSlash (s3Key o) = false.
Proof.
  unfold s3Files. rewrite List.filter_In. intros [_ H].
  now apply negb_true_iff in H.
Qed.

Lemma wrap64_idem_add (a b : Z) : wrap64 (wrap64 a + b) = wrap64 (a + b).
Proof.
  unfold wrap64.
  replace ((a + 2 ^ 63) mod 2 ^ 64 - 2 ^ 63 + b + 2 ^ 63)
    with ((a + 2 ^ 63) mod 2 ^ 64 + b) by ring.
  rewrite Zplus_mod_idemp_l. f_equal. f_equal. ring.
Qed.

Lemma wrap64_idem (a : Z) : wrap64 (wrap64 a) = wrap64 a.
Proof.
  transitivity (wrap64 (wrap64 a + 0)); [now rewrite Z.add_0_r|].
  rewrite wrap64_idem_add. now rewrite Z.add_0_r.
Qed.

Lemma wrap64_small (a : Z) : - 2 ^ 63 <= a < 2 ^ 63 -> wrap64 a = a.
Proof. intros H. unfold wrap64. rewrite Z.mod_small; lia. Qed.

(** What the loop over the objects leaves in the four variables. *)
Lemma s3Visit_fold (files : list S3Object) (acc : s3Listing) :
  (forall o, In o files -> GoStrings.HasSuffixSlash (s3Key o) = false) ->
  let l := List.fold_left s3Visit files acc in
  allFiles l = (allFiles acc ++ List.map s3Key files)%list
  /\ fileHashes l
     = list_to_map (List.rev (List.map (fun o => (s3Key o, s3ETag o)) files)) ∪ fileHashes acc
  /\ wrap64 (totalSize l) = wrap64 (totalSize acc + sumSizes files)
  /\ (files <> [] -> totalSize l = wrap64 (totalSize l))
  /\ fileCount l = fileCount acc + len files.
Proof.
  revert acc. induction files as [|o files IH]; intros acc Hfiles; cbn zeta.
  - cbn. rewrite app_nil_r, Z.add_0_r, (left_id_L ∅ (∪)). unfold len. cbn.
    rewrite Z.add_0_r. repeat split; auto. congruence.
  - cbn [List.fold_left]. rewrite s3Visit_file by (apply Hfiles; now left).
    destruct (IH {| allFiles := (allFiles acc ++ [s3Key o])%list;
                    fileHashes := <[s3Key o := s3ETag o]> (fileHashes acc);
                    totalSize := wrap64 (totalSize acc + s3Size o);
                    fileCount := fileCount acc + 1 |})
      as (Ha & Hh & Ht & Hw & Hc); [intros; apply Hfiles; now right|].
    cbn [allFiles fileHashes totalSize fileCount] in *.
    repeat split.
    + rewrite Ha. cbn. now rewrite <- app_assoc.
    + rewrite Hh. cbn [List.map List.rev]. rewrite list_to_map_app. cbn [list_to_map foldr].
      rewrite insert_empty, <- (assoc_L (∪)), <- insert_union_singleton_l. reflexivity.
    + rewrite Ht, wrap64_idem_add. cbn [sumSizes]. f_equal. ring.
    + intros _. destruct files as [|o' files'].
      * cbn [List.fold_left totalSize]. symmetry. apply wrap64_idem.
      * apply Hw. discriminate.
    + rewrite Hc. unfold len. cbn [List.length]. lia.
Qed.

Lemma s3Paginate_pages (pgs : list (list S3Object)) (acc : s3Listing) :
  s3Paginate (List.map Ok pgs) acc = Ok (List.fold_left s3Visit (List.concat pgs) acc).
Proof.
  revert acc. induction pgs as [|pg pgs IH]; intros acc; cbn; [reflexivity|].
  rewrite IH, List.fold_left_app. reflexivity.
Qed.

(** A page that fails ends the listing with an error. *)
Lemma s3Paginate_error (pgs : list (list S3Object)) (e : string)
    (rest : list (result (list S3Object))) (acc : s3Listing) :
  s3Paginate (List.map Ok pgs ++ Err e :: rest) acc = Err ("failed to list S3 objects: " ++ e).
Proof.
  revert acc. induction pgs as [|pg pgs IH]; intros acc; cbn; [reflexivity | apply IH].
Qed.

(** *** Stripping the quotation marks *)

Lemma TrimLeftByte_spec (s : string) (c : ascii) :
  exists n, s = repeat_byte c n ++ GoStrings.TrimLeftByte s c
            /\ first_byte (GoStrings.TrimLeftByte s c) <> Some c.
Proof.
  induction s as [|d s (n & Hs & Hf)].
  - exists O. split; [reflexivity | discriminate].
  - cbn. destruct (Ascii.eqb d c) eqn:E.
    + apply Ascii.eqb_eq in E. subst d. exists (S n). split; [|assumption].
      cbn. rewrite append_cons. now f_equal.
    + apply Ascii.eqb_neq in E. exists O. split; [reflexivity|]. cbn. congruence.
Qed.

Lemma TrimRightByte_spec (s : string) (c : ascii) :
  exists n, s = GoStrings.TrimRightByte s c ++ repeat_byte c n
            /\ GoStrings.last_byte (GoStrings.TrimRightByte s c) <> Some c.
Proof.
  induction s as [|d s (n & Hs & Hl)].
  - exists O. split; [reflexivity | discriminate].
  - cbn. destruct (GoStrings.TrimRightByte s c) as [|e r] eqn:Ht.
    + destruct (Ascii.eqb d c) eqn:E.
      * apply Ascii.eqb_eq in E. subst d. exists (S n). split; [|discriminate].
        change ("" ++ repeat_byte c (S n)) with (String c (repeat_byte c n)).
        f_equal. exact Hs.
      * apply Ascii.eqb_neq in E. exists n. split; [|cbn; congruence].
        rewrite append_cons. f_equal. exact Hs.
    + exists n. split; [|exact Hl].
      rewrite append_cons. f_equal. exact Hs.
Qed.

Lemma TrimRightByte_first (s : string) (c : ascii) :
  first_byte s <> Some c -> first_byte (GoStrings.TrimRightByte s c) <> Some c.
Proof.
  destruct s as [|d s]; [auto|]. cbn. intros Hd.
  destruct (GoStrings.TrimRightByte s c); [|exact Hd].
  destruct (Ascii.eqb d c); [discriminate | exact Hd].
Qed.

(** [TrimByte] removes the bytes [c] around the string and nothing else:
    what is left neither starts nor ends with [c]. *)
Lemma TrimByte_spec (s : string) (c : ascii) :
  exists a b,
    s = repeat_byte c a ++ GoStrings.TrimByte s c ++ repeat_byte c b
    /\ first_byte (GoStrings.TrimByte s c) <> Some c
    /\ GoStrings.last_byte (GoStrings.TrimByte s c) <> Some c.
Proof.
  unfold GoStrings.TrimByte.
  destruct (TrimLeftByte_spec s c) as (a & Hs & Hf).
  destruct (TrimRightByte_spec (GoStrings.TrimLeftByte s c) c) as (b & Ht & Hl).
  exists a, b. split; [|split].
  - rewrite <- Ht. exact Hs.
  - now apply TrimRightByte_first.
  - exact Hl.
Qed.

(** *** The digest has 64 digits *)

Lemma length_be_bytes (n : nat) (x : Z) : List.length (SHA256.be_bytes n x) = n.
Proof.
  revert x. induction n as [|n IH]; intros x; cbn; [reflexivity|].
  rewrite length_app, IH. cbn. lia.
Qed.

Lemma length_compress (h block : list Z) :
  List.length h = 8%nat -> List.length (SHA256.compress h block) = 8%nat.
Proof.
  intros Hh. unfold SHA256.compress.
  rewrite List.length_map, List.length_combine, Hh. reflexivity.
Qed.

Lemma length_blocks (fuel : nat) (h bs : list Z) :
  List.length h = 8%nat -> List.length (SHA256.blocks fuel h bs) = 8%nat.
Proof.
  revert h bs. induction fuel as [|fuel IH]; intros h bs Hh; cbn; [assumption|].
  destruct bs; [assumption|]. apply IH. now apply length_compress.
Qed.

Lemma length_EncodeToString (bs : list Z) :
  String.length (SHA256.EncodeToString bs) = (2 * List.length bs)%nat.
Proof. induction bs as [|b bs IH]; cbn; [reflexivity | rewrite IH; lia]. Qed.

Lemma length_flat_map_be_bytes (l : list Z) :
  List.length (List.flat_map (SHA256.be_bytes 4) l) = (4 * List.length l)%nat.
Proof.
  induction l as [|x l IH]; [reflexivity|].
  cbn [List.flat_map]. rewrite length_app, length_be_bytes, IH. cbn [List.length]. lia.
Qed.

(** Every digest is 64 hexadecimal digits long; in particular it is not
    empty and has a prefix of twelve digits. *)
Lemma length_hex (s : string) : String.length (SHA256.hex s) = 64%nat.
Proof.
  unfold SHA256.hex, SHA256.Sum.
  rewrite length_EncodeToString, length_flat_map_be_bytes, length_blocks; reflexivity.
Qed.

Lemma hex_nonempty (s : string) : SHA256.hex s <> "".
Proof.
  intros H. pose proof (length_hex s) as Hl. rewrite H in Hl. discriminate.
Qed.

(** ** C6: the difference of two hash maps *)

Lemma diff_new_fold (old : gmap string string) (entries : list (string * string))
    (acc : list string * list string) :
  List.fold_left
    (fun (acc : list string * list string) (e : string * string) =>
       let '(file, newHash) := e in
       match old !! file with
       | None => (fst acc ++ [file], snd acc)%list
       | Some oldHash =>
           if String.eqb oldHash newHash then acc
           else (fst acc, snd acc ++ [file])%list
       end)
    entries acc
  = ((fst acc ++ addedIn old entries)%list, (snd acc ++ changedIn old entries)%list).
Proof.
  revert acc. induction entries as [|[file h] entries IH]; intros [a c].
  - cbn. now rewrite !app_nil_r.
  - cbn [List.fold_left]. rewrite IH. unfold addedIn, changedIn. cbn [List.filter fst snd].
    destruct (old !! file) as [oh|]; cbn [fst snd List.map].
    + destruct (String.eqb oh h); cbn [negb fst snd List.map]; [reflexivity|].
      now rewrite <- app_assoc.
    + now rewrite <- app_assoc.
Qed.

Lemma diff_old_fold (new : gmap string string) (entries : list (string * string))
    (acc : list string) :
  List.fold_left
    (fun (acc : list string) (e : string * string) =>
       match new !! (fst e) with
       | None => (acc ++ [fst e])%list
       | Some _ => acc
       end)
    entries acc
  = (acc ++ addedIn new entries)%list.
Proof.
  revert acc. induction entries as [|[file h] entries IH]; intros acc.
  - cbn. now rewrite app_nil_r.
  - cbn [List.fold_left]. rewrite IH. unfold addedIn. cbn [List.filter fst].
    destruct (new !! file); cbn [List.map fst]; [reflexivity|].
    now rewrite <- app_assoc.
Qed.

(** The three lists in closed form. *)
Lemma diffFileHashes_lists (old new : gmap string string) :
  diffFileHashes old new
  = (addedIn old (map_to_list new), addedIn new (map_to_list old),
     changedIn old (map_to_list new)).
Proof.
  unfold diffFileHashes. rewrite diff_new_fold, diff_old_fold. reflexivity.
Qed.

Lemma elem_of_addedIn (old m : gmap string string) (k : string) :
  k ∈ addedIn old (map_to_list m) <-> is_Some (m !! k) /\ old !! k = None.
Proof.
  unfold addedIn. rewrite list_elem_of_In, List.in_map_iff. split.
  - intros ([k' v] & <- & Hin). apply List.filter_In in Hin as [Hin Hp].
    apply list_elem_of_In, elem_of_map_to_list in Hin. cbn in *.
    split; [eauto|]. destruct (old !! k'); [discriminate | reflexivity].
  - intros ([v Hv] & Hold). exists (k, v). split; [reflexivity|].
    apply List.filter_In. split.
    + now apply list_elem_of_In, elem_of_map_to_list.
    + cbn. now rewrite Hold.
Qed.

Lemma elem_of_changedIn (old m : gmap string string) (k : string) :
  k ∈ changedIn old (map_to_list m)
  <-> exists a b, old !! k = Some a /\ m !! k = Some b /\ a <> b.
Proof.
  unfold changedIn. rewrite list_elem_of_In, List.in_map_iff. split.
  - intros ([k' v] & <- & Hin). apply List.filter_In in Hin as [Hin Hp].
    apply list_elem_of_In, elem_of_map_to_list in Hin. cbn in *.
    destruct (old !! k') as [a|]; [|discriminate].
    exists a, v. repeat split; auto.
    apply negb_true_iff, String.eqb_neq in Hp. exact Hp.
  - intros (a & b & Ha & Hb & Hne). exists (k, b). split; [reflexivity|].
    apply List.filter_In. split.
    + now apply list_elem_of_In, elem_of_map_to_list.
    + cbn. rewrite Ha. now apply negb_true_iff, String.eqb_neq.
Qed.

Lemma NoDup_map_fst_filter {A B} (p : A * B -> bool) (l : list (A * B)) :
  NoDup (List.map fst l) -> NoDup (List.map fst (List.filter p l)).
Proof.
  induction l as [|e l IH]; cbn; [auto|].
  intros Hnd. apply NoDup_cons in Hnd as [Hnotin Hnd].
  destruct (p e); cbn; [|auto].
  apply NoDup_cons. split; [|auto].
  intros Hin. apply Hnotin.
  apply list_elem_of_In, List.in_map_iff in Hin as (e' & He' & Hin).
  apply List.filter_In in Hin as [Hin _].
  apply list_elem_of_In, List.in_map_iff. eauto.
Qed.

Lemma NoDup_addedIn (old m : gmap string string) : NoDup (addedIn old (map_to_list m)).
Proof. apply NoDup_map_fst_filter, (NoDup_fst_map_to_list m). Qed.

Lemma NoDup_changedIn (old m : gmap string string) : NoDup (changedIn old (map_to_list m)).
Proof. apply NoDup_map_fst_filter, (NoDup_fst_map_to_list m). Qed.

(** *** The comparison with the previous state *)

Lemma compareWithPrevious_NewHash ds result hashes count :
  NewHash (compareWithPrevious ds result hashes count) = NewHash result.
Proof.
  unfold compareWithPrevious.
  destruct (negb (String.eqb (LastSourceHash (DSStatus ds)) "") && _).
  - destruct (DSSourceMetadata (DSStatus ds)) as [md|]; [|reflexivity].
    destruct (FileHashes md) as [old|]; [|reflexivity].
    unfold set_diff. destruct (diffFileHashes old hashes) as [[a d] c]. reflexivity.
  - destruct (String.eqb (LastSourceHash (DSStatus ds)) ""); reflexivity.
Qed.

Lemma compareWithPrevious_NewMetadata ds result hashes count :
  NewMetadata (compareWithPrevious ds result hashes count) = NewMetadata result.
Proof.
  unfold compareWithPrevious.
  destruct (negb (String.eqb (LastSourceHash (DSStatus ds)) "") && _).
  - destruct (DSSourceMetadata (DSStatus ds)) as [md|]; [|reflexivity].
    destruct (FileHashes md) as [old|]; [|reflexivity].
    unfold set_diff. destruct (diffFileHashes old hashes) as [[a d] c]. reflexivity.
  - destruct (String.eqb (LastSourceHash (DSStatus ds)) ""); reflexivity.
Qed.

(** No previous digest: the source counts as changed, every file as added. *)
Lemma compareWithPrevious_first ds result hashes count :
  LastSourceHash (DSStatus ds) = "" ->
  let r := compareWithPrevious ds result hashes count in
  Changed r = true /\ FilesAdded r = count.
Proof.
  intros H. unfold compareWithPrevious. rewrite H. cbn. auto.
Qed.

(** The previous digest again: the result is left as it was built. *)
Lemma compareWithPrevious_same ds result hashes count :
  LastSourceHash (DSStatus ds) <> "" ->
  LastSourceHash (DSStatus ds) = NewHash result ->
  compareWithPrevious ds result hashes count = result.
Proof.
  intros Hne Heq. unfold compareWithPrevious.
  rewrite <- Heq, String.eqb_refl. apply String.eqb_neq in Hne. rewrite Hne. reflexivity.
Qed.

(** Another digest, with the previous hashes at hand: the source counts
    as changed and the three lists of the diff are reported with their
    lengths. *)
Lemma compareWithPrevious_diff ds result hashes count md old :
  LastSourceHash (DSStatus ds) <> "" ->
  LastSourceHash (DSStatus ds) <> NewHash result ->
  DSSourceMetadata (DSStatus ds) = Some md ->
  FileHashes md = Some old ->
  let r := compareWithPrevious ds result hashes count in
  Changed r = true
  /\ (AddedFiles r, DeletedFiles r, ChangedFiles r) = diffFileHashes old hashes
  /\ FilesAdded r = len (AddedFiles r)
  /\ FilesDeleted r = len (DeletedFiles r)
  /\ FilesChanged r = len (ChangedFiles r).
Proof.
  intros Hne Hneq Hmd Hold. unfold compareWithPrevious.
  apply String.eqb_neq in Hne, Hneq. rewrite Hne, Hneq, Hmd, Hold. cbn.
  unfold set_diff. destruct (diffFileHashes old hashes) as [[a d] c]. cbn. auto.
Qed.

(** Another digest, without previous hashes: changed, nothing counted. *)
Lemma compareWithPrevious_changed ds result hashes count :
  LastSourceHash (DSStatus ds) <> "" ->
  LastSourceHash (DSStatus ds) <> NewHash result ->
  Changed (compareWithPrevious ds result hashes count) = true.
Proof.
  intros Hne Hneq. unfold compareWithPrevious.
  apply String.eqb_neq in Hne, Hneq. rewrite Hne, Hneq. cbn.
  destruct (DSSourceMetadata (DSStatus ds)) as [md|]; [|reflexivity].
  destruct (FileHashes md) as [old|]; [|reflexivity].
  unfold set_diff. destruct (diffFileHashes old hashes) as [[a d] c]. reflexivity.
Qed.

Lemma changeDetermination_compare ds h md hashes :
  h <> "" ->
  changeDetermination ds
    (compareWithPrevious ds (newResult h md) hashes (FileCount md)) hashes.
Proof.
  intros Hh. unfold changeDetermination. exists md.
  rewrite compareWithPrevious_NewMetadata, compareWithPrevious_NewHash. cbn [NewMetadata NewHash newResult].
  split; [reflexivity|]. split; [|split].
  - intros Hlast. now apply compareWithPrevious_first.
  - intros Hlast. rewrite compareWithPrevious_same; [reflexivity | congruence | exact Hlast].
  - intros Hne Hneq. split; [now apply compareWithPrevious_changed|].
    intros prev old Hprev Hold.
    now apply (compareWithPrevious_diff ds (newResult h md) hashes (FileCount md) prev old).
Qed.

Lemma combinedHash_nonempty files hashes : combinedHash files hashes <> "".
Proof. rewrite combinedHash_concat. apply hex_nonempty. Qed.

(** C6. For the previous per-file hashes [old] and the current ones
    [new], the lists computed by [diffFileHashes] are: added, the keys of
    [new] that are not keys of [old]; deleted, the keys of [old] that are
    not keys of [new]; changed, the keys of both whose hashes differ. No
    list repeats a key and no key is in two lists. The S3 check and the
    PVC check report: with an empty lastSourceHash, changed and filesAdded
    equal to the file count; with equal digests, not changed; otherwise
    changed, with the diff when the previous hashes are recorded. *)
Theorem diffFileHashes_partition (old new : gmap string string) (ds : DocumentSet)
    (s3 : s3Listing) (pvc : pvcListing) :
  let added := fst (fst (diffFileHashes old new)) in
  let deleted := snd (fst (diffFileHashes old new)) in
  let changed := snd (diffFileHashes old new) in
  list_to_set added =@{gset string} dom new ∖ dom old
  /\ list_to_set deleted =@{gset string} dom old ∖ dom new
  /\ (forall k, k ∈ changed <-> exists a b, old !! k = Some a /\ new !! k = Some b /\ a <> b)
  /\ NoDup added /\ NoDup deleted /\ NoDup changed
  /\ (forall k, ~ (k ∈ added /\ k ∈ deleted))
  /\ (forall k, ~ (k ∈ added /\ k ∈ changed))
  /\ (forall k, ~ (k ∈ deleted /\ k ∈ changed))
  /\ changeDetermination ds (s3Digest ds s3) (fileHashes s3)
  /\ changeDetermination ds (pvcDigest ds pvc) (pvcHashes pvc).
Proof.
  rewrite diffFileHashes_lists. cbn [fst snd].
  assert (Hadd : forall k, k ∈ addedIn old (map_to_list new) <-> k ∈ dom new ∖ dom old).
  { intros k. rewrite elem_of_addedIn, elem_of_difference, !elem_of_dom.
    rewrite <- eq_None_not_Some. reflexivity. }
  assert (Hdel : forall k, k ∈ addedIn new (map_to_list old) <-> k ∈ dom old ∖ dom new).
  { intros k. rewrite elem_of_addedIn, elem_of_difference, !elem_of_dom.
    rewrite <- eq_None_not_Some. reflexivity. }
  repeat match goal with |- _ /\ _ => split end.
  - apply set_eq. intros k. rewrite elem_of_list_to_set. apply Hadd.
  - apply set_eq. intros k. rewrite elem_of_list_to_set. apply Hdel.
  - intros k. apply elem_of_changedIn.
  - apply NoDup_addedIn.
  - apply NoDup_addedIn.
  - apply NoDup_changedIn.
  - intros k [H1 H2]. apply Hadd, elem_of_difference in H1 as [_ H1].
    apply Hdel, elem_of_difference in H2 as [H2 _]. contradiction.
  - intros k [H1 H2]. apply elem_of_addedIn in H1 as [_ H1].
    apply elem_of_changedIn in H2 as (a & b & Ha & _). congruence.
  - intros k [H1 H2]. apply elem_of_addedIn in H1 as [_ H1].
    apply elem_of_changedIn in H2 as (a & b & _ & Hb & _). congruence.
  - unfold s3Digest.
    apply (changeDetermination_compare ds _
             {| FileHashes := Some (fileHashes s3); GitBranch := ""; GitCommitHash := "";
                S3ETag := ""; LastModifiedTime := None;
                TotalSize := totalSize s3; FileCount := fileCount s3 |}).
    apply combinedHash_nonempty.
  - unfold pvcDigest.
    apply (changeDetermination_compare ds _
             {| FileHashes := Some (pvcHashes pvc); GitBranch := ""; GitCommitHash := "";
                S3ETag := ""; LastModifiedTime := Some (latestModTime pvc);
                TotalSize := pvcTotalSize pvc; FileCount := len (pvcFiles pvc) |}).
    apply combinedHash_nonempty.
Qed.

(** Scenario S3 of the specification: [a] kept, [b] deleted, [c] added. *)
Lemma diffFileHashes_partition_witness :
  diffFileHashes (<["a" := "x"]> (<["b" := "y"]> ∅)) (<["a" := "x"]> (<["c" := "z"]> ∅))
    = (["c"], ["b"], [])
  /\ (forall k : string,
        k ∈ snd (diffFileHashes (<["a" := "x"]> (<["b" := "y"]> ∅))
                   (<["a" := "x"]> (<["c" := "z"]> ∅)))
        <-> exists a b, (<["a" := "x"]> (<["b" := "y"]> ∅) : gmap string string) !! k = Some a
                        /\ (<["a" := "x"]> (<["c" := "z"]> ∅) : gmap string string) !! k = Some b
                        /\ a <> b)
  /\ Changed (s3Digest readyPipeline listingS3) = true
  /\ AddedFiles (s3Digest readyPipeline listingS3) = ["c"]
  /\ DeletedFiles (s3Digest readyPipeline listingS3) = ["b"].
Proof.
  pose proof (diffFileHashes_partition
                (<["a" := "x"]> (<["b" := "y"]> ∅)) (<["a" := "x"]> (<["c" := "z"]> ∅))
                readyPipeline listingS3 pvcEmpty) as H.
  cbv zeta in H.
  destruct H as (_ & _ & Hchanged & _ & _ & _ & _ & _ & _ & Hs3 & _).
  split; [vm_compute; reflexivity|].
  split; [exact Hchanged|].
  destruct Hs3 as (md & _ & _ & _ & Hdiff).
  destruct Hdiff as [Hch Hlists].
  - vm_compute. discriminate.
  - vm_compute. discriminate.
  - split; [exact Hch|].
    destruct (Hlists _ _ eq_refl eq_refl) as (Heq & _).
    assert (Hd : diffFileHashes (<["a" := "x"]> (<["b" := "y"]> ∅))
                   (fileHashes listingS3) = (["c"], ["b"], []))
      by (vm_compute; reflexivity).
    rewrite Hd in Heq.
    pose proof (f_equal (fun t => fst (fst t)) Heq) as Ha.
    pose proof (f_equal (fun t => snd (fst t)) Heq) as Hdl.
    cbn beta iota delta [fst snd] in Ha, Hdl. split; assumption.
Defined.

(** ** C8: the digest of an S3 listing *)

Lemma s3Files_keys_no_slash (objs : list S3Object) (k : string) :
  GoStrings.HasSuffixSlash k = true -> ~ In k (List.map s3Key (s3Files objs)).
Proof.
  intros Hk Hin. apply List.in_map_iff in Hin as (o & <- & Hin).
  apply s3Files_all_files in Hin. congruence.
Qed.

Lemma not_elem_of_list_to_map_rev (kvs : list (string * string)) (k : string) :
  ~ In k (List.map fst kvs) ->
  (list_to_map (List.rev kvs) : gmap string string) !! k = None.
Proof.
  intros Hk. apply not_elem_of_list_to_map_1.
  intros Hin. apply Hk. apply list_elem_of_In in Hin.
  apply List.in_map_iff in Hin as (e & He & Hin).
  apply List.in_rev in Hin. apply List.in_map_iff. eauto.
Qed.

(** When no key is listed twice, every file is recorded with its own
    ETag. *)
Lemma list_to_map_rev_lookup (kvs : list (string * string)) (k v : string) :
  NoDup (List.map fst kvs) -> In (k, v) kvs ->
  (list_to_map (List.rev kvs) : gmap string string) !! k = Some v.
Proof.
  intros Hnd Hin. apply elem_of_list_to_map_1.
  - assert (Hp : List.map fst kvs ≡ₚ (List.rev kvs).*1)
      by apply (fmap_Permutation fst), Permutation_rev.
    rewrite <- Hp. exact Hnd.
  - apply list_elem_of_In. now apply List.in_rev in Hin.
Qed.

(** C8. For every S3 listing (the pages of objects), the digest
    computation keeps the objects whose key does not end in a slash,
    records for each its key with its ETag stripped of the quotation
    marks around it, counts them and adds up their sizes (in int64), and
    produces as newHash the SHA-256 of the concatenation of key and ETag
    over the keys in sorted order. *)
Theorem s3_listing_digest (ds : DocumentSet) (pgs : list (list S3Object)) :
  let files := s3Files (List.concat pgs) in
  exists l md,
    s3Paginate (List.map Ok pgs) s3Empty = Ok l
    /\ allFiles l = List.map s3Key files
    /\ fileHashes l = list_to_map (List.rev (List.map (fun o => (s3Key o, s3ETag o)) files))
    /\ (NoDup (List.map s3Key files) ->
        forall o, In o files -> fileHashes l !! s3Key o = Some (s3ETag o))
    /\ (forall o, exists a b,
          aws_ToString (ObjETag o)
          = repeat_byte GoStrings.quote a ++ s3ETag o ++ repeat_byte GoStrings.quote b
          /\ first_byte (s3ETag o) <> Some GoStrings.quote
          /\ GoStrings.last_byte (s3ETag o) <> Some GoStrings.quote)
    /\ (forall k, GoStrings.HasSuffixSlash k = true ->
                  ~ In k (allFiles l) /\ fileHashes l !! k = None)
    /\ fileCount l = len files
    /\ totalSize l = wrap64 (sumSizes files)
    /\ NewMetadata (s3Digest ds l) = Some md
    /\ FileHashes md = Some (fileHashes l)
    /\ TotalSize md = totalSize l
    /\ FileCount md = fileCount l
    /\ StronglySorted String.le (sort_Strings (allFiles l))
    /\ sort_Strings (allFiles l) ≡ₚ allFiles l
    /\ NewHash (s3Digest ds l)
       = SHA256.hex (GoStrings.concat_all
                       (List.map (keyed (fileHashes l)) (sort_Strings (allFiles l)))).
Proof.
  intros files.
  rewrite s3Paginate_pages, s3Visit_files. fold files.
  destruct (s3Visit_fold files s3Empty) as (Ha & Hh & Ht & Hw & Hc).
  { intros o Ho. now apply (s3Files_all_files (List.concat pgs)). }
  set (l := List.fold_left s3Visit files s3Empty) in *.
  cbn [allFiles fileHashes totalSize fileCount s3Empty] in Ha, Hh, Ht, Hc.
  rewrite (right_id_L ∅ (∪)) in Hh.
  exists l. eexists.
  split; [reflexivity|]. split; [exact Ha|]. split; [exact Hh|].
  split.
  { intros Hnd o Ho. rewrite Hh. apply list_to_map_rev_lookup.
    - now rewrite List.map_map.
    - apply List.in_map_iff. eauto. }
  split; [intros o; apply TrimByte_spec|].
  split.
  { intros k Hk. split.
    - rewrite Ha. now apply s3Files_keys_no_slash.
    - rewrite Hh. apply not_elem_of_list_to_map_rev.
      rewrite List.map_map. now apply s3Files_keys_no_slash. }
  split; [rewrite Hc; lia|].
  split.
  { destruct files as [|o files'] eqn:E.
    - reflexivity.
    - rewrite Hw by discriminate. rewrite Ht. reflexivity. }
  unfold s3Digest.
  rewrite compareWithPrevious_NewMetadata, compareWithPrevious_NewHash.
  cbn [NewMetadata NewHash newResult].
  split; [reflexivity|]. cbn [FileHashes TotalSize FileCount].
  repeat split.
  - apply sort_Strings_sorted.
  - apply sort_Strings_Permutation.
  - apply combinedHash_concat.
Qed.

(** Scenario S1 of the specification: a bucket with [a] (ETag "x", in
    quotation marks), a directory marker and [b] (ETag "y"); the digest is
    SHA256(a x b y). *)
Example s3_listing_digest_S1 :
  let q := String GoStrings.quote "" in
  let w := bucketWorld
             [Ok [mkObject "b" (q ++ "y" ++ q) 4; mkObject "docs/" "" 0];
              Ok [mkObject "a" (q ++ "x" ++ q) 3]] 0 in
  let ds := mkPipeline SourceTypeS3 "s3://b/p/" None DocumentSetPhasePending "" None None in
  exists r md,
    CheckSourceChanges filepath_Join_clean w ds = Ok r
    /\ NewHash r = SHA256.hex "axby"
    /\ NewMetadata r = Some md
    /\ FileHashes md = Some (<["a" := "x"]> (<["b" := "y"]> ∅))
    /\ FileCount md = 2 /\ TotalSize md = 7
    /\ Changed r = true /\ FilesAdded r = 2.
Proof.
  cbv zeta. eexists. eexists.
  split; [vm_compute; reflexivity|].
  split; [vm_compute; reflexivity|].
  split; [reflexivity|].
  cbn [FileHashes FileCount TotalSize Changed FilesAdded].
  split; [vm_compute; reflexivity | auto].
Qed.

(** ** C7: the digest and the order of the listing *)

Lemma filter_Permutation_bool {A} (p : A -> bool) (l1 l2 : list A) :
  l1 ≡ₚ l2 -> List.filter p l1 ≡ₚ List.filter p l2.
Proof.
  induction 1 as [|x l1 l2 _ IH|x y l|l1 l2 l3 _ IH1 _ IH2]; cbn.
  - reflexivity.
  - destruct (p x); [now constructor | assumption].
  - destruct (p x), (p y); try reflexivity. apply perm_swap.
  - now transitivity (List.filter p l2).
Qed.

(** The combined digest of the sorted names does not depend on the order
    in which the names were found. *)
Lemma combinedHash_order_invariant (files1 files2 : list string) (hashes : gmap string string) :
  files1 ≡ₚ files2 ->
  combinedHash (sort_Strings files1) hashes = combinedHash (sort_Strings files2) hashes.
Proof. intros H. now rewrite (sort_Strings_order_invariant files1 files2). Qed.

Lemma list_to_map_rev_order_invariant (kvs1 kvs2 : list (string * string)) :
  NoDup (List.map fst kvs1) -> kvs1 ≡ₚ kvs2 ->
  (list_to_map (List.rev kvs1) : gmap string string) = list_to_map (List.rev kvs2).
Proof.
  intros Hnd Hperm. apply list_to_map_proper.
  - assert (Hp : List.map fst kvs1 ≡ₚ (List.rev kvs1).*1)
      by apply (fmap_Permutation fst), Permutation_rev.
    rewrite <- Hp. exact Hnd.
  - now rewrite <- !Permutation_rev.
Qed.

(** Two listings of the same objects, each key listed once, in any
    order and in any division into pages: the same files, the same hash
    map, the same digest. *)
Lemma s3Digest_order_invariant (ds : DocumentSet) (pgs1 pgs2 : list (list S3Object)) :
  List.concat pgs1 ≡ₚ List.concat pgs2 ->
  NoDup (List.map s3Key (s3Files (List.concat pgs1))) ->
  exists l1 l2,
    s3Paginate (List.map Ok pgs1) s3Empty = Ok l1
    /\ s3Paginate (List.map Ok pgs2) s3Empty = Ok l2
    /\ fileHashes l1 = fileHashes l2
    /\ NewHash (s3Digest ds l1) = NewHash (s3Digest ds l2).
Proof.
  intros Hperm Hnd.
  assert (Hl : forall pgs,
             exists l,
               s3Paginate (List.map Ok pgs) s3Empty = Ok l
               /\ allFiles l = List.map s3Key (s3Files (List.concat pgs))
               /\ fileHashes l
                  = list_to_map (List.rev (List.map (fun o => (s3Key o, s3ETag o))
                                             (s3Files (List.concat pgs))))
               /\ NewHash (s3Digest ds l)
                  = SHA256.hex (GoStrings.concat_all
                                  (List.map (keyed (fileHashes l)) (sort_Strings (allFiles l))))).
  { intros pgs. rewrite s3Paginate_pages, s3Visit_files.
    destruct (s3Visit_fold (s3Files (List.concat pgs)) s3Empty) as (Ha & Hh & _).
    { intros o Ho. now apply (s3Files_all_files (List.concat pgs)). }
    cbn [allFiles fileHashes s3Empty] in Ha, Hh. rewrite (right_id_L ∅ (∪)) in Hh.
    eexists. split; [reflexivity|]. split; [exact Ha|]. split; [exact Hh|].
    unfold s3Digest. rewrite compareWithPrevious_NewHash. cbn [NewHash newResult].
    apply combinedHash_concat. }
  destruct (Hl pgs1) as (l1 & Hl1 & Ha1 & Hh1 & Hn1).
  destruct (Hl pgs2) as (l2 & Hl2 & Ha2 & Hh2 & Hn2).
  assert (Hfiles : s3Files (List.concat pgs1) ≡ₚ s3Files (List.concat pgs2))
    by now apply filter_Permutation_bool.
  assert (Hmaps : fileHashes l1 = fileHashes l2).
  { rewrite Hh1, Hh2. apply list_to_map_rev_order_invariant.
    - now rewrite List.map_map.
    - now apply Permutation_map. }
  exists l1, l2. repeat split; auto.
  rewrite Hn1, Hn2, Hmaps, Ha1, Ha2.
  rewrite (sort_Strings_order_invariant _ (List.map s3Key (s3Files (List.concat pgs2))));
    [reflexivity | now apply Permutation_map].
Qed.

Lemma pvcVisit_hash acc relPath size modTime md5 :
  pvcHashes (pvcVisit acc relPath size modTime md5)
  = <[relPath := pvcFileHash size modTime md5]> (pvcHashes acc).
Proof. reflexivity. Qed.

(** What a walk without errors leaves in the names and in the hashes. *)
Lemma pvcWalk_files (entries : list walkEntry) (acc : pvcListing) :
  List.forallb (fun e => negb (walkFails e)) entries = true ->
  exists l,
    pvcWalk entries acc = Ok l
    /\ pvcFiles l = (pvcFiles acc ++ List.map fst (walkFiles entries))%list
    /\ pvcHashes l = list_to_map (List.rev (walkFiles entries)) ∪ pvcHashes acc.
Proof.
  revert acc. induction entries as [|e entries IH]; intros acc Hok.
  - exists acc. cbn. rewrite app_nil_r, (left_id_L ∅ (∪)). auto.
  - cbn in Hok. apply andb_true_iff in Hok as [He Hok].
    destruct e as [msg| |relPath size modTime md5]; cbn in He; [discriminate| |].
    + cbn. now apply IH.
    + cbn [pvcWalk walkFiles].
      destruct (IH (pvcVisit acc relPath size modTime md5) Hok) as (l & Hl & Hf & Hh).
      exists l. split; [exact Hl|]. split.
      * rewrite Hf. cbn. now rewrite <- app_assoc.
      * rewrite Hh, pvcVisit_hash. cbn [List.rev]. rewrite list_to_map_app.
        cbn [list_to_map foldr]. rewrite insert_empty, <- (assoc_L (∪)).
        now rewrite <- insert_union_singleton_l.
Qed.

(** An error handed to the walk function fails the walk. *)
Lemma pvcWalk_error (entries : list walkEntry) (acc : pvcListing) :
  List.forallb (fun e => negb (walkFails e)) entries = false ->
  is_Err (pvcWalk entries acc) = true.
Proof.
  revert acc. induction entries as [|e entries IH]; intros acc Hbad; [discriminate|].
  destruct e; cbn in *; auto.
Qed.

Lemma walkFiles_Permutation (entries1 entries2 : list walkEntry) :
  entries1 ≡ₚ entries2 -> walkFiles entries1 ≡ₚ walkFiles entries2.
Proof.
  induction 1 as [|x l1 l2 _ IH|x y l|l1 l2 l3 _ IH1 _ IH2].
  - reflexivity.
  - destruct x; cbn; [assumption | assumption | now constructor].
  - destruct x, y; cbn; try reflexivity. apply perm_swap.
  - now transitivity (walkFiles l2).
Qed.

Lemma forallb_Permutation {A} (p : A -> bool) (l1 l2 : list A) :
  l1 ≡ₚ l2 -> List.forallb p l1 = List.forallb p l2.
Proof.
  induction 1 as [|x l1 l2 _ IH|x y l|l1 l2 l3 _ IH1 _ IH2]; cbn.
  - reflexivity.
  - now rewrite IH.
  - destruct (p x), (p y); reflexivity.
  - congruence.
Qed.

(** Two walks over the same files, in any order: the same digest. *)
Lemma pvcDigest_order_invariant (ds : DocumentSet) (entries1 entries2 : list walkEntry) :
  entries1 ≡ₚ entries2 ->
  List.forallb (fun e => negb (walkFails e)) entries1 = true ->
  NoDup (List.map fst (walkFiles entries1)) ->
  exists l1 l2,
    pvcWalk entries1 pvcEmpty = Ok l1
    /\ pvcWalk entries2 pvcEmpty = Ok l2
    /\ pvcHashes l1 = pvcHashes l2
    /\ NewHash (pvcDigest ds l1) = NewHash (pvcDigest ds l2).
Proof.
  intros Hperm Hok Hnd.
  destruct (pvcWalk_files entries1 pvcEmpty Hok) as (l1 & Hl1 & Hf1 & Hh1).
  destruct (pvcWalk_files entries2 pvcEmpty) as (l2 & Hl2 & Hf2 & Hh2).
  { now rewrite <- (forallb_Permutation _ entries1 entries2). }
  cbn [pvcFiles pvcHashes pvcEmpty] in *.
  rewrite (right_id_L ∅ (∪)) in Hh1, Hh2. cbn [app] in Hf1, Hf2.
  pose proof (walkFiles_Permutation _ _ Hperm) as Hwf.
  assert (Hmaps : pvcHashes l1 = pvcHashes l2).
  { rewrite Hh1, Hh2. now apply list_to_map_rev_order_invariant. }
  exists l1, l2. repeat split; auto.
  unfold pvcDigest. rewrite !compareWithPrevious_NewHash. cbn [NewHash newResult].
  rewrite Hmaps, Hf1, Hf2. apply combinedHash_order_invariant.
  now apply Permutation_map.
Qed.

(** ** C9: terminal tasks and the retry bound *)

Lemma embedStep_refl job : embedStep job job.
Proof. split; auto. Qed.

Lemma embedStep_after (cs : list call) (r : run EmbeddingJob) job :
  embedStep job (stored r) -> embedStep job (stored (after cs r)).
Proof. auto. Qed.

Lemma embed_statusUpdateThen_step c job st res :
  EJRetryCount st = EJRetryCount (EJStatus job) ->
  embedStep job (stored (EmbeddingJobReconciler.statusUpdateThen c job st res)).
Proof.
  intros H. unfold EmbeddingJobReconciler.statusUpdateThen.
  destruct (statusUpdate c); [|apply embedStep_refl].
  split; cbn; auto.
Qed.

Lemma embed_initializeStatus_step c job :
  embedStep job (stored (EmbeddingJobReconciler.initializeStatus c job)).
Proof. now apply embed_statusUpdateThen_step. Qed.

Lemma embed_updateStatusFailed_step c job msg :
  embedStep job (stored (EmbeddingJobReconciler.updateStatusFailed c job msg)).
Proof. now apply embed_statusUpdateThen_step. Qed.

Lemma embed_updateStatusSucceeded_step c job :
  embedStep job (stored (EmbeddingJobReconciler.updateStatusSucceeded c job)).
Proof. now apply embed_statusUpdateThen_step. Qed.

Lemma embed_handlePendingPhase_step c job :
  embedStep job (stored (EmbeddingJobReconciler.handlePendingPhase c job)).
Proof.
  unfold EmbeddingJobReconciler.handlePendingPhase.
  destruct (getDocumentSet c _ _); [|apply embed_updateStatusFailed_step].
  destruct (SetControllerReference c); [|apply embedStep_refl].
  destruct (createJob c _ _); apply embedStep_after;
    solve [now apply embed_statusUpdateThen_step | apply embed_updateStatusFailed_step].
Qed.

Lemma embed_handleRunningPhase_step c job :
  embedStep job (stored (EmbeddingJobReconciler.handleRunningPhase c job)).
Proof.
  unfold EmbeddingJobReconciler.handleRunningPhase.
  destruct (getJob c _ _) as [k| |e];
    [|apply embed_initializeStatus_step | apply embedStep_refl].
  destruct (0 <? Succeeded k); [apply embed_updateStatusSucceeded_step|].
  destruct (0 <? Failed k); [|now apply embed_statusUpdateThen_step].
  fold (effectiveMaxRetries (EJRetryPolicy (EJSpec job))).
  destruct (EJRetryCount (EJStatus job) <? effectiveMaxRetries (EJRetryPolicy (EJSpec job)))
    eqn:Hlt; [|apply embed_updateStatusFailed_step].
  apply Z.ltb_lt in Hlt.
  destruct (statusUpdate c); [|apply embedStep_refl].
  destruct (deleteJob c _ _); split; cbn; auto.
Qed.

Lemma embed_Reconcile_step (c : Cluster) (job : EmbeddingJob) :
  embedStep job (stored (EmbeddingJobReconciler.Reconcile c job)).
Proof.
  unfold EmbeddingJobReconciler.Reconcile, EmbeddingJobReconciler.handleDeletion.
  destruct (getSelf c); try apply embedStep_refl.
  destruct (negb (metav1_IsZero (DeletionTimestamp (EJMeta job)))).
  { destruct (update c); [|apply embedStep_refl]. split; cbn; auto. }
  destruct (negb (ContainsFinalizer _ _)).
  { destruct (update c); [|apply embedStep_refl]. split; cbn; auto. }
  cbv zeta.
  destruct (String.eqb _ ""); [apply embed_initializeStatus_step|].
  destruct (String.eqb _ EmbeddingJobPhasePending); [apply embed_handlePendingPhase_step|].
  destruct (String.eqb _ EmbeddingJobPhaseRunning); [apply embed_handleRunningPhase_step|].
  destruct (_ || _); [apply embedStep_refl | apply embed_initializeStatus_step].
Qed.

Lemma indexStep_refl job : indexStep job job.
Proof. split; auto. Qed.

Lemma index_statusUpdateThen_step c job st res :
  IJRetryCount st = IJRetryCount (IJStatus job) ->
  indexStep job (stored (IndexJobReconciler.statusUpdateThen c job st res)).
Proof.
  intros H. unfold IndexJobReconciler.statusUpdateThen.
  destruct (statusUpdate c); [|apply indexStep_refl].
  split; cbn; auto.
Qed.

Lemma index_initializeStatus_step c job :
  indexStep job (stored (IndexJobReconciler.initializeStatus c job)).
Proof. now apply index_statusUpdateThen_step. Qed.

Lemma index_updateStatusFailed_step c job msg :
  indexStep job (stored (IndexJobReconciler.updateStatusFailed c job msg)).
Proof. now apply index_statusUpdateThen_step. Qed.

Lemma index_handleJobSucceeded_step c job :
  indexStep job (stored (IndexJobReconciler.handleJobSucceeded c job)).
Proof. now apply index_statusUpdateThen_step. Qed.

Lemma index_handlePendingPhase_step c job :
  indexStep job (stored (IndexJobReconciler.handlePendingPhase c job)).
Proof.
  unfold IndexJobReconciler.handlePendingPhase.
  destruct (getDocumentSet c _ _); [|apply index_updateStatusFailed_step].
  destruct (SetControllerReference c); [|apply indexStep_refl].
  destruct (createJob c _ _); unfold after; cbn [stored];
    solve [now apply index_statusUpdateThen_step | apply index_updateStatusFailed_step].
Qed.

Lemma index_handleBuildingPhase_step c job :
  indexStep job (stored (IndexJobReconciler.handleBuildingPhase c job)).
Proof.
  unfold IndexJobReconciler.handleBuildingPhase.
  destruct (getJob c _ _) as [k| |e];
    [|apply index_initializeStatus_step | apply indexStep_refl].
  destruct (0 <? Succeeded k); [apply index_handleJobSucceeded_step|].
  destruct (0 <? Failed k); [|now apply index_statusUpdateThen_step].
  fold (effectiveMaxRetries (IJRetryPolicy (IJSpec job))).
  destruct (IJRetryCount (IJStatus job) <? effectiveMaxRetries (IJRetryPolicy (IJSpec job)))
    eqn:Hlt; [|apply index_updateStatusFailed_step].
  apply Z.ltb_lt in Hlt.
  destruct (statusUpdate c); [|apply indexStep_refl].
  destruct (deleteJob c _ _); split; cbn; auto.
Qed.

Lemma index_Reconcile_step (c : Cluster) (job : IndexJob) :
  indexStep job (stored (IndexJobReconciler.Reconcile c job)).
Proof.
  unfold IndexJobReconciler.Reconcile, IndexJobReconciler.handleDeletion,
    IndexJobReconciler.handleOptimizingPhase.
  destruct (getSelf c); try apply indexStep_refl.
  destruct (negb (metav1_IsZero (DeletionTimestamp (IJMeta job)))).
  { destruct (update c); [|apply indexStep_refl]. split; cbn; auto. }
  destruct (negb (ContainsFinalizer _ _)).
  { destruct (update c); [|apply indexStep_refl]. split; cbn; auto. }
  cbv zeta.
  destruct (String.eqb _ ""); [apply index_initializeStatus_step|].
  destruct (String.eqb _ IndexJobPhasePending); [apply index_handlePendingPhase_step|].
  destruct (String.eqb _ IndexJobPhaseBuilding); [apply index_handleBuildingPhase_step|].
  destruct (String.eqb _ IndexJobPhaseOptimizing); [apply index_handleJobSucceeded_step|].
  destruct (_ || _); [apply indexStep_refl | apply index_initializeStatus_step].
Qed.

(** A terminal Embed Task: a reconciliation leaves its status as it is
    and sends no status update. *)
Lemma embed_terminal_untouched (c : Cluster) (job : EmbeddingJob) :
  terminal (EJPhase (EJStatus job)) ->
  let r := EmbeddingJobReconciler.Reconcile c job in
  EJStatus (stored r) = EJStatus job /\ ~ In CallStatusUpdate (calls r).
Proof.
  intros Hterm. cbv zeta.
  unfold EmbeddingJobReconciler.Reconcile, EmbeddingJobReconciler.handleDeletion.
  destruct (getSelf c); try (cbn; tauto).
  destruct (negb (metav1_IsZero (DeletionTimestamp (EJMeta job)))).
  { destruct (update c); cbn; intuition discriminate. }
  destruct (negb (ContainsFinalizer _ _)).
  { destruct (update c); cbn; intuition discriminate. }
  destruct Hterm as [-> | ->]; cbn; tauto.
Qed.

Lemma index_terminal_untouched (c : Cluster) (job : IndexJob) :
  terminal (IJPhase (IJStatus job)) ->
  let r := IndexJobReconciler.Reconcile c job in
  IJStatus (stored r) = IJStatus job /\ ~ In CallStatusUpdate (calls r).
Proof.
  intros Hterm. cbv zeta.
  unfold IndexJobReconciler.Reconcile, IndexJobReconciler.handleDeletion.
  destruct (getSelf c); try (cbn; tauto).
  destruct (negb (metav1_IsZero (DeletionTimestamp (IJMeta job)))).
  { destruct (update c); cbn; intuition discriminate. }
  destruct (negb (ContainsFinalizer _ _)).
  { destruct (update c); cbn; intuition discriminate. }
  destruct Hterm as [-> | ->]; cbn; tauto.
Qed.

(** Along the life of an Embed Task, the edits of its spec leaving the
    bound at or above the retries made, the retry count stays within
    the bound of the spec at hand. *)
Lemma embedReachable_invariant (job0 job : EmbeddingJob) :
  0 <= EJRetryCount (EJStatus job0) <= effectiveMaxRetries (EJRetryPolicy (EJSpec job0)) ->
  embedReachable keepsEmbedBound job0 job ->
  0 <= EJRetryCount (EJStatus job) <= effectiveMaxRetries (EJRetryPolicy (EJSpec job)).
Proof.
  intros H0. induction 1 as [|c job Hreach IH|p job Hreach IH|spec g job Hreach IH Hadm Hg].
  - exact H0.
  - destruct (embed_Reconcile_step c job) as [Hs Hc]. rewrite Hs. lia.
  - exact IH.
  - unfold keepsEmbedBound in Hadm. cbn [embedEdited EJStatus EJSpec]. lia.
Qed.

Lemma indexReachable_invariant (job0 job : IndexJob) :
  0 <= IJRetryCount (IJStatus job0) <= effectiveMaxRetries (IJRetryPolicy (IJSpec job0)) ->
  indexReachable keepsIndexBound job0 job ->
  0 <= IJRetryCount (IJStatus job) <= effectiveMaxRetries (IJRetryPolicy (IJSpec job)).
Proof.
  intros H0. induction 1 as [|c job Hreach IH|p job Hreach IH|spec g job Hreach IH Hadm Hg].
  - exact H0.
  - destruct (index_Reconcile_step c job) as [Hs Hc]. rewrite Hs. lia.
  - exact IH.
  - unfold keepsIndexBound in Hadm. cbn [indexEdited IJStatus IJSpec]. lia.
Qed.

(** C9, as the code has it. For every Embed Task and every Index Task:
    once the phase is Succeeded or Failed, a reconciliation leaves the
    status as it is and sends no status update; a reconciliation, in
    whatever state the task is, keeps the retry count or raises it by
    one, and raises it only when it is below the effective maxRetries
    of the spec at hand (the one of the spec, 3 without a policy); and
    in every state reached from a task created with retry count 0 and a
    bound that is not negative, by reconciliations, progress reports and
    edits of the spec that do not lower the bound below the retries
    already made, the retry count is at most the effective
    maxRetries. *)
Theorem tasks_terminal_and_retry_bound :
  (forall (c : Cluster) (job : EmbeddingJob),
      terminal (EJPhase (EJStatus job)) ->
      EJStatus (stored (EmbeddingJobReconciler.Reconcile c job)) = EJStatus job
      /\ ~ In CallStatusUpdate (calls (EmbeddingJobReconciler.Reconcile c job)))
  /\ (forall (c : Cluster) (job : IndexJob),
         terminal (IJPhase (IJStatus job)) ->
         IJStatus (stored (IndexJobReconciler.Reconcile c job)) = IJStatus job
         /\ ~ In CallStatusUpdate (calls (IndexJobReconciler.Reconcile c job)))
  /\ (forall (c : Cluster) (job : EmbeddingJob),
         let job' := stored (EmbeddingJobReconciler.Reconcile c job) in
         EJRetryCount (EJStatus job') = EJRetryCount (EJStatus job)
         \/ (EJRetryCount (EJStatus job') = EJRetryCount (EJStatus job) + 1
             /\ EJRetryCount (EJStatus job) < effectiveMaxRetries (EJRetryPolicy (EJSpec job))))
  /\ (forall (c : Cluster) (job : IndexJob),
         let job' := stored (IndexJobReconciler.Reconcile c job) in
         IJRetryCount (IJStatus job') = IJRetryCount (IJStatus job)
         \/ (IJRetryCount (IJStatus job') = IJRetryCount (IJStatus job) + 1
             /\ IJRetryCount (IJStatus job) < effectiveMaxRetries (IJRetryPolicy (IJSpec job))))
  /\ (forall job0 job : EmbeddingJob,
         EJRetryCount (EJStatus job0) = 0 ->
         0 <= effectiveMaxRetries (EJRetryPolicy (EJSpec job0)) ->
         embedReachable keepsEmbedBound job0 job ->
         EJRetryCount (EJStatus job) <= effectiveMaxRetries (EJRetryPolicy (EJSpec job)))
  /\ (forall job0 job : IndexJob,
         IJRetryCount (IJStatus job0) = 0 ->
         0 <= effectiveMaxRetries (IJRetryPolicy (IJSpec job0)) ->
         indexReachable keepsIndexBound job0 job ->
         IJRetryCount (IJStatus job) <= effectiveMaxRetries (IJRetryPolicy (IJSpec job))).
Proof.
  split; [exact embed_terminal_untouched|].
  split; [exact index_terminal_untouched|].
  split; [intros c job; exact (proj2 (embed_Reconcile_step c job))|].
  split; [intros c job; exact (proj2 (index_Reconcile_step c job))|].
  split.
  - intros job0 job H0 Hmax Hreach.
    apply (embedReachable_invariant job0 job) in Hreach; [lia | lia].
  - intros job0 job H0 Hmax Hreach.
    apply (indexReachable_invariant job0 job) in Hreach; [lia | lia].
Qed.

(** A run of the two reconcilers on a failing workload, retry policy
    (3, 30 s): from a task that has not retried, one reconciliation
    gives retry count 1, and an edit of the policy to five retries keeps
    the count within the bound; a task that has retried three times
    becomes Failed and is then left alone. *)
Lemma tasks_terminal_and_retry_bound_witness :
  let c := healthyCluster (Found failedOnce) in
  let five := Some {| MaxRetries := 5; BackoffSeconds := 30 |} in
  let e0 := runningEmbedTask (Some defaultPolicy) 0 in
  let e1 := stored (EmbeddingJobReconciler.Reconcile c e0) in
  let e2 := embedEdited e1 {| EJDocumentSet := "docs"; EJRetryPolicy := five |} 2 in
  let eF := stored (EmbeddingJobReconciler.Reconcile c (runningEmbedTask (Some defaultPolicy) 3)) in
  let i0 := buildingIndexTask (Some defaultPolicy) 0 in
  let i1 := stored (IndexJobReconciler.Reconcile c i0) in
  let i2 := indexEdited i1 {| IJDocumentSet := "docs"; IJCollection := "docs_20250115100000";
                              TargetAlias := "docs_prod"; IJRetryPolicy := five |} 2 in
  let iF := stored (IndexJobReconciler.Reconcile c (buildingIndexTask (Some defaultPolicy) 3)) in
  (terminal (EJPhase (EJStatus eF))
   /\ EJStatus (stored (EmbeddingJobReconciler.Reconcile c eF)) = EJStatus eF)
  /\ (terminal (IJPhase (IJStatus iF))
      /\ IJStatus (stored (IndexJobReconciler.Reconcile c iF)) = IJStatus iF)
  /\ (EJRetryCount (EJStatus e0) = 0
      /\ 0 <= effectiveMaxRetries (EJRetryPolicy (EJSpec e0))
      /\ embedReachable keepsEmbedBound e0 e2
      /\ EJRetryCount (EJStatus e2) = 1
      /\ EJRetryCount (EJStatus e2) <= effectiveMaxRetries (EJRetryPolicy (EJSpec e2)))
  /\ (IJRetryCount (IJStatus i0) = 0
      /\ 0 <= effectiveMaxRetries (IJRetryPolicy (IJSpec i0))
      /\ indexReachable keepsIndexBound i0 i2
      /\ IJRetryCount (IJStatus i2) = 1
      /\ IJRetryCount (IJStatus i2) <= effectiveMaxRetries (IJRetryPolicy (IJSpec i2))).
Proof.
  intros c five e0 e1 e2 eF i0 i1 i2 iF.
  destruct tasks_terminal_and_retry_bound as (HtE & HtI & _ & _ & HbE & HbI).
  assert (HeF : terminal (EJPhase (EJStatus eF))) by (right; vm_compute; reflexivity).
  assert (HiF : terminal (IJPhase (IJStatus iF))) by (right; vm_compute; reflexivity).
  assert (He0 : EJRetryCount (EJStatus e0) = 0) by reflexivity.
  assert (Hi0 : IJRetryCount (IJStatus i0) = 0) by reflexivity.
  assert (HmE : 0 <= effectiveMaxRetries (EJRetryPolicy (EJSpec e0))) by (vm_compute; discriminate).
  assert (HmI : 0 <= effectiveMaxRetries (IJRetryPolicy (IJSpec i0))) by (vm_compute; discriminate).
  assert (HrE : embedReachable keepsEmbedBound e0 e2).
  { apply embed_edited; [apply embed_reconciled, embed_created | |];
      vm_compute; discriminate. }
  assert (HrI : indexReachable keepsIndexBound i0 i2).
  { apply index_edited; [apply index_reconciled, index_created | |];
      vm_compute; discriminate. }
  split; [split; [exact HeF | exact (proj1 (HtE c eF HeF))]|].
  split; [split; [exact HiF | exact (proj1 (HtI c iF HiF))]|].
  split.
  - split; [exact He0|]. split; [exact HmE|]. split; [exact HrE|].
    split; [vm_compute; reflexivity | exact (HbE e0 e2 He0 HmE HrE)].
  - split; [exact Hi0|]. split; [exact HmI|]. split; [exact HrI|].
    split; [vm_compute; reflexivity | exact (HbI i0 i2 Hi0 HmI HrI)].
Defined.

(** The retry count is not at most the effective maxRetries in every
    state a task reaches. An Embed Task and an Index Task created with
    the policy (3, 30 s) and no retry made, three reconciliations
    against a failing workload (retry, creation of the workload again,
    retry), then an edit of the policy to one retry, which the API
    server accepts: the task the reconciler receives next has made two
    retries under a bound of one. *)
Lemma retry_bound_broken_by_edit :
  let c := healthyCluster (Found failedOnce) in
  let one := Some {| MaxRetries := 1; BackoffSeconds := 30 |} in
  let e0 := runningEmbedTask (Some defaultPolicy) 0 in
  let e3 := embedAfter [c; c; c] e0 in
  let e4 := embedEdited e3 {| EJDocumentSet := "docs"; EJRetryPolicy := one |} 2 in
  let i0 := buildingIndexTask (Some defaultPolicy) 0 in
  let i3 := indexAfter [c; c; c] i0 in
  let i4 := indexEdited i3 {| IJDocumentSet := "docs"; IJCollection := "docs_20250115100000";
                              TargetAlias := "docs_prod"; IJRetryPolicy := one |} 2 in
  (EJRetryCount (EJStatus e0) = 0
   /\ 0 <= effectiveMaxRetries (EJRetryPolicy (EJSpec e0))
   /\ embedReachable anyEdit e0 e4
   /\ EJRetryCount (EJStatus e4) = 2
   /\ effectiveMaxRetries (EJRetryPolicy (EJSpec e4)) = 1
   /\ ~ EJRetryCount (EJStatus e4) <= effectiveMaxRetries (EJRetryPolicy (EJSpec e4)))
  /\ (IJRetryCount (IJStatus i0) = 0
      /\ 0 <= effectiveMaxRetries (IJRetryPolicy (IJSpec i0))
      /\ indexReachable anyEdit i0 i4
      /\ IJRetryCount (IJStatus i4) = 2
      /\ effectiveMaxRetries (IJRetryPolicy (IJSpec i4)) = 1
      /\ ~ IJRetryCount (IJStatus i4) <= effectiveMaxRetries (IJRetryPolicy (IJSpec i4)))
  /\ ~ (forall job0 job : EmbeddingJob,
           EJRetryCount (EJStatus job0) = 0 ->
           0 <= effectiveMaxRetries (EJRetryPolicy (EJSpec job0)) ->
           embedReachable anyEdit job0 job ->
           EJRetryCount (EJStatus job) <= effectiveMaxRetries (EJRetryPolicy (EJSpec job))).
Proof.
  intros c one e0 e3 e4 i0 i3 i4.
  assert (HrE : embedReachable anyEdit e0 e4).
  { apply embed_edited; [do 3 apply embed_reconciled; apply embed_created | exact I |].
    vm_compute. discriminate. }
  assert (HrI : indexReachable anyEdit i0 i4).
  { apply index_edited; [do 3 apply index_reconciled; apply index_created | exact I |].
    vm_compute. discriminate. }
  assert (HcE : EJRetryCount (EJStatus e4) = 2) by (vm_compute; reflexivity).
  assert (HcI : IJRetryCount (IJStatus i4) = 2) by (vm_compute; reflexivity).
  split; [|split].
  - split; [reflexivity|]. split; [vm_compute; discriminate|]. split; [exact HrE|].
    split; [exact HcE|]. split; [reflexivity|]. rewrite HcE. vm_compute. auto.
  - split; [reflexivity|]. split; [vm_compute; discriminate|]. split; [exact HrI|].
    split; [exact HcI|]. split; [reflexivity|]. rewrite HcI. vm_compute. auto.
  - intros Hall.
    assert (H : EJRetryCount (EJStatus e4) <= effectiveMaxRetries (EJRetryPolicy (EJSpec e4)))
      by (apply (Hall e0 e4); [reflexivity | vm_compute; discriminate | exact HrE]).
    rewrite HcE in H. vm_compute in H. auto.
Qed.

(** Scenario S5 of the specification: two failures then a success, retry
    policy (3, 5 s). The retry count reaches 2, two deletions are sent,
    and the task ends Succeeded. *)
Example embed_task_retries_S5 :
  let policy := Some {| MaxRetries := 3; BackoffSeconds := 5 |} in
  let failing := healthyCluster (Found failedOnce) in
  let succeeding := healthyCluster (Found {| Succeeded := 1; Failed := 0; Active := 0 |}) in
  let r1 := EmbeddingJobReconciler.Reconcile failing (runningEmbedTask policy 0) in
  let r2 := EmbeddingJobReconciler.Reconcile failing (stored r1) in
  let r3 := EmbeddingJobReconciler.Reconcile failing (stored r2) in
  let r4 := EmbeddingJobReconciler.Reconcile failing (stored r3) in
  let r5 := EmbeddingJobReconciler.Reconcile succeeding (stored r4) in
  let r6 := EmbeddingJobReconciler.Reconcile succeeding (stored r5) in
  outcome r1 = Return (requeueIn (5 * GoTime.Second))
  /\ EJPhase (EJStatus (stored r1)) = "Pending"
  /\ EJPhase (EJStatus (stored r2)) = "Running"
  /\ EJRetryCount (EJStatus (stored r3)) = 2
  /\ EJPhase (EJStatus (stored r4)) = "Running"
  /\ EJPhase (EJStatus (stored r5)) = "Succeeded"
  /\ EJRetryCount (EJStatus (stored r5)) = 2
  /\ List.filter (fun x => match x with CallDeleteJob _ _ => true | _ => false end)
       (calls r1 ++ calls r2 ++ calls r3 ++ calls r4 ++ calls r5)%list
     = [CallDeleteJob "default" "docs-embedding-1-job";
        CallDeleteJob "default" "docs-embedding-1-job"]
  /\ calls r6 = [].
Proof. vm_compute. repeat split; reflexivity. Qed.

(** ** C4: the check of an HTTP source *)





(** A request that cannot be created or is not answered fails the
    check. *)
Lemma checkHTTPSource_transport_error (w : World) (ds : DocumentSet)
    (secretData : option (gmap string string)) :
  let uri := URI (Source (DSSpec ds)) in
  is_Err (httpNewRequest w "HEAD" uri) = true
  \/ is_Err (httpDo w httpClient (httpRequestFor uri secretData)) = true ->
  is_Err (checkHTTPSource w ds secretData) = true.
Proof.
  cbv zeta. unfold checkHTTPSource. intros [H | H].
  - destruct (httpNewRequest w "HEAD" _); [discriminate | reflexivity].
  - destruct (httpNewRequest w "HEAD" _); [|reflexivity].
    destruct (httpDo w httpClient _); [discriminate | reflexivity].
Qed.



(** ** C10: a PVC source that is not mounted *)

Lemma HasPrefix_append (p s : string) : GoStrings.HasPrefix (p ++ s) p = true.
Proof.
  induction p as [|c p IH]; [destruct s; reflexivity|].
  rewrite append_cons. cbn. now rewrite Ascii.eqb_refl.
Qed.

Lemma TrimPrefix_append (p s : string) : GoStrings.TrimPrefix (p ++ s) p = s.
Proof.
  unfold GoStrings.TrimPrefix. rewrite HasPrefix_append.
  apply (slice_from_append p s).
Qed.

Lemma SplitN2_first (sep : ascii) (a b : string) :
  absent sep a -> GoStrings.SplitN2 (a ++ String sep b) sep = [a; b].
Proof.
  intros Habs. unfold GoStrings.SplitN2. rewrite IndexByte_first by assumption.
  unfold GoStrings.slice_to. rewrite substring_prefix. f_equal. f_equal.
  change (String sep b) with (String sep "" ++ b).
  rewrite <- append_assoc.
  replace (S (String.length a)) with (String.length (a ++ String sep ""))
    by (rewrite length_append; cbn; lia).
  apply slice_from_append.
Qed.

Lemma SplitN2_none (sep : ascii) (a : string) :
  absent sep a -> GoStrings.SplitN2 a sep = [a].
Proof. intros Habs. unfold GoStrings.SplitN2. now rewrite IndexByte_absent. Qed.

(** [pvc://name/sub/path] names the volume [name] and the sub-path
    [sub/path]; [pvc://name] names the volume and no sub-path. *)
Lemma parsePVCURI_subPath (name sub : string) :
  absent "/"%char name ->
  parsePVCURI ("pvc://" ++ name ++ String "/"%char sub) = (name, sub).
Proof.
  intros Habs. unfold parsePVCURI.
  rewrite TrimPrefix_append, SplitN2_first by assumption. reflexivity.
Qed.

Lemma parsePVCURI_volume (name : string) :
  absent "/"%char name -> parsePVCURI ("pvc://" ++ name) = (name, "").
Proof.
  intros Habs. unfold parsePVCURI.
  rewrite TrimPrefix_append, SplitN2_none by assumption. reflexivity.
Qed.




(** * Further properties of the controllers *)

(** ** The task reconcilers *)

(** X1. A failed workload of an Embed Task that has a retry policy, the
    status update succeeding: below the bound the retry count goes up by
    one, the workload is deleted, the task is Pending again and requeued
    after the backoff of the policy; at the bound the task is marked
    Failed with the time of completion, nothing is deleted and nothing is
    requeued. The task becomes Failed exactly when the bound is reached. *)
Theorem embed_failure_is_retried_or_final (c : Cluster) (job : EmbeddingJob)
    (p : RetryPolicy) (k : JobStatus) :
  let ns := Namespace (EJMeta job) in
  let r := EmbeddingJobReconciler.handleRunningPhase c job in
  let s' := EJStatus (stored r) in
  EJRetryPolicy (EJSpec job) = Some p ->
  getJob c ns (embedJobName job) = Found k ->
  Succeeded k <= 0 -> 0 < Failed k ->
  statusUpdate c = Ok tt ->
  deleteFailed (deleteJob c ns (embedJobName job)) = false ->
  (EJRetryCount (EJStatus job) < MaxRetries p ->
   EJRetryCount s' = EJRetryCount (EJStatus job) + 1
   /\ EJPhase s' = EmbeddingJobPhasePending
   /\ calls r = [CallStatusUpdate; CallDeleteJob ns (embedJobName job)]
   /\ outcome r = Return (requeueIn (seconds (BackoffSeconds p))))
  /\ (MaxRetries p <= EJRetryCount (EJStatus job) ->
      EJRetryCount s' = EJRetryCount (EJStatus job)
      /\ EJPhase s' = EmbeddingJobPhaseFailed
      /\ EJMessage s' = "Job failed after maximum retries"
      /\ EJCompletionTime s' = Some (clock c)
      /\ calls r = [CallStatusUpdate]
      /\ outcome r = Return noRequeue)
  /\ (EJPhase s' = EmbeddingJobPhaseFailed <-> MaxRetries p <= EJRetryCount (EJStatus job)).
Proof.
  intros ns r s' Hp Hget Hs Hf Hupd Hdel.
  assert (Hretry : EJRetryCount (EJStatus job) < MaxRetries p ->
            EJRetryCount s' = EJRetryCount (EJStatus job) + 1
            /\ EJPhase s' = EmbeddingJobPhasePending
            /\ calls r = [CallStatusUpdate; CallDeleteJob ns (embedJobName job)]
            /\ outcome r = Return (requeueIn (seconds (BackoffSeconds p)))).
  { intros Hlt. subst r s'.
    now apply (handleRunningPhase_retries c job p k). }
  assert (Hfinal : MaxRetries p <= EJRetryCount (EJStatus job) ->
            EJRetryCount s' = EJRetryCount (EJStatus job)
            /\ EJPhase s' = EmbeddingJobPhaseFailed
            /\ EJMessage s' = "Job failed after maximum retries"
            /\ EJCompletionTime s' = Some (clock c)
            /\ calls r = [CallStatusUpdate]
            /\ outcome r = Return noRequeue).
  { intros Hge. subst r s'. unfold EmbeddingJobReconciler.handleRunningPhase.
    fold (embedJobName job). fold ns. rewrite Hget.
    destruct (0 <? Succeeded k) eqn:E1; [apply Z.ltb_lt in E1; lia|].
    destruct (0 <? Failed k) eqn:E2; [|apply Z.ltb_ge in E2; lia].
    rewrite Hp.
    destruct (EJRetryCount (EJStatus job) <? MaxRetries p) eqn:E3;
      [apply Z.ltb_lt in E3; lia|].
    unfold EmbeddingJobReconciler.updateStatusFailed,
      EmbeddingJobReconciler.statusUpdateThen.
    rewrite Hupd. cbn. auto 10. }
  split; [exact Hretry|]. split; [exact Hfinal|].
  split.
  - intros Hfailed.
    destruct (Z.lt_ge_cases (EJRetryCount (EJStatus job)) (MaxRetries p)) as [Hlt|Hge];
      [|exact Hge].
    destruct (Hretry Hlt) as (_ & Hphase & _). rewrite Hphase in Hfailed. discriminate.
  - intros Hge. now destruct (Hfinal Hge) as (_ & Hphase & _).
Qed.

(** Scenario: policy (3, 5 s), first failure and fourth failure. *)
Lemma embed_failure_is_retried_or_final_witness :
  let p := {| MaxRetries := 3; BackoffSeconds := 5 |} in
  let c := healthyCluster (Found failedOnce) in
  (EJRetryCount (EJStatus (stored (EmbeddingJobReconciler.handleRunningPhase c
                                     (runningEmbedTask (Some p) 0)))) = 1
   /\ outcome (EmbeddingJobReconciler.handleRunningPhase c (runningEmbedTask (Some p) 0))
      = Return (requeueIn (seconds 5)))
  /\ EJPhase (EJStatus (stored (EmbeddingJobReconciler.handleRunningPhase c
                                  (runningEmbedTask (Some p) 3))))
     = EmbeddingJobPhaseFailed.
Proof.
  intros p c.
  pose proof (embed_failure_is_retried_or_final c (runningEmbedTask (Some p) 0) p failedOnce
                eq_refl eq_refl) as H0.
  pose proof (embed_failure_is_retried_or_final c (runningEmbedTask (Some p) 3) p failedOnce
                eq_refl eq_refl) as H3.
  cbv zeta in H0, H3.
  destruct H0 as (Hretry & _); try reflexivity; try (vm_compute; discriminate).
  destruct H3 as (_ & Hfinal & _); try reflexivity; try (vm_compute; discriminate).
  destruct Hretry as (Hc & _ & _ & Ho); [vm_compute; reflexivity|].
  destruct Hfinal as (_ & Hph & _); [vm_compute; discriminate|].
  split; [split|]; assumption.
Defined.

(** X2. A failed workload of an Index Task, with or without a retry
    policy (3 retries and 30 seconds without one), the status update
    succeeding: below the bound the retry count goes up by one, the
    workload is deleted, the task is Pending again and requeued after the
    backoff; at the bound the task is marked Failed and nothing is
    deleted. *)
Theorem index_failure_is_retried_or_final (c : Cluster) (job : IndexJob) (k : JobStatus) :
  let ns := Namespace (IJMeta job) in
  let policy := IJRetryPolicy (IJSpec job) in
  let r := IndexJobReconciler.handleBuildingPhase c job in
  let s' := IJStatus (stored r) in
  getJob c ns (indexJobName job) = Found k ->
  Succeeded k <= 0 -> 0 < Failed k ->
  statusUpdate c = Ok tt ->
  deleteFailed (deleteJob c ns (indexJobName job)) = false ->
  (IJRetryCount (IJStatus job) < effectiveMaxRetries policy ->
   IJRetryCount s' = IJRetryCount (IJStatus job) + 1
   /\ IJPhase s' = IndexJobPhasePending
   /\ calls r = [CallStatusUpdate; CallDeleteJob ns (indexJobName job)]
   /\ outcome r = Return (requeueIn (seconds (effectiveBackoff policy))))
  /\ (effectiveMaxRetries policy <= IJRetryCount (IJStatus job) ->
      IJRetryCount s' = IJRetryCount (IJStatus job)
      /\ IJPhase s' = IndexJobPhaseFailed
      /\ IJMessage s' = "Job failed after maximum retries"
      /\ calls r = [CallStatusUpdate]
      /\ outcome r = Return noRequeue).
Proof.
  intros ns policy r s' Hget Hs Hf Hupd Hdel. subst r s'.
  unfold IndexJobReconciler.handleBuildingPhase.
  fold (indexJobName job). fold ns. rewrite Hget.
  destruct (0 <? Succeeded k) eqn:E1; [apply Z.ltb_lt in E1; lia|].
  destruct (0 <? Failed k) eqn:E2; [|apply Z.ltb_ge in E2; lia].
  fold policy. fold (effectiveMaxRetries policy). fold (effectiveBackoff policy).
  destruct (IJRetryCount (IJStatus job) <? effectiveMaxRetries policy) eqn:E3.
  - apply Z.ltb_lt in E3. split; [|intros; lia]. intros _.
    rewrite Hupd. destruct (deleteJob c ns (indexJobName job)); cbn in Hdel;
      try discriminate; cbn; auto.
  - apply Z.ltb_ge in E3. split; [intros; lia|]. intros _.
    unfold IndexJobReconciler.updateStatusFailed, IndexJobReconciler.statusUpdateThen.
    rewrite Hupd. cbn. auto 10.
Qed.

(** An Index Task without retry policy at its first failure, and one
    with policy (1, 7 s) at its second. *)
Lemma index_failure_is_retried_or_final_witness :
  let c := healthyCluster (Found failedOnce) in
  outcome (IndexJobReconciler.handleBuildingPhase c (buildingIndexTask None 0))
  = Return (requeueIn (seconds 30))
  /\ IJPhase (IJStatus (stored (IndexJobReconciler.handleBuildingPhase c
        (buildingIndexTask (Some {| MaxRetries := 1; BackoffSeconds := 7 |}) 1))))
     = IndexJobPhaseFailed.
Proof.
  intros c.
  pose proof (index_failure_is_retried_or_final c (buildingIndexTask None 0) failedOnce
                eq_refl) as H0.
  pose proof (index_failure_is_retried_or_final c
                (buildingIndexTask (Some {| MaxRetries := 1; BackoffSeconds := 7 |}) 1)
                failedOnce eq_refl) as H1.
  cbv zeta in H0, H1.
  destruct H0 as (Hretry & _); try reflexivity; try (vm_compute; discriminate).
  destruct H1 as (_ & Hfinal); try reflexivity; try (vm_compute; discriminate).
  destruct Hretry as (_ & _ & _ & Ho); [vm_compute; reflexivity|].
  destruct Hfinal as (_ & Hph & _); [vm_compute; discriminate|].
  split; assumption.
Defined.

Lemma embed_statusUpdateThen_outcome c job st res :
  outcome (EmbeddingJobReconciler.statusUpdateThen c job st res) <> Panic.
Proof.
  unfold EmbeddingJobReconciler.statusUpdateThen. destruct (statusUpdate c); discriminate.
Qed.

Lemma embed_handlePendingPhase_outcome c job :
  outcome (EmbeddingJobReconciler.handlePendingPhase c job) <> Panic.
Proof.
  unfold EmbeddingJobReconciler.handlePendingPhase, EmbeddingJobReconciler.updateStatusFailed.
  destruct (getDocumentSet c _ _); [|apply embed_statusUpdateThen_outcome].
  destruct (SetControllerReference c); [|discriminate].
  destruct (createJob c _ _); unfold after; cbn [outcome];
    apply embed_statusUpdateThen_outcome.
Qed.

(** X3. A reconciliation of an Embed Task panics only on the retry path
    of a Running task whose spec has no retry policy: the workload has
    failed and has not succeeded, and fewer than three retries were
    made. With a retry policy it never panics. *)
Theorem embed_Reconcile_panics_only_without_policy (c : Cluster) (job : EmbeddingJob) :
  outcome (EmbeddingJobReconciler.Reconcile c job) = Panic ->
  EJRetryPolicy (EJSpec job) = None
  /\ EJPhase (EJStatus job) = EmbeddingJobPhaseRunning
  /\ EJRetryCount (EJStatus job) < 3
  /\ exists k, getJob c (Namespace (EJMeta job)) (embedJobName job) = Found k
               /\ Succeeded k <= 0 /\ 0 < Failed k.
Proof.
  unfold EmbeddingJobReconciler.Reconcile, EmbeddingJobReconciler.handleDeletion.
  destruct (getSelf c); try discriminate.
  destruct (negb (metav1_IsZero (DeletionTimestamp (EJMeta job)))).
  { destruct (update c); discriminate. }
  destruct (negb (ContainsFinalizer _ _)).
  { destruct (update c); discriminate. }
  cbv zeta.
  destruct (String.eqb_spec (EJPhase (EJStatus job)) "") as [|_].
  { intros H. now apply embed_statusUpdateThen_outcome in H. }
  destruct (String.eqb_spec (EJPhase (EJStatus job)) EmbeddingJobPhasePending) as [|_].
  { intros H. now apply embed_handlePendingPhase_outcome in H. }
  destruct (String.eqb_spec (EJPhase (EJStatus job)) EmbeddingJobPhaseRunning) as [Hrun|_].
  2:{ destruct (_ || _); [discriminate|].
      intros H. now apply embed_statusUpdateThen_outcome in H. }
  unfold EmbeddingJobReconciler.handleRunningPhase.
  fold (embedJobName job).
  destruct (getJob c _ _) as [k| |e] eqn:Hget.
  2:{ intros H. now apply embed_statusUpdateThen_outcome in H. }
  2:{ discriminate. }
  destruct (0 <? Succeeded k) eqn:E1.
  { intros H. now apply embed_statusUpdateThen_outcome in H. }
  destruct (0 <? Failed k) eqn:E2.
  2:{ intros H. now apply embed_statusUpdateThen_outcome in H. }
  apply Z.ltb_ge in E1. apply Z.ltb_lt in E2.
  destruct (EJRetryPolicy (EJSpec job)) as [p|].
  - destruct (_ <? _).
    + destruct (statusUpdate c); [|discriminate].
      destruct (deleteJob c _ _); discriminate.
    + intros H. now apply embed_statusUpdateThen_outcome in H.
  - destruct (EJRetryCount (EJStatus job) <? 3) eqn:E3.
    + apply Z.ltb_lt in E3. intros _. repeat split; auto. exists k. auto.
    + intros H. now apply embed_statusUpdateThen_outcome in H.
Qed.

(** The task without policy at its first failure. *)
Lemma embed_Reconcile_panics_only_without_policy_witness :
  outcome (EmbeddingJobReconciler.Reconcile (healthyCluster (Found failedOnce))
             (runningEmbedTask None 0)) = Panic
  /\ EJRetryPolicy (EJSpec (runningEmbedTask None 0)) = None
  /\ EJRetryCount (EJStatus (runningEmbedTask None 0)) < 3.
Proof.
  assert (H : outcome (EmbeddingJobReconciler.Reconcile (healthyCluster (Found failedOnce))
                         (runningEmbedTask None 0)) = Panic) by (vm_compute; reflexivity).
  split; [exact H|].
  destruct (embed_Reconcile_panics_only_without_policy _ _ H) as (Hp & _ & Hc & _).
  split; assumption.
Defined.

Lemma index_statusUpdateThen_outcome c job st res :
  outcome (IndexJobReconciler.statusUpdateThen c job st res) <> Panic.
Proof.
  unfold IndexJobReconciler.statusUpdateThen. destruct (statusUpdate c); discriminate.
Qed.

(** X4. A reconciliation of an Index Task never panics, whatever the
    task and whatever the API server answers: every pointer it reads is
    read under a nil check. *)
Theorem index_Reconcile_never_panics (c : Cluster) (job : IndexJob) :
  outcome (IndexJobReconciler.Reconcile c job) <> Panic.
Proof.
  unfold IndexJobReconciler.Reconcile, IndexJobReconciler.handleDeletion,
    IndexJobReconciler.handleOptimizingPhase, IndexJobReconciler.handleJobSucceeded,
    IndexJobReconciler.initializeStatus.
  destruct (getSelf c); try discriminate.
  destruct (negb (metav1_IsZero (DeletionTimestamp (IJMeta job)))).
  { destruct (update c); discriminate. }
  destruct (negb (ContainsFinalizer _ _)).
  { destruct (update c); discriminate. }
  cbv zeta.
  destruct (String.eqb _ ""); [apply index_statusUpdateThen_outcome|].
  destruct (String.eqb _ IndexJobPhasePending).
  { unfold IndexJobReconciler.handlePendingPhase, IndexJobReconciler.updateStatusFailed.
    destruct (getDocumentSet c _ _); [|apply index_statusUpdateThen_outcome].
    destruct (SetControllerReference c); [|discriminate].
    destruct (createJob c _ _); unfold after; cbn [outcome];
      apply index_statusUpdateThen_outcome. }
  destruct (String.eqb _ IndexJobPhaseBuilding); [apply handleBuildingPhase_total|].
  destruct (String.eqb _ IndexJobPhaseOptimizing); [apply index_statusUpdateThen_outcome|].
  destruct (_ || _); [discriminate | apply index_statusUpdateThen_outcome].
Qed.

(** X5. A Running Embed Task whose workload is no longer found is sent
    back to Pending to create it again: the retry count, the workload
    reference and the start time are kept, no workload is created or
    deleted in this pass, and the task is requeued at once. The lost
    workload does not count as a retry. *)
Theorem embed_lost_workload_restarts (c : Cluster) (job : EmbeddingJob) :
  let r := EmbeddingJobReconciler.handleRunningPhase c job in
  let s' := EJStatus (stored r) in
  getJob c (Namespace (EJMeta job)) (embedJobName job) = NotFound ->
  statusUpdate c = Ok tt ->
  EJPhase s' = EmbeddingJobPhasePending
  /\ EJRetryCount s' = EJRetryCount (EJStatus job)
  /\ EJJobRef s' = EJJobRef (EJStatus job)
  /\ EJStartTime s' = EJStartTime (EJStatus job)
  /\ calls r = [CallStatusUpdate]
  /\ outcome r = Return requeueNow.
Proof.
  intros r s' Hget Hupd. subst r s'.
  unfold EmbeddingJobReconciler.handleRunningPhase. fold (embedJobName job).
  rewrite Hget. unfold EmbeddingJobReconciler.initializeStatus,
    EmbeddingJobReconciler.statusUpdateThen. rewrite Hupd. cbn. auto 10.
Qed.

Lemma embed_lost_workload_restarts_witness :
  let r := EmbeddingJobReconciler.handleRunningPhase (healthyCluster NotFound)
             (runningEmbedTask (Some defaultPolicy) 2) in
  EJPhase (EJStatus (stored r)) = EmbeddingJobPhasePending
  /\ EJRetryCount (EJStatus (stored r)) = 2.
Proof.
  intros r.
  destruct (embed_lost_workload_restarts (healthyCluster NotFound)
              (runningEmbedTask (Some defaultPolicy) 2) eq_refl eq_refl)
    as (Hp & Hc & _).
  split; assumption.
Defined.

(** X6. The creation of the workload of a task is idempotent: when the
    API server answers that the workload already exists, the Pending
    handler of the Embed Task and that of the Index Task do exactly what
    they do when it has just been created. *)
Theorem pending_tolerates_existing_workload (c : Cluster) (e : EmbeddingJob) (i : IndexJob) :
  EmbeddingJobReconciler.handlePendingPhase (withCreateJob c AlreadyExists) e
  = EmbeddingJobReconciler.handlePendingPhase (withCreateJob c Created) e
  /\ IndexJobReconciler.handlePendingPhase (withCreateJob c AlreadyExists) i
     = IndexJobReconciler.handlePendingPhase (withCreateJob c Created) i.
Proof.
  split.
  - unfold EmbeddingJobReconciler.handlePendingPhase. cbn [getDocumentSet withCreateJob
      SetControllerReference createJob].
    destruct (getDocumentSet c _ _); [|reflexivity].
    destruct (SetControllerReference c); reflexivity.
  - unfold IndexJobReconciler.handlePendingPhase. cbn [getDocumentSet withCreateJob
      SetControllerReference createJob].
    destruct (getDocumentSet c _ _); [|reflexivity].
    destruct (SetControllerReference c); reflexivity.
Qed.

(** X7. A Pending Embed Task whose DocumentSet cannot be read is marked
    Failed with the error in its message and a completion time; no
    workload is created for it, and it is not requeued. *)
Theorem embed_pending_without_documentset (c : Cluster) (job : EmbeddingJob) (e : string) :
  let r := EmbeddingJobReconciler.handlePendingPhase c job in
  let s' := EJStatus (stored r) in
  getDocumentSet c (Namespace (EJMeta job)) (EJDocumentSet (EJSpec job)) = Err e ->
  statusUpdate c = Ok tt ->
  EJPhase s' = EmbeddingJobPhaseFailed
  /\ EJMessage s' = "Failed to get DocumentSet: " ++ e
  /\ EJCompletionTime s' = Some (clock c)
  /\ EJJobRef s' = EJJobRef (EJStatus job)
  /\ List.filter isCreateCall (calls r) = []
  /\ outcome r = Return noRequeue.
Proof.
  intros r s' Hget Hupd. subst r s'.
  unfold EmbeddingJobReconciler.handlePendingPhase. rewrite Hget.
  unfold EmbeddingJobReconciler.updateStatusFailed, EmbeddingJobReconciler.statusUpdateThen.
  rewrite Hupd. cbn. auto 10.
Qed.

Lemma embed_pending_without_documentset_witness :
  let c := {| getSelf := Found tt;
              getDocumentSet := fun _ _ => Err "documentsets.rag.ai docs not found";
              SetControllerReference := Ok tt;
              createJob := fun _ _ => Created;
              getJob := fun _ _ => NotFound;
              statusUpdate := Ok tt; update := Ok tt;
              deleteJob := fun _ _ => Deleted; clock := 1000 |} in
  let r := EmbeddingJobReconciler.handlePendingPhase c (pendingEmbedTask None) in
  EJPhase (EJStatus (stored r)) = EmbeddingJobPhaseFailed
  /\ EJMessage (EJStatus (stored r))
     = "Failed to get DocumentSet: documentsets.rag.ai docs not found".
Proof.
  intros c r.
  destruct (embed_pending_without_documentset c (pendingEmbedTask None)
              "documentsets.rag.ai docs not found" eq_refl eq_refl) as (Hp & Hm & _).
  split; assumption.
Defined.

Lemma conditionStatus_set (clk : Z) (conditions : list Condition) (new : Condition)
    (ty : string) :
  conditionStatus (SetStatusCondition clk conditions new) ty
  = if String.eqb (CondType new) ty then Some (CondStatus new)
    else conditionStatus conditions ty.
Proof.
  induction conditions as [|c rest IH]; cbn [SetStatusCondition].
  - destruct (LastTransitionTime new =? GoTime.zeroTime); reflexivity.
  - destruct (String.eqb_spec (CondType c) (CondType new)) as [Heq|Hne];
      cbn [conditionStatus CondType CondStatus].
    + rewrite Heq. destruct (String.eqb (CondType new) ty); reflexivity.
    + rewrite IH. destruct (String.eqb_spec (CondType c) ty) as [Hc|Hc]; [|reflexivity].
      subst ty. apply String.eqb_neq in Hne. rewrite String.eqb_sym, Hne. reflexivity.
Qed.

Lemma eqb_append_nonempty (a b : string) :
  b <> "" -> String.eqb (a ++ b) "" = false.
Proof.
  intros Hb. apply String.eqb_neq. intros H.
  apply (f_equal String.length) in H. rewrite length_append in H.
  destruct b; [congruence | cbn in H; lia].
Qed.

(** X8. The workload a Running Embed Task looks up is the one its Pending
    handler created: after a successful pass through Pending the task is
    Running with the name of the created workload as reference, and when
    that workload has succeeded the next pass marks the task Succeeded,
    keeps the retry count and sets the condition VectorUpserted. *)
Theorem embed_pending_then_running (c1 c2 : Cluster) (job : EmbeddingJob) :
  let ns := Namespace (EJMeta job) in
  let name := Name (EJMeta job) ++ "-job" in
  let r1 := EmbeddingJobReconciler.handlePendingPhase c1 job in
  let r2 := EmbeddingJobReconciler.handleRunningPhase c2 (stored r1) in
  is_Err (getDocumentSet c1 ns (EJDocumentSet (EJSpec job))) = false ->
  is_Err (SetControllerReference c1) = false ->
  createFailed (createJob c1 ns name) = false ->
  statusUpdate c1 = Ok tt ->
  getJob c2 ns name = Found succeededOnce ->
  statusUpdate c2 = Ok tt ->
  calls r1 = [CallCreateJob ns name; CallStatusUpdate]
  /\ EJPhase (EJStatus (stored r1)) = EmbeddingJobPhaseRunning
  /\ EJJobRef (EJStatus (stored r1)) = name
  /\ EJStartTime (EJStatus (stored r1)) = Some (clock c1)
  /\ EJPhase (EJStatus (stored r2)) = EmbeddingJobPhaseSucceeded
  /\ EJCompletionTime (EJStatus (stored r2)) = Some (clock c2)
  /\ EJRetryCount (EJStatus (stored r2)) = EJRetryCount (EJStatus job)
  /\ conditionStatus (EJConditions (EJStatus (stored r2))) EmbeddingJobConditionVectorUpserted
     = Some true.
Proof.
  intros ns name r1 r2 Hds Href Hcreate Hupd1 Hget Hupd2.
  assert (Hr1 : r1 = {| stored :=
                          EmbeddingJobReconciler.withStatus job
                            {| EJPhase := EmbeddingJobPhaseRunning;
                               EJProgress := EJProgress (EJStatus job);
                               EJStartTime := Some (clock c1);
                               EJCompletionTime := EJCompletionTime (EJStatus job);
                               EJMessage := "Kubernetes Job created, processing embeddings";
                               EJConditions :=
                                 SetStatusCondition (clock c1) (EJConditions (EJStatus job))
                                   {| CondType := EmbeddingJobConditionStarted;
                                      CondStatus := true; Reason := "JobCreated";
                                      CondMessage := "Kubernetes Job created successfully";
                                      LastTransitionTime := clock c1 |};
                               EJJobRef := name;
                               EJRetryCount := EJRetryCount (EJStatus job) |};
                        calls := [CallCreateJob ns name; CallStatusUpdate];
                        outcome := Return (requeueIn requeueAfter) |}).
  { subst r1. unfold EmbeddingJobReconciler.handlePendingPhase,
      EmbeddingJobReconciler.k8sJobName. fold ns name.
    destruct (getDocumentSet c1 ns _); [|discriminate].
    destruct (SetControllerReference c1); [|discriminate].
    unfold EmbeddingJobReconciler.statusUpdateThen. rewrite Hupd1.
    destruct (createJob c1 ns name); try discriminate; reflexivity. }
  subst r2. rewrite Hr1. cbn [stored calls EJStatus EmbeddingJobReconciler.withStatus
                               EJPhase EJJobRef EJStartTime].
  repeat (split; [reflexivity|]).
  unfold EmbeddingJobReconciler.handleRunningPhase.
  cbn [stored EJStatus EJMeta EmbeddingJobReconciler.withStatus EJJobRef].
  assert (Hname : String.eqb name "" = false)
    by (apply eqb_append_nonempty; discriminate).
  rewrite Hname. cbv iota. fold ns. rewrite Hget.
  cbn [Succeeded succeededOnce Z.ltb Z.compare].
  unfold EmbeddingJobReconciler.updateStatusSucceeded, EmbeddingJobReconciler.statusUpdateThen.
  rewrite Hupd2.
  cbn [stored EJStatus EmbeddingJobReconciler.withStatus EJPhase EJCompletionTime
         EJRetryCount EJConditions].
  repeat (split; [reflexivity|]).
  rewrite conditionStatus_set. reflexivity.
Qed.

Lemma embed_pending_then_running_witness :
  let job := pendingEmbedTask (Some defaultPolicy) in
  let r1 := EmbeddingJobReconciler.handlePendingPhase (healthyCluster NotFound) job in
  let r2 := EmbeddingJobReconciler.handleRunningPhase (healthyCluster (Found succeededOnce))
              (stored r1) in
  EJJobRef (EJStatus (stored r1)) = "docs-embedding-1" ++ "-job"
  /\ EJPhase (EJStatus (stored r2)) = EmbeddingJobPhaseSucceeded.
Proof.
  intros job r1 r2.
  destruct (embed_pending_then_running (healthyCluster NotFound)
              (healthyCluster (Found succeededOnce)) job
              eq_refl eq_refl eq_refl eq_refl eq_refl eq_refl)
    as (_ & _ & Href & _ & Hph & _).
  split; assumption.
Defined.

(** X9. A building Index Task whose workload reports a success is marked
    Succeeded, even when the workload also reports failures: the
    completion time is set, the conditions IndexCreated and
    IndexOptimized become true, the retry count is kept, and the alias
    swap is recorded (status field and condition) exactly when the spec
    names a target alias. *)
Theorem index_success_records_alias (c : Cluster) (job : IndexJob) (k : JobStatus) :
  let r := IndexJobReconciler.handleBuildingPhase c job in
  let s' := IJStatus (stored r) in
  getJob c (Namespace (IJMeta job)) (indexJobName job) = Found k ->
  0 < Succeeded k ->
  statusUpdate c = Ok tt ->
  IJPhase s' = IndexJobPhaseSucceeded
  /\ IJCompletionTime s' = Some (clock c)
  /\ IJRetryCount s' = IJRetryCount (IJStatus job)
  /\ conditionStatus (IJConditions s') IndexJobConditionIndexCreated = Some true
  /\ conditionStatus (IJConditions s') IndexJobConditionIndexOptimized = Some true
  /\ (TargetAlias (IJSpec job) <> "" ->
      AliasSwapped s' = true
      /\ conditionStatus (IJConditions s') IndexJobConditionAliasSwapped = Some true)
  /\ (TargetAlias (IJSpec job) = "" ->
      AliasSwapped s' = AliasSwapped (IJStatus job)
      /\ conditionStatus (IJConditions s') IndexJobConditionAliasSwapped
         = conditionStatus (IJConditions (IJStatus job)) IndexJobConditionAliasSwapped)
  /\ calls r = [CallStatusUpdate]
  /\ outcome r = Return noRequeue.
Proof.
  intros r s' Hget Hs Hupd. subst r s'.
  unfold IndexJobReconciler.handleBuildingPhase. fold (indexJobName job).
  rewrite Hget. apply Z.ltb_lt in Hs. rewrite Hs.
  unfold IndexJobReconciler.handleJobSucceeded, IndexJobReconciler.statusUpdateThen.
  rewrite Hupd.
  cbn [stored calls outcome IJStatus IndexJobReconciler.withStatus IJPhase IJCompletionTime
         IJRetryCount IJConditions AliasSwapped].
  repeat (split; [reflexivity|]).
  destruct (String.eqb_spec (TargetAlias (IJSpec job)) "") as [Halias|Halias];
    cbn [negb]; rewrite !conditionStatus_set; cbn [CondType CondStatus];
    repeat split; try reflexivity; intros; try contradiction; split; reflexivity.
Qed.

Lemma index_success_records_alias_witness :
  let r := IndexJobReconciler.handleBuildingPhase
             (healthyCluster (Found {| Succeeded := 1; Failed := 2; Active := 0 |}))
             (buildingIndexTask None 1) in
  IJPhase (IJStatus (stored r)) = IndexJobPhaseSucceeded
  /\ AliasSwapped (IJStatus (stored r)) = true.
Proof.
  intros r.
  destruct (index_success_records_alias
              (healthyCluster (Found {| Succeeded := 1; Failed := 2; Active := 0 |}))
              (buildingIndexTask None 1) {| Succeeded := 1; Failed := 2; Active := 0 |}
              eq_refl eq_refl eq_refl)
    as (Hp & _ & _ & _ & _ & Hswap & _).
  split; [exact Hp|]. apply Hswap. discriminate.
Defined.

Lemma ContainsFinalizer_Remove (m : ObjectMeta) (f : string) :
  ContainsFinalizer (RemoveFinalizer m f) f = false.
Proof.
  unfold ContainsFinalizer, RemoveFinalizer. cbn [Finalizers withFinalizers].
  induction (Finalizers m) as [|g fs IH]; [reflexivity|].
  cbn [List.filter]. destruct (String.eqb_spec g f) as [Hg|Hg]; cbn [negb]; [exact IH|].
  cbn [List.existsb]. rewrite IH, orb_false_r. apply String.eqb_neq. congruence.
Qed.

Lemma ContainsFinalizer_Remove_other (m : ObjectMeta) (f g : string) :
  g <> f -> ContainsFinalizer (RemoveFinalizer m f) g = ContainsFinalizer m g.
Proof.
  intros Hne. unfold ContainsFinalizer, RemoveFinalizer. cbn [Finalizers withFinalizers].
  induction (Finalizers m) as [|h fs IH]; [reflexivity|].
  cbn [List.filter List.existsb].
  destruct (String.eqb_spec h f) as [Hh|Hh]; cbn [negb List.existsb].
  - rewrite IH. subst h. apply String.eqb_neq in Hne. now rewrite Hne.
  - now rewrite IH.
Qed.

Lemma ContainsFinalizer_Add (m : ObjectMeta) (f : string) :
  ContainsFinalizer (AddFinalizer m f) f = true.
Proof.
  unfold AddFinalizer. destruct (ContainsFinalizer m f) eqn:E; [exact E|].
  unfold ContainsFinalizer. cbn [Finalizers withFinalizers].
  rewrite List.existsb_app. cbn. now rewrite String.eqb_refl, orb_true_r.
Qed.

(** A deletion timestamp that is set and is not the zero time passes the
    test [!DeletionTimestamp.IsZero()]. *)
Lemma deletion_requested (t : Z) :
  t <> GoTime.zeroTime -> negb (metav1_IsZero (Some t)) = true.
Proof.
  intros Ht. unfold metav1_IsZero, GoTime.IsZero.
  apply Z.eqb_neq in Ht. now rewrite Ht.
Qed.

(** X10. A task that carries a deletion timestamp (a timestamp that is
    set and is not the zero time, as [IsZero] tests it) is only
    released: in whatever phase it is, a reconciliation removes the
    finalizer of the controller, keeps the other finalizers and the
    status, sends this one update and touches no workload. This holds
    for Embed Tasks and for Index Tasks. *)
Theorem deleted_task_is_released (c : Cluster) (e : EmbeddingJob) (i : IndexJob) (t : Z) :
  getSelf c = Found tt ->
  update c = Ok tt ->
  t <> GoTime.zeroTime ->
  (DeletionTimestamp (EJMeta e) = Some t ->
   let r := EmbeddingJobReconciler.Reconcile c e in
   ContainsFinalizer (EJMeta (stored r)) EmbeddingJobReconciler.embeddingJobFinalizer = false
   /\ (forall g, g <> EmbeddingJobReconciler.embeddingJobFinalizer ->
                 ContainsFinalizer (EJMeta (stored r)) g = ContainsFinalizer (EJMeta e) g)
   /\ EJStatus (stored r) = EJStatus e
   /\ calls r = [CallUpdate]
   /\ outcome r = Return noRequeue)
  /\ (DeletionTimestamp (IJMeta i) = Some t ->
      let r := IndexJobReconciler.Reconcile c i in
      ContainsFinalizer (IJMeta (stored r)) IndexJobReconciler.indexJobFinalizer = false
      /\ (forall g, g <> IndexJobReconciler.indexJobFinalizer ->
                    ContainsFinalizer (IJMeta (stored r)) g = ContainsFinalizer (IJMeta i) g)
      /\ IJStatus (stored r) = IJStatus i
      /\ calls r = [CallUpdate]
      /\ outcome r = Return noRequeue).
Proof.
  intros Hself Hupd Ht. split; intros Hdel; cbv zeta.
  - unfold EmbeddingJobReconciler.Reconcile, EmbeddingJobReconciler.handleDeletion.
    rewrite Hself, Hdel, Hupd, (deletion_requested t Ht).
    cbn [stored calls outcome EJMeta EJStatus EmbeddingJobReconciler.withMeta].
    split; [apply ContainsFinalizer_Remove|].
    split; [intros g Hg; now apply ContainsFinalizer_Remove_other|]. auto.
  - unfold IndexJobReconciler.Reconcile, IndexJobReconciler.handleDeletion.
    rewrite Hself, Hdel, Hupd, (deletion_requested t Ht).
    cbn [stored calls outcome IJMeta IJStatus IndexJobReconciler.withMeta].
    split; [apply ContainsFinalizer_Remove|].
    split; [intros g Hg; now apply ContainsFinalizer_Remove_other|]. auto.
Qed.

(** A running Embed Task and a building Index Task under deletion. *)
Lemma deleted_task_is_released_witness :
  let c := healthyCluster (Found failedOnce) in
  let e := EmbeddingJobReconciler.withMeta (runningEmbedTask None 0)
             (deleting (EJMeta (runningEmbedTask None 0)) 500) in
  let i := IndexJobReconciler.withMeta (buildingIndexTask None 0)
             (deleting (IJMeta (buildingIndexTask None 0)) 500) in
  (Finalizers (EJMeta (stored (EmbeddingJobReconciler.Reconcile c e))) = []
   /\ calls (EmbeddingJobReconciler.Reconcile c e) = [CallUpdate])
  /\ calls (IndexJobReconciler.Reconcile c i) = [CallUpdate].
Proof.
  intros c e i.
  destruct (deleted_task_is_released c e i 500 eq_refl eq_refl ltac:(discriminate))
    as (He & Hi).
  destruct (He eq_refl) as (_ & _ & _ & Hce & _).
  destruct (Hi eq_refl) as (_ & _ & _ & Hci & _).
  split; [split; [vm_compute; reflexivity | exact Hce] | exact Hci].
Defined.

(** X11. A task that does not yet carry the finalizer of its controller
    and is not being deleted only receives it: in whatever phase the
    task is, the reconciliation adds the finalizer, keeps the status,
    creates and deletes no workload, and asks to be requeued. This holds
    for Embed Tasks and for Index Tasks. *)
Theorem finalizer_comes_first (c : Cluster) (e : EmbeddingJob) (i : IndexJob) :
  getSelf c = Found tt ->
  update c = Ok tt ->
  (DeletionTimestamp (EJMeta e) = None ->
   ContainsFinalizer (EJMeta e) EmbeddingJobReconciler.embeddingJobFinalizer = false ->
   let r := EmbeddingJobReconciler.Reconcile c e in
   ContainsFinalizer (EJMeta (stored r)) EmbeddingJobReconciler.embeddingJobFinalizer = true
   /\ EJStatus (stored r) = EJStatus e
   /\ calls r = [CallUpdate]
   /\ outcome r = Return requeueNow)
  /\ (DeletionTimestamp (IJMeta i) = None ->
      ContainsFinalizer (IJMeta i) IndexJobReconciler.indexJobFinalizer = false ->
      let r := IndexJobReconciler.Reconcile c i in
      ContainsFinalizer (IJMeta (stored r)) IndexJobReconciler.indexJobFinalizer = true
      /\ IJStatus (stored r) = IJStatus i
      /\ calls r = [CallUpdate]
      /\ outcome r = Return requeueNow).
Proof.
  intros Hself Hupd. split; intros Hdel Hfin; cbv zeta.
  - unfold EmbeddingJobReconciler.Reconcile.
    rewrite Hself, Hdel, Hfin, Hupd. cbn [negb stored calls outcome EJMeta EJStatus
                                            EmbeddingJobReconciler.withMeta].
    split; [apply ContainsFinalizer_Add | auto].
  - unfold IndexJobReconciler.Reconcile.
    rewrite Hself, Hdel, Hfin, Hupd. cbn [negb stored calls outcome IJMeta IJStatus
                                            IndexJobReconciler.withMeta].
    split; [apply ContainsFinalizer_Add | auto].
Qed.

(** The tasks as the Pipeline reconciler creates them. *)
Lemma finalizer_comes_first_witness :
  let c := healthyCluster NotFound in
  Finalizers (EJMeta (stored (EmbeddingJobReconciler.Reconcile c (newEmbedTask None))))
  = ["embeddingjob.rag.ai/finalizer"]
  /\ calls (EmbeddingJobReconciler.Reconcile c (newEmbedTask None)) = [CallUpdate]
  /\ calls (IndexJobReconciler.Reconcile c (newIndexTask None)) = [CallUpdate].
Proof.
  intros c.
  destruct (finalizer_comes_first c (newEmbedTask None) (newIndexTask None) eq_refl eq_refl)
    as (He & Hi).
  destruct (He eq_refl eq_refl) as (_ & _ & Hce & _).
  destruct (Hi eq_refl eq_refl) as (_ & _ & Hci & _).
  split; [vm_compute; reflexivity|]. split; assumption.
Defined.

Lemma embed_statusUpdateThen_failing c job st res e :
  statusUpdate c = Err e ->
  EmbeddingJobReconciler.statusUpdateThen c job st res
  = {| stored := job; calls := [CallStatusUpdate]; outcome := ReturnErr e |}.
Proof. intros H. unfold EmbeddingJobReconciler.statusUpdateThen. now rewrite H. Qed.

Lemma index_statusUpdateThen_failing c job st res e :
  statusUpdate c = Err e ->
  IndexJobReconciler.statusUpdateThen c job st res
  = {| stored := job; calls := [CallStatusUpdate]; outcome := ReturnErr e |}.
Proof. intros H. unfold IndexJobReconciler.statusUpdateThen. now rewrite H. Qed.

(** X12. When the API server refuses the writes of the task (a conflict,
    say), a reconciliation leaves the task as it was stored and, if it
    attempted a write, returns the error of that write, so that the work
    queue retries: no handler goes on after a failed update. This holds
    for Embed Tasks and for Index Tasks, in every phase. *)
Theorem refused_writes_change_nothing (c : Cluster) (err : string)
    (e : EmbeddingJob) (i : IndexJob) :
  let c' := withFailingWrites c err in
  (stored (EmbeddingJobReconciler.Reconcile c' e) = e
   /\ (In CallUpdate (calls (EmbeddingJobReconciler.Reconcile c' e))
       \/ In CallStatusUpdate (calls (EmbeddingJobReconciler.Reconcile c' e)) ->
       outcome (EmbeddingJobReconciler.Reconcile c' e) = ReturnErr err))
  /\ (stored (IndexJobReconciler.Reconcile c' i) = i
      /\ (In CallUpdate (calls (IndexJobReconciler.Reconcile c' i))
          \/ In CallStatusUpdate (calls (IndexJobReconciler.Reconcile c' i)) ->
          outcome (IndexJobReconciler.Reconcile c' i) = ReturnErr err)).
Proof.
  intros c'.
  assert (Hs : statusUpdate c' = Err err) by reflexivity.
  assert (Hu : update c' = Err err) by reflexivity.
  assert (no : forall cs : list call, cs = [] -> In CallUpdate cs \/ In CallStatusUpdate cs -> False)
    by (intros cs -> [[]|[]]).
  split.
  - unfold EmbeddingJobReconciler.Reconcile, EmbeddingJobReconciler.handleDeletion,
      EmbeddingJobReconciler.handlePendingPhase, EmbeddingJobReconciler.handleRunningPhase,
      EmbeddingJobReconciler.initializeStatus, EmbeddingJobReconciler.updateStatusSucceeded,
      EmbeddingJobReconciler.updateStatusFailed.
    rewrite Hu, Hs.
    destruct (getSelf c') as [[]| |]; try (split; [reflexivity | intros H; exfalso; eapply no; eauto; reflexivity]).
    destruct (negb (metav1_IsZero (DeletionTimestamp (EJMeta e)))); [split; reflexivity|].
    destruct (negb (ContainsFinalizer _ _)); [split; reflexivity|].
    cbv zeta. rewrite !(embed_statusUpdateThen_failing c' _ _ _ err Hs).
    destruct (String.eqb _ ""); [split; reflexivity|].
    destruct (String.eqb _ EmbeddingJobPhasePending).
    { destruct (getDocumentSet c' _ _); [|split; reflexivity].
      destruct (SetControllerReference c');
        [|split; [reflexivity | intros H; exfalso; eapply no; eauto; reflexivity]].
      destruct (createJob c' _ _); split; reflexivity. }
    destruct (String.eqb _ EmbeddingJobPhaseRunning).
    { destruct (getJob c' _ _) as [k| |];
        [| split; reflexivity
         | split; [reflexivity | intros H; exfalso; eapply no; eauto; reflexivity]].
      destruct (0 <? Succeeded k); [split; reflexivity|].
      destruct (0 <? Failed k); [|split; reflexivity].
      destruct (_ <? _); split; reflexivity. }
    destruct (_ || _); [|split; reflexivity].
    split; [reflexivity | intros H; exfalso; eapply no; eauto; reflexivity].
  - unfold IndexJobReconciler.Reconcile, IndexJobReconciler.handleDeletion,
      IndexJobReconciler.handlePendingPhase, IndexJobReconciler.handleBuildingPhase,
      IndexJobReconciler.handleOptimizingPhase, IndexJobReconciler.handleJobSucceeded,
      IndexJobReconciler.initializeStatus, IndexJobReconciler.updateStatusFailed.
    rewrite Hu, Hs.
    destruct (getSelf c') as [[]| |]; try (split; [reflexivity | intros H; exfalso; eapply no; eauto; reflexivity]).
    destruct (negb (metav1_IsZero (DeletionTimestamp (IJMeta i)))); [split; reflexivity|].
    destruct (negb (ContainsFinalizer _ _)); [split; reflexivity|].
    cbv zeta. rewrite !(index_statusUpdateThen_failing c' _ _ _ err Hs).
    destruct (String.eqb _ ""); [split; reflexivity|].
    destruct (String.eqb _ IndexJobPhasePending).
    { destruct (getDocumentSet c' _ _); [|split; reflexivity].
      destruct (SetControllerReference c');
        [|split; [reflexivity | intros H; exfalso; eapply no; eauto; reflexivity]].
      destruct (createJob c' _ _); split; reflexivity. }
    destruct (String.eqb _ IndexJobPhaseBuilding).
    { destruct (getJob c' _ _) as [k| |];
        [| split; reflexivity
         | split; [reflexivity | intros H; exfalso; eapply no; eauto; reflexivity]].
      destruct (0 <? Succeeded k); [split; reflexivity|].
      destruct (0 <? Failed k); [|split; reflexivity].
      destruct (_ <? _); split; reflexivity. }
    destruct (String.eqb _ IndexJobPhaseOptimizing); [split; reflexivity|].
    destruct (_ || _); [|split; reflexivity].
    split; [reflexivity | intros H; exfalso; eapply no; eauto; reflexivity].
Qed.

(** ** The Pipeline reconciler *)

Lemma pipeline_statusUpdateThen_move c p st rest res :
  statusMove p st rest ->
  pipelineMove p (pStored (PipelineReconciler.statusUpdateThen c p st rest res)).
Proof.
  intros H. unfold PipelineReconciler.statusUpdateThen.
  destruct (statusUpdate (PCluster c)); [now apply pipeline_status | apply pipeline_kept].
Qed.

Lemma pipeline_initializeStatus_move c p :
  PipelineReconciler.phaseOf p <> DocumentSetPhasePending ->
  PipelineReconciler.phaseOf p <> DocumentSetPhaseIndexing ->
  pipelineMove p (pStored (PipelineReconciler.initializeStatus c p)).
Proof.
  intros H1 H2. apply pipeline_statusUpdateThen_move. now apply move_restart.
Qed.

Lemma pipeline_updateStatusFailed_move c p msg :
  PipelineReconciler.phaseOf p = DocumentSetPhasePending
  \/ PipelineReconciler.phaseOf p = DocumentSetPhaseEmbedding
  \/ PipelineReconciler.phaseOf p = DocumentSetPhaseIndexing ->
  pipelineMove p (pStored (PipelineReconciler.updateStatusFailed c p msg)).
Proof.
  intros H. apply pipeline_statusUpdateThen_move. now apply move_fail.
Qed.

Lemma append_nonempty_r (a b : string) : b <> "" -> a ++ b <> "".
Proof.
  intros Hb H. apply (f_equal String.length) in H. rewrite length_append in H.
  destruct b; [congruence | cbn in H; lia].
Qed.

Lemma append_nonempty_l (a b : string) : a <> "" -> a ++ b <> "".
Proof.
  intros Ha H. apply (f_equal String.length) in H. rewrite length_append in H.
  destruct a; [congruence | cbn in H; lia].
Qed.

Lemma pipeline_handlePendingPhase_move c p :
  PipelineReconciler.phaseOf p = DocumentSetPhasePending ->
  pipelineMove p (pStored (PipelineReconciler.handlePendingPhase c p)).
Proof.
  intros Hph. unfold PipelineReconciler.handlePendingPhase.
  destruct (SetControllerReference (PCluster c)); [|apply pipeline_kept].
  cbv zeta.
  destruct (apiCreateEmbeddingJob c _); cbn [PipelineReconciler.pafter pStored].
  3: { apply pipeline_updateStatusFailed_move. auto. }
  all: apply pipeline_statusUpdateThen_move; apply move_embed; cbn; auto;
    apply append_nonempty_r, append_nonempty_l; discriminate.
Qed.

Lemma pipeline_createIndexJob_move c p :
  PipelineReconciler.phaseOf p = DocumentSetPhaseEmbedding
  \/ PipelineReconciler.phaseOf p = DocumentSetPhaseIndexing ->
  pipelineMove p (pStored (PipelineReconciler.createIndexJob c p)).
Proof.
  intros Hph. unfold PipelineReconciler.createIndexJob.
  destruct (SetControllerReference (PCluster c)); [|apply pipeline_kept].
  cbv zeta.
  destruct (apiCreateIndexJob c _); cbn [PipelineReconciler.pafter pStored].
  3: { apply pipeline_updateStatusFailed_move. destruct Hph; auto. }
  all: apply pipeline_statusUpdateThen_move; apply move_index; cbn; auto;
    apply append_nonempty_r, append_nonempty_l; discriminate.
Qed.

Lemma pipeline_handleEmbeddingPhase_move c p :
  PipelineReconciler.phaseOf p = DocumentSetPhaseEmbedding ->
  pipelineMove p (pStored (PipelineReconciler.handleEmbeddingPhase c p)).
Proof.
  intros Hph. unfold PipelineReconciler.handleEmbeddingPhase.
  destruct (getEmbeddingJob c _ _) as [child| |e]; [| |apply pipeline_kept].
  - cbv zeta.
    destruct (String.eqb _ EmbeddingJobPhaseSucceeded);
      [apply pipeline_createIndexJob_move; auto|].
    destruct (String.eqb _ EmbeddingJobPhaseFailed);
      [apply pipeline_updateStatusFailed_move; auto|].
    destruct (String.eqb _ EmbeddingJobPhaseRunning); [|apply pipeline_kept].
    apply pipeline_statusUpdateThen_move. now apply move_progress.
  - apply pipeline_initializeStatus_move; rewrite Hph; discriminate.
Qed.

Lemma pipeline_handleIndexingPhase_move c p :
  PipelineReconciler.phaseOf p = DocumentSetPhaseIndexing ->
  pipelineMove p (pStored (PipelineReconciler.handleIndexingPhase c p)).
Proof.
  intros Hph. unfold PipelineReconciler.handleIndexingPhase.
  destruct (getIndexJob c _ _) as [child| |e]; [| |apply pipeline_kept].
  - cbv zeta.
    destruct (String.eqb _ IndexJobPhaseSucceeded).
    { apply pipeline_statusUpdateThen_move. now apply move_ready. }
    destruct (String.eqb _ IndexJobPhaseFailed);
      [apply pipeline_updateStatusFailed_move; auto|].
    destruct (_ || _); [|apply pipeline_kept].
    apply pipeline_statusUpdateThen_move. now apply move_progress.
  - apply pipeline_createIndexJob_move. auto.
Qed.

(** One reconciliation of a pipeline is one move. *)
Lemma pipeline_Reconcile_move (c : PipelineCluster) (p : Pipeline) :
  pipelineMove p (pStored (PipelineReconciler.Reconcile c p)).
Proof.
  unfold PipelineReconciler.Reconcile, PipelineReconciler.handleDeletion,
    PipelineReconciler.handleReadyPhase, PipelineReconciler.handleFailedPhase.
  destruct (getSelf (PCluster c)); try apply pipeline_kept.
  destruct (negb (metav1_IsZero (DeletionTimestamp _))).
  { destruct (update (PCluster c)); [apply pipeline_finalizers | apply pipeline_kept]. }
  destruct (negb (ContainsFinalizer _ _)).
  { destruct (update (PCluster c)); [|apply pipeline_kept].
    unfold AddFinalizer. destruct (ContainsFinalizer _ _); [|apply pipeline_finalizers].
    replace (PipelineReconciler.withMeta p (DSMeta (PDocumentSet p))) with p;
      [apply pipeline_kept|].
    destruct p as [[m sp stt] ps pst]. reflexivity. }
  cbv zeta. fold (PipelineReconciler.phaseOf p).
  destruct (String.eqb_spec (PipelineReconciler.phaseOf p) "") as [H0|H0].
  { apply pipeline_initializeStatus_move; rewrite H0; discriminate. }
  destruct (String.eqb_spec (PipelineReconciler.phaseOf p) DocumentSetPhasePending) as [H1|H1].
  { now apply pipeline_handlePendingPhase_move. }
  destruct (String.eqb_spec (PipelineReconciler.phaseOf p) DocumentSetPhaseEmbedding) as [H2|H2].
  { now apply pipeline_handleEmbeddingPhase_move. }
  destruct (String.eqb_spec (PipelineReconciler.phaseOf p) DocumentSetPhaseIndexing) as [H3|H3].
  { now apply pipeline_handleIndexingPhase_move. }
  destruct (String.eqb_spec (PipelineReconciler.phaseOf p) DocumentSetPhaseReady) as [H4|H4].
  { destruct (negb _); [now apply pipeline_initializeStatus_move | apply pipeline_kept]. }
  destruct (String.eqb_spec (PipelineReconciler.phaseOf p) DocumentSetPhaseFailed) as [H5|H5].
  { destruct (negb _); [now apply pipeline_initializeStatus_move|].
    destruct (AutoRetry _); [|apply pipeline_kept].
    destruct (LastUpdateTime _); [|apply pipeline_kept].
    destruct (_ <? _); [now apply pipeline_initializeStatus_move | apply pipeline_kept]. }
  now apply pipeline_initializeStatus_move.
Qed.

Lemma pipelineStep_refl (phase : string) : pipelineStep phase phase = true.
Proof. unfold pipelineStep. now rewrite String.eqb_refl. Qed.

Lemma phaseOf_withStatus p st rest :
  PipelineReconciler.phaseOf (PipelineReconciler.withStatus p st rest) = DSPhase st.
Proof. reflexivity. Qed.

(** X13. One reconciliation of a pipeline moves its phase along the
    edges of the life cycle, whatever the API server answers: the phase
    stays, or Pending becomes Embedding or Failed, Embedding becomes
    Pending, Indexing or Failed, Indexing becomes Ready or Failed, and
    Ready, Failed, the empty phase and an unknown phase become Pending.
    In particular no pipeline becomes Ready but from Indexing. *)
Theorem pipeline_phase_moves (c : PipelineCluster) (p : Pipeline) :
  pipelineStep (PipelineReconciler.phaseOf p)
    (PipelineReconciler.phaseOf (pStored (PipelineReconciler.Reconcile c p))) = true.
Proof.
  destruct (pipeline_Reconcile_move c p) as [|fs|st rest Hm].
  - apply pipelineStep_refl.
  - apply pipelineStep_refl.
  - rewrite phaseOf_withStatus. unfold pipelineStep.
    destruct Hm as [Hst Hp Hi _ _|Hst Hp _ _|Hst Hp _ _ _ _|Hst Hp _ _ _ _
                   |Hst _ _ _ _|Hst Hp _ _ _ _]; rewrite Hst.
    + destruct (String.eqb_spec (PipelineReconciler.phaseOf p) DocumentSetPhasePending);
        [contradiction|].
      destruct (String.eqb_spec (PipelineReconciler.phaseOf p) DocumentSetPhaseEmbedding);
        [apply orb_true_r|].
      destruct (String.eqb_spec (PipelineReconciler.phaseOf p) DocumentSetPhaseIndexing);
        [contradiction|].
      apply orb_true_r.
    + destruct Hp as [->| [->| ->]]; reflexivity.
    + rewrite Hp. reflexivity.
    + destruct Hp as [->| ->]; reflexivity.
    + now rewrite String.eqb_refl.
    + rewrite Hp. reflexivity.
Qed.

(** What every state of a pipeline satisfies. *)
Lemma pipeline_invariant_move (p p' : Pipeline) :
  pipelineMove p p' ->
  (hasCollection (PipelineReconciler.phaseOf p) = true ->
   CurrentCollection (PStatus p) <> "" /\ LastEmbeddingJobRef (PStatus p) <> "") ->
  (hasIndexTask (PipelineReconciler.phaseOf p) = true -> LastIndexJobRef (PStatus p) <> "") ->
  ObservedGeneration (DSStatus (PDocumentSet p)) <= Generation (DSMeta (PDocumentSet p)) ->
  (hasCollection (PipelineReconciler.phaseOf p') = true ->
   CurrentCollection (PStatus p') <> "" /\ LastEmbeddingJobRef (PStatus p') <> "")
  /\ (hasIndexTask (PipelineReconciler.phaseOf p') = true ->
      LastIndexJobRef (PStatus p') <> "")
  /\ ObservedGeneration (DSStatus (PDocumentSet p')) <= Generation (DSMeta (PDocumentSet p')).
Proof.
  intros Hm Hc Hi Hg. destruct Hm as [|fs|st rest Hm]; [auto | auto |].
  rewrite phaseOf_withStatus. cbn [PipelineReconciler.withStatus PStatus PDocumentSet
    DocumentSetReconciler.withStatus DSStatus DSMeta].
  destruct Hm as [Hst _ _ -> Ho|Hst _ -> Ho|Hst _ Hcc He Hix Ho|Hst Hp Hcc He Hix Ho
                 |Hst Hcc He Hix Ho|Hst Hp Hcc He Hix Ho]; rewrite Hst, Ho.
  - repeat split; try discriminate. lia.
  - repeat split; try discriminate. lia.
  - repeat split; try discriminate; auto.
  - rewrite Hcc, He. repeat split; auto; apply Hc; destruct Hp as [->| ->]; reflexivity.
  - rewrite Hcc, He, Hix. auto.
  - rewrite Hcc, He, Hix, Hp in *. repeat split; try lia.
    + now apply Hc.
    + now apply Hc.
    + now apply Hi.
Qed.

(** X14. Through the whole life of a pipeline that was created without
    a phase (reconciliations against any answers of the API server,
    edits of the spec that do not lower the generation): while the phase
    is Embedding, Indexing or Ready the status names a collection and an
    Embed Task, while it is Indexing or Ready it names an Index Task, and
    the observed generation never exceeds the generation. *)
Theorem pipeline_names_its_children (p0 p : Pipeline) :
  PipelineReconciler.phaseOf p0 = "" ->
  ObservedGeneration (DSStatus (PDocumentSet p0)) <= Generation (DSMeta (PDocumentSet p0)) ->
  pipelineReachable p0 p ->
  (hasCollection (PipelineReconciler.phaseOf p) = true ->
   CurrentCollection (PStatus p) <> "" /\ LastEmbeddingJobRef (PStatus p) <> "")
  /\ (hasIndexTask (PipelineReconciler.phaseOf p) = true ->
      LastIndexJobRef (PStatus p) <> "")
  /\ ObservedGeneration (DSStatus (PDocumentSet p)) <= Generation (DSMeta (PDocumentSet p)).
Proof.
  intros H0 Hg0 Hr. induction Hr as [|c p Hr IH|spec rest g p Hr IH Hg].
  - rewrite H0. repeat split; try discriminate. exact Hg0.
  - destruct IH as (Hc & Hi & Hg).
    now apply (pipeline_invariant_move p _ (pipeline_Reconcile_move c p)).
  - destruct IH as (Hc & Hi & Hg'). cbn. repeat split; try apply Hc; auto. lia.
Qed.

Lemma pipeline_names_its_children_witness :
  let c := healthyPipelineCluster NotFound NotFound 0 0 in
  let p := pipelineAfter [c; c; c] newPipeline in
  PipelineReconciler.phaseOf p = DocumentSetPhaseEmbedding
  /\ CurrentCollection (PStatus p) <> ""
  /\ LastEmbeddingJobRef (PStatus p) <> "".
Proof.
  intros c p.
  assert (Hr : pipelineReachable newPipeline p)
    by (do 3 apply pipeline_reconciled; apply pipeline_created).
  assert (Hg : ObservedGeneration (DSStatus (PDocumentSet newPipeline))
               <= Generation (DSMeta (PDocumentSet newPipeline)))
    by (vm_compute; discriminate).
  destruct (pipeline_names_its_children newPipeline p eq_refl Hg Hr) as (Hc & _).
  split; [vm_compute; reflexivity | apply Hc; vm_compute; reflexivity].
Defined.

(** The dispatch of [Reconcile] on an object that is found, not under
    deletion and has its finalizer. *)
Lemma pipeline_Reconcile_dispatch (c : PipelineCluster) (p : Pipeline) (u : unit) :
  getSelf (PCluster c) = Found u ->
  DeletionTimestamp (DSMeta (PDocumentSet p)) = None ->
  ContainsFinalizer (DSMeta (PDocumentSet p)) documentSetFinalizer = true ->
  PipelineReconciler.Reconcile c p
  = let phase := PipelineReconciler.phaseOf p in
    if String.eqb phase "" then PipelineReconciler.initializeStatus c p
    else if String.eqb phase DocumentSetPhasePending
         then PipelineReconciler.handlePendingPhase c p
    else if String.eqb phase DocumentSetPhaseEmbedding
         then PipelineReconciler.handleEmbeddingPhase c p
    else if String.eqb phase DocumentSetPhaseIndexing
         then PipelineReconciler.handleIndexingPhase c p
    else if String.eqb phase DocumentSetPhaseReady
         then PipelineReconciler.handleReadyPhase c p
    else if String.eqb phase DocumentSetPhaseFailed
         then PipelineReconciler.handleFailedPhase c p
    else PipelineReconciler.initializeStatus c p.
Proof.
  intros Hs Hd Hf. unfold PipelineReconciler.Reconcile. rewrite Hs, Hd, Hf. reflexivity.
Qed.

(** X15. A Failed pipeline is taken up again exactly when it is due: its
    spec has a new generation, or automatic retries are on and its
    status was last updated more than five minutes ago. Then it becomes
    Pending and observes the generation; otherwise nothing is written
    and it is looked at again in five minutes, so that without automatic
    retries only an edit of the spec restarts it. *)
Theorem failed_pipeline_recovery (c : PipelineCluster) (p : Pipeline) :
  let ds := PDocumentSet p in
  let r := PipelineReconciler.Reconcile c p in
  getSelf (PCluster c) = Found tt ->
  statusUpdate (PCluster c) = Ok tt ->
  DeletionTimestamp (DSMeta ds) = None ->
  ContainsFinalizer (DSMeta ds) documentSetFinalizer = true ->
  PipelineReconciler.phaseOf p = DocumentSetPhaseFailed ->
  (retryDue (clock (PCluster c)) ds ->
   PipelineReconciler.phaseOf (pStored r) = DocumentSetPhasePending
   /\ ObservedGeneration (DSStatus (PDocumentSet (pStored r))) = Generation (DSMeta ds)
   /\ PStatus (pStored r) = PStatus p
   /\ pOutcome r = Return requeueNow)
  /\ (~ retryDue (clock (PCluster c)) ds ->
      pStored r = p /\ pCalls r = []
      /\ pOutcome r = Return (requeueIn (5 * GoTime.Minute))).
Proof.
  intros ds r Hs Hu Hd Hf Hph. subst r.
  rewrite (pipeline_Reconcile_dispatch c p tt Hs Hd Hf). cbv zeta. rewrite Hph.
  change (String.eqb DocumentSetPhaseFailed "") with false.
  change (String.eqb DocumentSetPhaseFailed DocumentSetPhasePending) with false.
  change (String.eqb DocumentSetPhaseFailed DocumentSetPhaseEmbedding) with false.
  change (String.eqb DocumentSetPhaseFailed DocumentSetPhaseIndexing) with false.
  change (String.eqb DocumentSetPhaseFailed DocumentSetPhaseReady) with false.
  change (String.eqb DocumentSetPhaseFailed DocumentSetPhaseFailed) with true.
  cbv iota.
  assert (Hinit : PipelineReconciler.phaseOf (pStored (PipelineReconciler.initializeStatus c p))
                  = DocumentSetPhasePending
                  /\ ObservedGeneration
                       (DSStatus (PDocumentSet (pStored (PipelineReconciler.initializeStatus c p))))
                     = Generation (DSMeta ds)
                  /\ PStatus (pStored (PipelineReconciler.initializeStatus c p)) = PStatus p
                  /\ pOutcome (PipelineReconciler.initializeStatus c p) = Return requeueNow).
  { unfold PipelineReconciler.initializeStatus, PipelineReconciler.statusUpdateThen.
    rewrite Hu. repeat split. }
  unfold PipelineReconciler.handleFailedPhase. fold ds. unfold retryDue.
  destruct (Z.eqb_spec (Generation (DSMeta ds)) (ObservedGeneration (DSStatus ds))) as [Hg|Hg];
    cbn [negb].
  2: { split; [intros _; exact Hinit | intros Hn; exfalso; apply Hn; now left]. }
  destruct (AutoRetry (DSSpec ds)) eqn:Ha.
  2: { split; [|auto]. intros [Hn|[Hn _]]; [contradiction | discriminate]. }
  destruct (LastUpdateTime (DSStatus ds)) as [t|] eqn:Ht.
  2: { split; [|auto]. intros [Hn|[_ (t & Hn & _)]]; [contradiction | discriminate]. }
  destruct (Z.ltb_spec (5 * GoTime.Minute) (GoTime.Since (clock (PCluster c)) t)) as [Hlt|Hge].
  - split; [intros _; exact Hinit|]. intros Hn. exfalso. apply Hn. right. eauto.
  - split; [|auto]. intros [Hn|[_ (t' & Hn & Hlt)]]; [contradiction|].
    injection Hn as <-. lia.
Qed.

Lemma failed_pipeline_recovery_witness :
  let late := healthyPipelineCluster NotFound NotFound (6 * GoTime.Minute) 0 in
  let early := healthyPipelineCluster NotFound NotFound (5 * GoTime.Minute) 0 in
  PipelineReconciler.phaseOf
    (pStored (PipelineReconciler.Reconcile late (failedPipeline true 0)))
  = DocumentSetPhasePending
  /\ pStored (PipelineReconciler.Reconcile early (failedPipeline true 0))
     = failedPipeline true 0
  /\ pStored (PipelineReconciler.Reconcile late (failedPipeline false 0))
     = failedPipeline false 0.
Proof.
  intros late early.
  split; [|split].
  - apply (failed_pipeline_recovery late (failedPipeline true 0)
             eq_refl eq_refl eq_refl eq_refl eq_refl).
    right. split; [reflexivity|]. exists 0. split; [reflexivity|]. vm_compute. reflexivity.
  - apply (failed_pipeline_recovery early (failedPipeline true 0)
             eq_refl eq_refl eq_refl eq_refl eq_refl).
    intros [Hg|[_ (t & Ht & Hlt)]]; [now apply Hg|].
    injection Ht as <-. vm_compute in Hlt. discriminate.
  - apply (failed_pipeline_recovery late (failedPipeline false 0)
             eq_refl eq_refl eq_refl eq_refl eq_refl).
    intros [Hg|[Ha _]]; [now apply Hg | discriminate].
Defined.

(** X16. The collection a pipeline hands to its Embed Task is the one
    its Index Task builds on. A Pending pipeline creates an Embed Task
    for a collection named after the index collection of the spec and
    the time, and records both; when the API server later shows that
    task, under the name and namespace it was created with, as
    Succeeded, the pipeline creates an Index Task on the same
    collection, database and document set, with the alias of the spec,
    and becomes Indexing with that task as reference. *)
Theorem index_task_targets_embedded_collection
    (c1 c2 : PipelineCluster) (p : Pipeline) (child : EmbeddingJob) :
  let ds := PDocumentSet p in
  let r1 := PipelineReconciler.Reconcile c1 p in
  let r2 := PipelineReconciler.Reconcile c2 (pStored r1) in
  getSelf (PCluster c1) = Found tt ->
  getSelf (PCluster c2) = Found tt ->
  DeletionTimestamp (DSMeta ds) = None ->
  ContainsFinalizer (DSMeta ds) documentSetFinalizer = true ->
  PipelineReconciler.phaseOf p = DocumentSetPhasePending ->
  SetControllerReference (PCluster c1) = Ok tt ->
  SetControllerReference (PCluster c2) = Ok tt ->
  statusUpdate (PCluster c1) = Ok tt ->
  statusUpdate (PCluster c2) = Ok tt ->
  (forall e, createFailed (apiCreateEmbeddingJob c1 e) = false) ->
  (forall j, createFailed (apiCreateIndexJob c2 j) = false) ->
  (forall e, In (PCallCreateEmbeddingJob e) (pCalls r1) ->
             getEmbeddingJob c2 (NENamespace e) (NEName e) = Found child) ->
  EJPhase (EJStatus child) = EmbeddingJobPhaseSucceeded ->
  exists e j,
    pCalls r1 = [PCallCreateEmbeddingJob e; PCallStatusUpdate]
    /\ pCalls r2 = [PCallCreateIndexJob j; PCallStatusUpdate]
    /\ NEVectorDBCollection e
       = IndexCollection (PSpec p) ++ "_" ++ Format_compact (nowStamp c1)
    /\ NIVectorDBCollection j = NEVectorDBCollection e
    /\ NIVectorDBType j = NEVectorDBType e
    /\ NIDocumentSet j = NEDocumentSet e
    /\ NINamespace j = NENamespace e
    /\ NITargetAlias j = IndexAlias (PSpec p)
    /\ PipelineReconciler.phaseOf (pStored r2) = DocumentSetPhaseIndexing
    /\ CurrentCollection (PStatus (pStored r2)) = NEVectorDBCollection e
    /\ LastEmbeddingJobRef (PStatus (pStored r2)) = NEName e
    /\ LastIndexJobRef (PStatus (pStored r2)) = NIName j.
Proof.
  intros ds r1 r2 Hs1 Hs2 Hd Hf Hph Hr1 Hr2 Hu1 Hu2 Hce Hci Hget Hsucc.
  subst r2.
  assert (E1 : exists e,
             r1 = {| pStored :=
                       PipelineReconciler.withStatus p
                         (PipelineReconciler.withPhase (DSStatus ds) DocumentSetPhaseEmbedding
                            "EmbeddingJob created, processing documents" (clock (PCluster c1)))
                         {| DSConditions :=
                              SetStatusCondition (clock (PCluster c1)) (DSConditions (PStatus p))
                                {| CondType := ConditionTypeChunkingCompleted;
                                   CondStatus := false;
                                   Reason := "EmbeddingJobCreated";
                                   CondMessage := "Waiting for embedding job to complete";
                                   LastTransitionTime := clock (PCluster c1) |};
                            LastEmbeddingJobRef := NEName e;
                            LastIndexJobRef := LastIndexJobRef (PStatus p);
                            CurrentCollection := NEVectorDBCollection e;
                            DSTotalChunks := DSTotalChunks (PStatus p);
                            DSTotalVectors := DSTotalVectors (PStatus p) |};
                     pCalls := [PCallCreateEmbeddingJob e; PCallStatusUpdate];
                     pOutcome := Return (requeueIn requeueAfter) |}
             /\ NEVectorDBCollection e
                = IndexCollection (PSpec p) ++ "_" ++ Format_compact (nowStamp c1)
             /\ NENamespace e = Namespace (DSMeta ds)
             /\ NEDocumentSet e = Name (DSMeta ds)
             /\ NEVectorDBType e = IndexVectorDB (PSpec p)).
  { subst r1. rewrite (pipeline_Reconcile_dispatch c1 p tt Hs1 Hd Hf). cbv zeta. rewrite Hph.
    change (String.eqb DocumentSetPhasePending "") with false.
    change (String.eqb DocumentSetPhasePending DocumentSetPhasePending) with true.
    cbv iota. unfold PipelineReconciler.handlePendingPhase. rewrite Hr1. cbv zeta.
    fold ds.
    match goal with
    | |- context [apiCreateEmbeddingJob c1 ?e] =>
        pose proof (Hce e) as Hc; exists e; split; [|repeat split];
        destruct (apiCreateEmbeddingJob c1 e)
    end; try discriminate;
      unfold PipelineReconciler.statusUpdateThen; rewrite Hu1; reflexivity. }
  destruct E1 as (e & E1 & Hcoll & Hns & Hname & Hty).
  specialize (Hget e). rewrite E1 in Hget. specialize (Hget (or_introl eq_refl)).
  rewrite E1. cbn [pStored pCalls].
  set (p1 := PipelineReconciler.withStatus p _ _).
  assert (Hs : PipelineReconciler.Reconcile c2 p1 = PipelineReconciler.createIndexJob c2 p1).
  { rewrite (pipeline_Reconcile_dispatch c2 p1 tt Hs2 Hd Hf). cbv zeta.
    change (PipelineReconciler.phaseOf p1) with DocumentSetPhaseEmbedding.
    change (String.eqb DocumentSetPhaseEmbedding "") with false.
    change (String.eqb DocumentSetPhaseEmbedding DocumentSetPhasePending) with false.
    change (String.eqb DocumentSetPhaseEmbedding DocumentSetPhaseEmbedding) with true.
    cbv iota. unfold PipelineReconciler.handleEmbeddingPhase.
    change (Namespace (DSMeta (PDocumentSet p1))) with (Namespace (DSMeta ds)).
    change (LastEmbeddingJobRef (PStatus p1)) with (NEName e).
    rewrite <- Hns, Hget. cbv zeta. rewrite Hsucc. reflexivity. }
  rewrite Hs. unfold PipelineReconciler.createIndexJob. rewrite Hr2. cbv zeta.
  match goal with
  | |- context [apiCreateIndexJob c2 ?j] =>
      pose proof (Hci j) as Hc; exists e, j; destruct (apiCreateIndexJob c2 j)
  end; try discriminate;
    unfold PipelineReconciler.statusUpdateThen; rewrite Hu2;
    cbn [PipelineReconciler.pafter pStored pCalls app];
    (split; [reflexivity|]); (split; [reflexivity|]); (split; [exact Hcoll|]);
    cbn; rewrite ?Hns, ?Hname, ?Hty; repeat split.
Qed.

Lemma index_task_targets_embedded_collection_witness :
  let c1 := healthyPipelineCluster NotFound NotFound 0 0 in
  let c2 := healthyPipelineCluster (Found (embedChild EmbeddingJobPhaseSucceeded ""))
              NotFound (30 * GoTime.Second) 7 in
  let p := pipelineAfter [c1; c1] newPipeline in
  let p2 := pipelineAfter [c1; c2] p in
  PipelineReconciler.phaseOf p = DocumentSetPhasePending
  /\ PipelineReconciler.phaseOf p2 = DocumentSetPhaseIndexing
  /\ CurrentCollection (PStatus p2) = "docs_20250115100000"
  /\ LastEmbeddingJobRef (PStatus p2) = "docs-embedding-20250115100000"
  /\ LastIndexJobRef (PStatus p2) = "docs-index-20250115100007".
Proof.
  intros c1 c2 p p2.
  assert (Hp : PipelineReconciler.phaseOf p = DocumentSetPhasePending)
    by (vm_compute; reflexivity).
  destruct (index_task_targets_embedded_collection c1 c2 p
              (embedChild EmbeddingJobPhaseSucceeded "")
              eq_refl eq_refl eq_refl eq_refl Hp eq_refl eq_refl eq_refl eq_refl
              (fun _ => eq_refl) (fun _ => eq_refl) (fun _ _ => eq_refl) eq_refl)
    as (e & j & He & Hj & Hcoll & _ & _ & _ & _ & _ & Hph & Hc & Hre & Hri).
  split; [exact Hp|]. split; [exact Hph|].
  split; [vm_compute; reflexivity|]. split; vm_compute; reflexivity.
Defined.

(** [createIndexJob] leaves the pipeline as it is, or Indexing, or
    Failed. *)
Lemma pipeline_createIndexJob_phase (c : PipelineCluster) (p : Pipeline) :
  let p' := pStored (PipelineReconciler.createIndexJob c p) in
  p' = p
  \/ PipelineReconciler.phaseOf p' = DocumentSetPhaseIndexing
  \/ PipelineReconciler.phaseOf p' = DocumentSetPhaseFailed.
Proof.
  unfold PipelineReconciler.createIndexJob.
  destruct (SetControllerReference (PCluster c)); [|now left].
  cbv zeta.
  destruct (apiCreateIndexJob c _); cbn [PipelineReconciler.pafter pStored];
    unfold PipelineReconciler.updateStatusFailed, PipelineReconciler.statusUpdateThen;
    destruct (statusUpdate (PCluster c)); auto.
Qed.

Ltac stays_out Hready Hph :=
  exfalso; unfold PipelineReconciler.phaseOf in Hready, Hph; cbn in Hready;
  first [discriminate Hready | rewrite Hph in Hready; discriminate Hready].

(** X17. A pipeline becomes Ready in one way only: it was Indexing, and
    the API server showed the Index Task its status refers to as
    Succeeded. The status then takes the vector count of that task,
    observes the generation, sets the condition IndexingCompleted and
    keeps the collection. Neither an answer of the API server nor any
    other phase makes a pipeline Ready. *)
Theorem pipeline_ready_only_after_index_success (c : PipelineCluster) (p : Pipeline) :
  let ds := PDocumentSet p in
  let p' := pStored (PipelineReconciler.Reconcile c p) in
  PipelineReconciler.phaseOf p <> DocumentSetPhaseReady ->
  PipelineReconciler.phaseOf p' = DocumentSetPhaseReady ->
  PipelineReconciler.phaseOf p = DocumentSetPhaseIndexing
  /\ exists child,
       getIndexJob c (Namespace (DSMeta ds)) (LastIndexJobRef (PStatus p)) = Found child
       /\ IJPhase (IJStatus child) = IndexJobPhaseSucceeded
       /\ DSTotalVectors (PStatus p') = TotalVectors (IJProgress (IJStatus child))
       /\ ObservedGeneration (DSStatus (PDocumentSet p')) = Generation (DSMeta ds)
       /\ conditionStatus (DSConditions (PStatus p')) ConditionTypeIndexingCompleted = Some true
       /\ CurrentCollection (PStatus p') = CurrentCollection (PStatus p).
Proof.
  intros ds p' Hnot Hready. subst ds.
  assert (Hph : PipelineReconciler.phaseOf p = DocumentSetPhaseIndexing).
  { subst p'. destruct (pipeline_Reconcile_move c p) as [|fs|st rest Hm];
      [contradiction | contradiction |].
    rewrite phaseOf_withStatus in Hready.
    destruct Hm as [Hst _ _ _ _|Hst _ _ _|Hst _ _ _ _ _|Hst _ _ _ _ _
                   |Hst _ _ _ _|Hst Hp _ _ _ _];
      first [exact Hp | rewrite Hst in Hready; first [discriminate | contradiction]]. }
  split; [exact Hph|]. subst p'.
  unfold PipelineReconciler.Reconcile in *.
  destruct (getSelf (PCluster c)); try contradiction.
  destruct (negb (metav1_IsZero (DeletionTimestamp (DSMeta (PDocumentSet p))))).
  { unfold PipelineReconciler.handleDeletion in Hready.
    destruct (update (PCluster c)); contradiction. }
  destruct (negb (ContainsFinalizer _ _)).
  { destruct (update (PCluster c)); contradiction. }
  cbv zeta in *. fold (PipelineReconciler.phaseOf p) in *. rewrite Hph in *.
  change (String.eqb DocumentSetPhaseIndexing "") with false in *.
  change (String.eqb DocumentSetPhaseIndexing DocumentSetPhasePending) with false in *.
  change (String.eqb DocumentSetPhaseIndexing DocumentSetPhaseEmbedding) with false in *.
  change (String.eqb DocumentSetPhaseIndexing DocumentSetPhaseIndexing) with true in *.
  cbv iota in *.
  unfold PipelineReconciler.handleIndexingPhase in *.
  destruct (getIndexJob c (Namespace (DSMeta (PDocumentSet p))) (LastIndexJobRef (PStatus p)))
    as [child| |e].
  - exists child. split; [reflexivity|]. cbv zeta in *.
    destruct (String.eqb_spec (IJPhase (IJStatus child)) IndexJobPhaseSucceeded) as [Hs|Hs].
    + split; [exact Hs|].
      unfold PipelineReconciler.updateStatusReady, PipelineReconciler.statusUpdateThen in *.
      destruct (statusUpdate (PCluster c)); [|stays_out Hready Hph].
      cbn [pStored PipelineReconciler.withStatus PStatus DSTotalVectors DSConditions
             CurrentCollection PDocumentSet DocumentSetReconciler.withStatus DSStatus
             PipelineReconciler.withObserved ObservedGeneration].
      repeat split. apply conditionStatus_set.
    + destruct (String.eqb (IJPhase (IJStatus child)) IndexJobPhaseFailed).
      { unfold PipelineReconciler.updateStatusFailed, PipelineReconciler.statusUpdateThen
          in Hready.
        destruct (statusUpdate (PCluster c)); stays_out Hready Hph. }
      destruct (_ || _); [|stays_out Hready Hph].
      unfold PipelineReconciler.statusUpdateThen in Hready.
      destruct (statusUpdate (PCluster c)); stays_out Hready Hph.
  - destruct (pipeline_createIndexJob_phase c p) as [Hk|[Hk|Hk]];
      rewrite Hk in Hready; stays_out Hready Hph.
  - stays_out Hready Hph.
Qed.

Lemma pipeline_ready_only_after_index_success_witness :
  let c1 := healthyPipelineCluster NotFound NotFound 0 0 in
  let c2 := healthyPipelineCluster (Found (embedChild EmbeddingJobPhaseSucceeded ""))
              NotFound (30 * GoTime.Second) 7 in
  let c3 := healthyPipelineCluster (Found (embedChild EmbeddingJobPhaseSucceeded ""))
              (Found (indexChild IndexJobPhaseSucceeded "" 42)) GoTime.Minute 30 in
  let p := pipelineAfter [c1; c1; c1; c2] newPipeline in
  let p' := pStored (PipelineReconciler.Reconcile c3 p) in
  PipelineReconciler.phaseOf p = DocumentSetPhaseIndexing
  /\ PipelineReconciler.phaseOf p' = DocumentSetPhaseReady
  /\ DSTotalVectors (PStatus p') = 42.
Proof.
  intros c1 c2 c3 p p'.
  assert (Hnot : PipelineReconciler.phaseOf p <> DocumentSetPhaseReady)
    by (vm_compute; discriminate).
  assert (Hready : PipelineReconciler.phaseOf p' = DocumentSetPhaseReady)
    by (vm_compute; reflexivity).
  destruct (pipeline_ready_only_after_index_success c3 p Hnot Hready)
    as (Hph & _).
  split; [exact Hph|]. split; [exact Hready|].
  vm_compute. reflexivity.
Defined.

(** ** The source watcher: errors, volumes, intervals *)

(** X18. [CheckSourceChanges] turns bad input into an error before it
    looks at any source: a secret that is named but cannot be read fails
    the check, whatever the source type; with the secret at hand, a
    source type other than s3, http, git and pvc is refused, and so is
    an S3 source whose URI does not begin with [s3://] and a PVC source
    whose URI does not begin with [pvc://]. Each error carries the
    cause. *)
Theorem CheckSourceChanges_rejects_bad_input (filepath_Join : list string -> string)
    (w : World) (ds : DocumentSet) :
  let src := Source (DSSpec ds) in
  (forall ref e,
      SecretRef src = Some ref ->
      getSecret w (Namespace (DSMeta ds)) (SecretName ref) = Err e ->
      CheckSourceChanges filepath_Join w ds = Err ("failed to get source secret: " ++ e))
  /\ (secretReadable w ds ->
      knownSourceType (SourceType src) = false ->
      CheckSourceChanges filepath_Join w ds
      = Err ("unsupported source type: " ++ SourceType src))
  /\ (secretReadable w ds ->
      SourceType src = SourceTypeS3 ->
      GoStrings.HasPrefix (URI src) "s3://" = false ->
      CheckSourceChanges filepath_Join w ds = Err ("invalid S3 URI: " ++ URI src))
  /\ (secretReadable w ds ->
      SourceType src = SourceTypePVC ->
      GoStrings.HasPrefix (URI src) "pvc://" = false ->
      CheckSourceChanges filepath_Join w ds = Err ("invalid PVC URI: " ++ URI src)).
Proof.
  cbv zeta. unfold CheckSourceChanges, secretReadable, knownSourceType.
  split; [|split; [|split]].
  - intros ref e Href Hget. rewrite Href, Hget. reflexivity.
  - intros Hsec Hty.
    apply orb_false_iff in Hty as [Hty Hpvc]. apply orb_false_iff in Hty as [Hty Hgit].
    apply orb_false_iff in Hty as [Hs3 Hhttp].
    destruct (SecretRef (Source (DSSpec ds))) as [ref|].
    + specialize (Hsec ref eq_refl).
      destruct (getSecret w _ _); [|discriminate].
      now rewrite Hs3, Hhttp, Hgit, Hpvc.
    + now rewrite Hs3, Hhttp, Hgit, Hpvc.
  - intros Hsec Hty Hpre. rewrite Hty. cbn [String.eqb Ascii.eqb Bool.eqb SourceTypeS3].
    change (String.eqb SourceTypeS3 SourceTypeS3) with true. cbv iota.
    unfold checkS3Source. rewrite Hpre.
    destruct (SecretRef (Source (DSSpec ds))) as [ref|]; [|reflexivity].
    specialize (Hsec ref eq_refl). destruct (getSecret w _ _); [reflexivity | discriminate].
  - intros Hsec Hty Hpre. rewrite Hty.
    change (String.eqb SourceTypePVC SourceTypeS3) with false.
    change (String.eqb SourceTypePVC SourceTypeHTTP) with false.
    change (String.eqb SourceTypePVC SourceTypeGit) with false.
    change (String.eqb SourceTypePVC SourceTypePVC) with true. cbv iota.
    unfold checkPVCSource. rewrite Hpre.
    destruct (SecretRef (Source (DSSpec ds))) as [ref|]; [|reflexivity].
    specialize (Hsec ref eq_refl). destruct (getSecret w _ _); [reflexivity | discriminate].
Qed.

Lemma CheckSourceChanges_rejects_bad_input_witness :
  CheckSourceChanges filepath_Join_clean (lockedWorld "secrets is forbidden")
    (securedPipeline SourceTypeS3 "s3://company-docs/manuals/" "s3-credentials")
  = Err "failed to get source secret: secrets is forbidden"
  /\ CheckSourceChanges filepath_Join_clean quietWorld
       (mkPipeline "ftp" "ftp://files/docs" None DocumentSetPhaseReady "" None None)
     = Err "unsupported source type: ftp"
  /\ CheckSourceChanges filepath_Join_clean quietWorld
       (mkPipeline SourceTypeS3 "https://company-docs/manuals/" None DocumentSetPhaseReady
          "" None None)
     = Err "invalid S3 URI: https://company-docs/manuals/"
  /\ CheckSourceChanges filepath_Join_clean quietWorld
       (mkPipeline SourceTypePVC "/mnt/docs" None DocumentSetPhaseReady "" None None)
     = Err "invalid PVC URI: /mnt/docs".
Proof.
  split; [|split; [|split]].
  - apply (proj1 (CheckSourceChanges_rejects_bad_input filepath_Join_clean
                    (lockedWorld "secrets is forbidden")
                    (securedPipeline SourceTypeS3 "s3://company-docs/manuals/" "s3-credentials"))
             {| SecretName := "s3-credentials" |} "secrets is forbidden" eq_refl eq_refl).
  - apply (proj1 (proj2 (CheckSourceChanges_rejects_bad_input filepath_Join_clean quietWorld
             (mkPipeline "ftp" "ftp://files/docs" None DocumentSetPhaseReady "" None None))));
      [intros ref Href; discriminate Href | reflexivity].
  - apply (proj1 (proj2 (proj2 (CheckSourceChanges_rejects_bad_input filepath_Join_clean
             quietWorld
             (mkPipeline SourceTypeS3 "https://company-docs/manuals/" None DocumentSetPhaseReady
                "" None None)))));
      [intros ref Href; discriminate Href | reflexivity | reflexivity].
  - apply (proj2 (proj2 (proj2 (CheckSourceChanges_rejects_bad_input filepath_Join_clean
             quietWorld
             (mkPipeline SourceTypePVC "/mnt/docs" None DocumentSetPhaseReady "" None None)))));
      [intros ref Href; discriminate Href | reflexivity | reflexivity].
Defined.

(** The bucket and the prefix of [s3://bucket/prefix]. *)
Lemma s3_uri_parts (bucket prefix : string) :
  absent "/"%char bucket ->
  GoStrings.SplitN2
    (GoStrings.TrimPrefix ("s3://" ++ bucket ++ String "/"%char prefix) "s3://") "/"%char
  = [bucket; prefix].
Proof. intros Habs. now rewrite TrimPrefix_append, SplitN2_first. Qed.

(** X19. An S3 check that cannot complete its listing is an error, not
    a digest of what was listed so far. For a source [s3://bucket/prefix]
    the watcher asks for the objects of the bucket under the prefix
    (cut at the first slash) with the options of the secret; when the
    configuration cannot be loaded the check fails with that cause, and
    when a page of the listing fails, after any number of pages that
    were listed, the check fails with the error of that page. *)
Theorem s3_failed_listing_fails_the_check (w : World) (ds : DocumentSet)
    (secretData : option (gmap string string)) (bucket prefix e : string)
    (pages : list (list S3Object)) (rest : list (result (list S3Object))) :
  URI (Source (DSSpec ds)) = "s3://" ++ bucket ++ String "/"%char prefix ->
  absent "/"%char bucket ->
  (awsLoadDefaultConfig w (s3Options secretData) = Err e ->
   checkS3Source w ds secretData = Err ("failed to load AWS config: " ++ e))
  /\ (awsLoadDefaultConfig w (s3Options secretData) = Ok tt ->
      s3ListPages w (s3Options secretData) bucket prefix
      = (List.map Ok pages ++ Err e :: rest)%list ->
      checkS3Source w ds secretData = Err ("failed to list S3 objects: " ++ e)).
Proof.
  intros Huri Habs. unfold checkS3Source. rewrite Huri, HasPrefix_append.
  cbn [negb]. cbv zeta. rewrite (s3_uri_parts bucket prefix Habs).
  change (1 <? len [bucket; prefix]) with true. cbn [List.nth]. cbv iota.
  split.
  - intros Hcfg. now rewrite Hcfg.
  - intros Hcfg Hpages. now rewrite Hcfg, Hpages, s3Paginate_error.
Qed.

Lemma s3_failed_listing_fails_the_check_witness :
  let w := bucketWorld [Ok [mkObject "manuals/a.pdf" "x" 10]; Err "SlowDown"] 0 in
  let ds := mkPipeline SourceTypeS3 "s3://company-docs/manuals/" None DocumentSetPhaseReady
              "" None None in
  checkS3Source w ds None = Err "failed to list S3 objects: SlowDown".
Proof.
  intros w ds.
  apply (proj2 (s3_failed_listing_fails_the_check w ds None "company-docs" "manuals/"
                  "SlowDown" [[mkObject "manuals/a.pdf" "x" 10]] []
                  eq_refl ltac:(cbn; repeat split; discriminate))
           eq_refl eq_refl).
Defined.

(** X20. A PVC check whose walk meets an error is an error as well: for
    a source [pvc://name/sub] whose mount path exists, or cannot be
    examined for another reason than its absence, the files walked
    before the error are dropped and the check fails with the error
    handed to the walk function. *)
Theorem pvc_failed_walk_fails_the_check (filepath_Join : list string -> string)
    (w : World) (ds : DocumentSet) (name sub e : string)
    (walked rest : list walkEntry) :
  let basePath := filepath_Join ["/mnt/pvc"; name; sub] in
  URI (Source (DSSpec ds)) = "pvc://" ++ name ++ String "/"%char sub ->
  absent "/"%char name ->
  osStat w basePath <> StatNotExist ->
  List.forallb (fun x => negb (walkFails x)) walked = true ->
  fsWalk w basePath = (walked ++ WalkError e :: rest)%list ->
  checkPVCSource filepath_Join w ds = Err ("failed to walk PVC directory: " ++ e).
Proof.
  intros basePath Huri Habs Hstat Hwalked Hwalk. unfold checkPVCSource.
  rewrite Huri, HasPrefix_append, (parsePVCURI_subPath name sub Habs).
  cbn [negb]. fold basePath. rewrite Hwalk.
  assert (Hw : forall acc, pvcWalk (walked ++ WalkError e :: rest) acc = Err e).
  { clear Hwalk. induction walked as [|x walked IH]; intros acc; [reflexivity|].
    cbn in Hwalked. apply andb_true_iff in Hwalked as [Hx Hwalked].
    destruct x; cbn in Hx; [discriminate| |]; cbn; now apply IH. }
  rewrite Hw. destruct (osStat w basePath); [reflexivity | contradiction | reflexivity].
Qed.

Lemma pvc_failed_walk_fails_the_check_witness :
  let w := volumeWorld [WalkDir; WalkFile "a.md" 120 0 (Ok "0cc1");
                        WalkError "permission denied"] in
  checkPVCSource filepath_Join_clean w (pvcPipeline "")
  = Err "failed to walk PVC directory: permission denied".
Proof.
  intros w.
  apply (pvc_failed_walk_fails_the_check filepath_Join_clean w (pvcPipeline "")
           "docs-volume" "manuals/en" "permission denied"
           [WalkDir; WalkFile "a.md" 120 0 (Ok "0cc1")] []
           eq_refl ltac:(cbn; repeat split; discriminate)
           ltac:(discriminate) eq_refl eq_refl).
Defined.

(** What a walk leaves in the total size and in the latest modification
    instant. *)
Lemma pvcWalk_totals (entries : list walkEntry) (acc l : pvcListing) :
  pvcWalk entries acc = Ok l ->
  wrap64 (pvcTotalSize l) = wrap64 (pvcTotalSize acc + walkSize entries)
  /\ (wrap64 (pvcTotalSize acc) = pvcTotalSize acc -> wrap64 (pvcTotalSize l) = pvcTotalSize l)
  /\ (GoTime.zeroTime <= latestModTime acc ->
      latestModTime l = Z.max (latestModTime acc) (walkLatest entries)).
Proof.
  revert acc. induction entries as [|x entries IH]; intros acc Hl.
  - injection Hl as <-. cbn [walkSize walkLatest]. rewrite Z.add_0_r.
    repeat split; auto. intros Hz. lia.
  - destruct x as [msg| |relPath size modTime md5]; [discriminate| |].
    + cbn [walkSize walkLatest]. now apply IH.
    + cbn [pvcWalk] in Hl. apply IH in Hl as (Hs & Hw & Hm).
      cbn [pvcVisit pvcTotalSize latestModTime] in Hs, Hw, Hm. cbn [walkSize walkLatest].
      split; [|split].
      * rewrite Hs, wrap64_idem_add. f_equal. ring.
      * intros _. apply Hw. apply wrap64_idem.
      * intros Hz.
        destruct (Z.ltb_spec (latestModTime acc) modTime); rewrite Hm; lia.
Qed.

(** X21. The digest of a mounted volume. For a PVC source whose mount
    path is there and whose walk meets no error, the check succeeds; its
    metadata count the regular files of the walk (directories are passed
    over), add up their sizes in int64, hold the latest of their
    modification instants and record for each path its hash: the MD5 of
    the content for a readable file under 10 MiB, the modification time
    in seconds and the size joined by a dash otherwise. The digest is
    the SHA-256 of the paths in sorted order, each followed by its
    hash. *)
Theorem pvc_walk_digest (filepath_Join : list string -> string)
    (w : World) (ds : DocumentSet) (entries : list walkEntry) :
  let uri := URI (Source (DSSpec ds)) in
  let basePath := filepath_Join ["/mnt/pvc"; fst (parsePVCURI uri); snd (parsePVCURI uri)] in
  let files := walkFiles entries in
  GoStrings.HasPrefix uri "pvc://" = true ->
  osStat w basePath <> StatNotExist ->
  fsWalk w basePath = entries ->
  List.forallb (fun x => negb (walkFails x)) entries = true ->
  exists r md hashes,
    checkPVCSource filepath_Join w ds = Ok r
    /\ NewMetadata r = Some md
    /\ FileHashes md = Some hashes
    /\ hashes = list_to_map (List.rev files)
    /\ (NoDup (List.map fst files) ->
        forall f h, In (f, h) files -> hashes !! f = Some h)
    /\ FileCount md = len files
    /\ TotalSize md = wrap64 (walkSize entries)
    /\ LastModifiedTime md = Some (walkLatest entries)
    /\ StronglySorted String.le (sort_Strings (List.map fst files))
    /\ sort_Strings (List.map fst files) ≡ₚ List.map fst files
    /\ NewHash r
       = SHA256.hex (GoStrings.concat_all
                       (List.map (keyed hashes) (sort_Strings (List.map fst files)))).
Proof.
  intros uri basePath files Hpre Hstat Hwalk Hok. unfold checkPVCSource.
  fold uri. rewrite Hpre. cbn [negb].
  destruct (parsePVCURI uri) as [pvcName subPath] eqn:Huri.
  cbn [fst snd] in basePath. fold basePath. rewrite Hwalk.
  destruct (pvcWalk_files entries pvcEmpty Hok) as (l & Hl & Hf & Hh).
  destruct (pvcWalk_totals entries pvcEmpty l Hl) as (Hs & Hw & Hm).
  cbn [pvcEmpty pvcFiles pvcHashes pvcTotalSize latestModTime app] in Hf, Hh, Hs, Hw, Hm.
  rewrite (right_id_L ∅ (∪)) in Hh. fold files in Hf, Hh.
  rewrite Hl.
  exists (pvcDigest ds l). eexists. exists (pvcHashes l).
  split; [destruct (osStat w basePath); [reflexivity | contradiction | reflexivity]|].
  unfold pvcDigest.
  rewrite compareWithPrevious_NewMetadata, compareWithPrevious_NewHash.
  cbn [NewMetadata NewHash newResult].
  split; [reflexivity|].
  cbn [FileHashes FileCount TotalSize LastModifiedTime].
  split; [reflexivity|]. split; [exact Hh|].
  split.
  { intros Hnd f h Hin. rewrite Hh. now apply list_to_map_rev_lookup. }
  split; [rewrite Hf; unfold len; now rewrite List.length_map|].
  split; [rewrite <- Hw by reflexivity; rewrite Hs; reflexivity|].
  split.
  { rewrite Hm by (vm_compute; discriminate). f_equal.
    assert (Hz : forall es, GoTime.zeroTime <= walkLatest es).
    { induction es as [|[| |] es IH]; cbn [walkLatest]; lia. }
    specialize (Hz entries). lia. }
  rewrite Hf.
  split; [apply sort_Strings_sorted|].
  split; [apply sort_Strings_Permutation|].
  apply combinedHash_concat.
Qed.

Lemma pvc_walk_digest_witness :
  let entries := [WalkDir; WalkFile "b.md" 120 (7 * GoTime.Second) (Ok "0cc1");
                  WalkFile "a.bin" hashLimit (3 * GoTime.Second) (Ok "9f7e")] in
  exists r md,
    checkPVCSource filepath_Join_clean (volumeWorld entries) (pvcPipeline "") = Ok r
    /\ NewMetadata r = Some md
    /\ FileHashes md = Some (<["b.md" := "0cc1"]> (<["a.bin" := "3-10485760"]> ∅))
    /\ FileCount md = 2
    /\ TotalSize md = 120 + hashLimit
    /\ LastModifiedTime md = Some (7 * GoTime.Second)
    /\ NewHash r = SHA256.hex "a.bin3-10485760b.md0cc1".
Proof.
  intros entries.
  destruct (pvc_walk_digest filepath_Join_clean (volumeWorld entries) (pvcPipeline "") entries
              eq_refl ltac:(discriminate) eq_refl eq_refl)
    as (r & md & hashes & Hr & Hmd & Hfh & Hh & _ & Hc & Hs & Hm & _ & _ & Hn).
  exists r, md.
  split; [exact Hr|]. split; [exact Hmd|].
  split; [rewrite Hfh, Hh; f_equal; vm_compute; reflexivity|].
  split; [rewrite Hc; reflexivity|].
  split; [rewrite Hs; vm_compute; reflexivity|].
  split; [rewrite Hm; vm_compute; reflexivity|].
  rewrite Hn, Hh. f_equal.
Defined.

Lemma pvcWalk_sameStat (entries1 entries2 : list walkEntry) :
  Forall2 sameStat entries1 entries2 ->
  forall acc, pvcWalk entries1 acc = pvcWalk entries2 acc.
Proof.
  induction 1 as [|x y l1 l2 Hxy _ IH]; intros acc; [reflexivity|].
  destruct Hxy as [e|relPath size modTime md5 md5' Hbig|relPath size modTime e e'].
  - destruct e; cbn; auto.
  - cbn [pvcWalk]. unfold pvcVisit.
    destruct (Z.ltb_spec size hashLimit); [lia | apply IH].
  - cbn [pvcWalk]. unfold pvcVisit. apply IH.
Qed.

(** X22. The content of a file of 10 MiB or more, and of a file that
    cannot be read, has no part in the check of a volume: two volumes
    that differ only in the content of such files, sizes and
    modification instants being the same, get the same answer, so that
    a change of such a file that keeps its size and its modification
    time to the second is not detected. *)
Theorem pvc_unhashed_content_is_not_checked (filepath_Join : list string -> string)
    (w1 w2 : World) (ds : DocumentSet) :
  (forall path, osStat w1 path = osStat w2 path) ->
  (forall path, Forall2 sameStat (fsWalk w1 path) (fsWalk w2 path)) ->
  checkPVCSource filepath_Join w1 ds = checkPVCSource filepath_Join w2 ds.
Proof.
  intros Hstat Hwalk. unfold checkPVCSource.
  destruct (negb _); [reflexivity|].
  destruct (parsePVCURI _) as [pvcName subPath].
  rewrite Hstat, (pvcWalk_sameStat _ _ (Hwalk _)). reflexivity.
Qed.

Lemma pvc_unhashed_content_is_not_checked_witness :
  let before := volumeWorld [WalkFile "model.bin" (2 * hashLimit) 0 (Ok "0cc1")] in
  let after := volumeWorld [WalkFile "model.bin" (2 * hashLimit) 0 (Ok "9f7e")] in
  checkPVCSource filepath_Join_clean before (pvcPipeline "")
  = checkPVCSource filepath_Join_clean after (pvcPipeline "").
Proof.
  intros before after.
  apply (pvc_unhashed_content_is_not_checked filepath_Join_clean before after (pvcPipeline "")).
  - intros path. reflexivity.
  - intros path. constructor; [|constructor].
    apply sameStat_large. vm_compute. discriminate.
Defined.

(** *** A check against its own result *)

Lemma length_substring_prefix (n : nat) (s : string) :
  (n <= String.length s)%nat -> String.length (String.substring 0 n s) = n.
Proof.
  revert s. induction n as [|n IH]; intros s Hn.
  - destruct s; reflexivity.
  - destruct s as [|c s]; cbn in Hn; [lia|]. cbn. rewrite IH; [reflexivity | lia].
Qed.

Lemma commit_nonempty (s : string) : GoStrings.slice_to (SHA256.hex s) 12 <> "".
Proof.
  intros H. apply (f_equal String.length) in H. unfold GoStrings.slice_to in H.
  rewrite length_substring_prefix in H by (rewrite length_hex; lia). discriminate.
Qed.

(** The comparison of a listing with the state its own result left. *)
Lemma compareWithPrevious_recorded ds files hashes md count :
  let res := newResult (combinedHash files hashes) md in
  let r := compareWithPrevious ds res hashes count in
  NewHash r = combinedHash files hashes
  /\ NewMetadata r = Some md
  /\ compareWithPrevious (withSourceState ds r) res hashes count = res.
Proof.
  cbv zeta. rewrite compareWithPrevious_NewHash, compareWithPrevious_NewMetadata.
  cbn [NewHash NewMetadata newResult]. split; [reflexivity|]. split; [reflexivity|].
  apply compareWithPrevious_same; cbn [withSourceState DSStatus LastSourceHash];
    rewrite compareWithPrevious_NewHash; cbn [NewHash newResult];
    [apply combinedHash_nonempty | reflexivity].
Qed.

Lemma checkS3Source_recorded w ds secretData r :
  checkS3Source w ds secretData = Ok r ->
  exists s md,
    NewHash r = SHA256.hex s /\ NewMetadata r = Some md /\ GitCommitHash md = ""
    /\ checkS3Source w (withSourceState ds r) secretData = Ok (newResult (NewHash r) md).
Proof.
  unfold checkS3Source. cbn [withSourceState DSSpec].
  destruct (negb _); [discriminate|]. cbv zeta.
  destruct (awsLoadDefaultConfig w _); [|discriminate].
  destruct (s3Paginate _ _) as [l|]; [|discriminate].
  intros H. injection H as <-. unfold s3Digest.
  match goal with
  | |- context [compareWithPrevious ds (newResult (combinedHash ?f ?h) ?md) ?h ?c] =>
      destruct (compareWithPrevious_recorded ds f h md c) as (Hh & Hm & Hsame);
      exists (GoStrings.concat_all (List.map (keyed h) f)), md
  end.
  cbv zeta in Hsame. fold (withSourceState ds (s3Digest ds l)) in Hsame |- *.
  rewrite Hh, Hm. split; [apply combinedHash_concat|]. split; [reflexivity|].
  split; [reflexivity|]. f_equal. exact Hsame.
Qed.

Lemma checkHTTPSource_recorded w ds secretData r :
  checkHTTPSource w ds secretData = Ok r ->
  exists s md,
    NewHash r = SHA256.hex s /\ NewMetadata r = Some md /\ GitCommitHash md = ""
    /\ checkHTTPSource w (withSourceState ds r) secretData = Ok (newResult (NewHash r) md).
Proof.
  unfold checkHTTPSource. cbn [withSourceState DSSpec]. cbv zeta.
  destruct (httpNewRequest w _ _); [|discriminate].
  destruct (httpDo w _ _) as [resp|]; [|discriminate].
  destruct (negb _); [discriminate|].
  intros H. injection H as <-.
  unfold httpDigest. cbv zeta. cbn [DSStatus LastSourceHash].
  unfold SHA256.SumHex.
  set (h := SHA256.hex _). set (md := Build_SourceMetadata _ _ _ _ _ _ _).
  assert (Hh : h <> "") by apply hex_nonempty.
  assert (Hr : forall b1 b2 : bool,
             NewHash (if b1 then set_FilesChanged (set_Changed (newResult h md) true) 1
                      else if b2 then set_FilesAdded (set_Changed (newResult h md) true) 1
                      else newResult h md) = h)
    by (intros [] []; reflexivity).
  assert (Hm : forall b1 b2 : bool,
             NewMetadata (if b1 then set_FilesChanged (set_Changed (newResult h md) true) 1
                          else if b2 then set_FilesAdded (set_Changed (newResult h md) true) 1
                          else newResult h md) = Some md)
    by (intros [] []; reflexivity).
  eexists. exists md. rewrite !Hr, !Hm.
  split; [reflexivity|]. split; [reflexivity|]. split; [reflexivity|].
  cbn [withSourceState DSStatus LastSourceHash]. rewrite !Hr.
  rewrite String.eqb_refl. apply String.eqb_neq in Hh. rewrite Hh. reflexivity.
Qed.

Lemma checkGitSource_recorded w ds secretData r :
  checkGitSource w ds secretData = Ok r ->
  exists s md,
    NewHash r = SHA256.hex s /\ NewMetadata r = Some md
    /\ GitCommitHash md = GoStrings.slice_to (NewHash r) 12
    /\ checkGitSource w (withSourceState ds r) secretData = Ok (newResult (NewHash r) md).
Proof.
  unfold checkGitSource. cbn [withSourceState DSSpec DSStatus LastSourceHash DSSourceMetadata].
  destruct (parseGitURI _) as [uri branch]. unfold SHA256.SumHex.
  set (h := SHA256.hex _). set (md := Build_SourceMetadata _ _ _ _ _ _ _).
  intros H. injection H as <-.
  assert (Hh : NewHash
                 match DSSourceMetadata (DSStatus ds) with
                 | Some md0 =>
                     if negb (String.eqb (GitCommitHash md0) "") then
                       if negb (String.eqb (GitCommitHash md0) (GoStrings.slice_to h 12))
                       then set_Changed (newResult h md) true else newResult h md
                     else if String.eqb (LastSourceHash (DSStatus ds)) ""
                          then set_Changed (newResult h md) true else newResult h md
                 | None => if String.eqb (LastSourceHash (DSStatus ds)) ""
                           then set_Changed (newResult h md) true else newResult h md
                 end = h
               /\ NewMetadata
                    match DSSourceMetadata (DSStatus ds) with
                    | Some md0 =>
                        if negb (String.eqb (GitCommitHash md0) "") then
                          if negb (String.eqb (GitCommitHash md0) (GoStrings.slice_to h 12))
                          then set_Changed (newResult h md) true else newResult h md
                        else if String.eqb (LastSourceHash (DSStatus ds)) ""
                             then set_Changed (newResult h md) true else newResult h md
                    | None => if String.eqb (LastSourceHash (DSStatus ds)) ""
                              then set_Changed (newResult h md) true else newResult h md
                    end = Some md).
  { destruct (DSSourceMetadata (DSStatus ds)) as [md0|];
      [destruct (negb (String.eqb (GitCommitHash md0) ""));
       [destruct (negb (String.eqb (GitCommitHash md0) _))|]|];
      destruct (String.eqb (LastSourceHash (DSStatus ds)) ""); split; reflexivity. }
  destruct Hh as [Hh Hm].
  eexists. exists md. rewrite Hh, Hm.
  split; [reflexivity|]. split; [reflexivity|]. split; [reflexivity|].
  subst md. cbn [GitCommitHash].
  assert (Hc : String.eqb (GoStrings.slice_to h 12) "" = false)
    by (apply String.eqb_neq, commit_nonempty).
  rewrite Hc, String.eqb_refl. reflexivity.
Qed.

Lemma checkPVCSource_recorded filepath_Join w ds r :
  checkPVCSource filepath_Join w ds = Ok r ->
  exists s md,
    NewHash r = SHA256.hex s /\ NewMetadata r = Some md /\ GitCommitHash md = ""
    /\ checkPVCSource filepath_Join w (withSourceState ds r) = Ok (newResult (NewHash r) md).
Proof.
  unfold checkPVCSource. cbn [withSourceState DSSpec].
  destruct (negb _); [discriminate|].
  destruct (parsePVCURI _) as [pvcName subPath].
  assert (Hun : forall r, pvcUnmounted ds pvcName subPath = r ->
            exists s md,
              NewHash r = SHA256.hex s /\ NewMetadata r = Some md /\ GitCommitHash md = ""
              /\ pvcUnmounted (withSourceState ds r) pvcName subPath
                 = newResult (NewHash r) md).
  { intros r0 <-. unfold pvcUnmounted. cbn [withSourceState DSStatus LastSourceHash].
    unfold SHA256.SumHex. set (h := SHA256.hex _).
    assert (Hh : String.eqb h "" = false) by apply String.eqb_neq, hex_nonempty.
    eexists. eexists.
    destruct (String.eqb (LastSourceHash (DSStatus ds)) "");
      cbn [NewHash NewMetadata newResult set_Changed]; rewrite Hh;
      (split; [reflexivity|]); (split; [reflexivity|]); split; reflexivity. }
  assert (Hwalked : forall r,
            match pvcWalk (fsWalk w (filepath_Join ["/mnt/pvc"; pvcName; subPath])) pvcEmpty with
            | Ok l => Ok (pvcDigest ds l)
            | Err e => Err ("failed to walk PVC directory: " ++ e)
            end = Ok r ->
            exists s md,
              NewHash r = SHA256.hex s /\ NewMetadata r = Some md /\ GitCommitHash md = ""
              /\ match pvcWalk (fsWalk w (filepath_Join ["/mnt/pvc"; pvcName; subPath]))
                         pvcEmpty with
                 | Ok l => Ok (pvcDigest (withSourceState ds r) l)
                 | Err e => Err ("failed to walk PVC directory: " ++ e)
                 end = Ok (newResult (NewHash r) md)).
  { intros r0. destruct (pvcWalk _ _) as [l|]; [|discriminate].
    intros H. injection H as <-. unfold pvcDigest.
    match goal with
    | |- context [compareWithPrevious ds (newResult (combinedHash ?f ?h) ?md) ?h ?c] =>
        destruct (compareWithPrevious_recorded ds f h md c) as (Hh & Hm & Hsame);
        exists (GoStrings.concat_all (List.map (keyed h) f)), md
    end.
    cbv zeta in Hsame.
    rewrite Hh, Hm. split; [apply combinedHash_concat|]. split; [reflexivity|].
    split; [reflexivity|]. f_equal. exact Hsame. }
  destruct (osStat w _).
  - apply Hwalked.
  - intros H. injection H as H. destruct (Hun r H) as (s & md & H1 & H2 & H3 & H4).
    exists s, md. repeat split; auto. now rewrite H4.
  - apply Hwalked.
Qed.

(** A successful check: the digest is a SHA-256 in hexadecimal, there
    are metadata, and the same check against the state the result
    leaves answers with that digest and those metadata and nothing
    else. *)
Lemma CheckSourceChanges_recorded filepath_Join w ds r :
  CheckSourceChanges filepath_Join w ds = Ok r ->
  exists s md,
    NewHash r = SHA256.hex s /\ NewMetadata r = Some md
    /\ (GitCommitHash md = ""
        \/ SourceType (Source (DSSpec ds)) = SourceTypeGit
           /\ GitCommitHash md = GoStrings.slice_to (NewHash r) 12)
    /\ CheckSourceChanges filepath_Join w (withSourceState ds r)
       = Ok (newResult (NewHash r) md).
Proof.
  unfold CheckSourceChanges. cbn [withSourceState DSSpec DSMeta].
  fold (withSourceState ds r).
  destruct (match SecretRef (Source (DSSpec ds)) with
            | Some ref =>
                match getSecret w (Namespace (DSMeta ds)) (SecretName ref) with
                | Ok data => Ok data
                | Err e => Err ("failed to get source secret: " ++ e)
                end
            | None => Ok None
            end) as [secretData|]; [|discriminate].
  destruct (String.eqb (SourceType (Source (DSSpec ds))) SourceTypeS3).
  { intros H. destruct (checkS3Source_recorded _ _ _ _ H) as (s & md & H1 & H2 & H3 & H4).
    exists s, md. auto. }
  destruct (String.eqb (SourceType (Source (DSSpec ds))) SourceTypeHTTP).
  { intros H. destruct (checkHTTPSource_recorded _ _ _ _ H) as (s & md & H1 & H2 & H3 & H4).
    exists s, md. auto. }
  destruct (String.eqb_spec (SourceType (Source (DSSpec ds))) SourceTypeGit) as [Hgit|_].
  { intros H. destruct (checkGitSource_recorded _ _ _ _ H) as (s & md & H1 & H2 & H3 & H4).
    exists s, md. auto 6. }
  destruct (String.eqb (SourceType (Source (DSSpec ds))) SourceTypePVC); [|discriminate].
  intros H. destruct (checkPVCSource_recorded _ _ _ _ H) as (s & md & H1 & H2 & H3 & H4).
  exists s, md. auto.
Qed.

(** X23. A check against the state its own result left reports no
    change. For every source type and every world: when a check
    succeeds and its digest and metadata are put in the status of the
    pipeline, the same check of the same world succeeds again with the
    same digest and metadata, changed false, no file counted and no
    file listed. *)
Theorem recorded_check_reports_no_change (filepath_Join : list string -> string)
    (w : World) (ds : DocumentSet) (r : SourceChangeResult) :
  CheckSourceChanges filepath_Join w ds = Ok r ->
  exists r',
    CheckSourceChanges filepath_Join w (withSourceState ds r) = Ok r'
    /\ Changed r' = false
    /\ NewHash r' = NewHash r
    /\ NewMetadata r' = NewMetadata r
    /\ FilesAdded r' = 0 /\ FilesChanged r' = 0 /\ FilesDeleted r' = 0
    /\ AddedFiles r' = [] /\ ChangedFiles r' = [] /\ DeletedFiles r' = [].
Proof.
  intros H. destruct (CheckSourceChanges_recorded _ _ _ _ H) as (s & md & _ & Hm & _ & Hr).
  exists (newResult (NewHash r) md). split; [exact Hr|].
  cbn [newResult Changed NewHash NewMetadata FilesAdded FilesChanged FilesDeleted
         AddedFiles ChangedFiles DeletedFiles].
  rewrite Hm. repeat split.
Qed.

Lemma recorded_check_reports_no_change_witness :
  let w := bucketWorld [Ok [mkObject "b" "y" 4; mkObject "a" "x" 3]] 0 in
  let ds := mkPipeline SourceTypeS3 "s3://b/p/" None DocumentSetPhasePending "" None None in
  exists r r',
    CheckSourceChanges filepath_Join_clean w ds = Ok r
    /\ CheckSourceChanges filepath_Join_clean w (withSourceState ds r) = Ok r'
    /\ Changed r' = false /\ NewHash r' = NewHash r /\ FilesAdded r' = 0.
Proof.
  intros w ds.
  assert (Hr : exists r, CheckSourceChanges filepath_Join_clean w ds = Ok r)
    by (eexists; vm_compute; reflexivity).
  destruct Hr as [r Hr].
  destruct (recorded_check_reports_no_change filepath_Join_clean w ds r Hr)
    as (r' & Hr' & Hc & Hh & _ & Ha & _).
  exists r, r'. auto.
Defined.

(** X24. The digest of a successful check, of whatever source type, has
    64 characters, and the check comes with metadata: its result is
    never the empty digest by which the status of a pipeline says that
    its source was never checked. *)
Theorem check_digest_has_64_digits (filepath_Join : list string -> string)
    (w : World) (ds : DocumentSet) (r : SourceChangeResult) :
  CheckSourceChanges filepath_Join w ds = Ok r ->
  String.length (NewHash r) = 64%nat
  /\ NewHash r <> ""
  /\ NewMetadata r <> None.
Proof.
  intros H. destruct (CheckSourceChanges_recorded _ _ _ _ H) as (s & md & Hh & Hm & _).
  rewrite Hh, Hm. split; [apply length_hex|]. split; [apply hex_nonempty | discriminate].
Qed.

Lemma check_digest_has_64_digits_witness :
  exists r,
    CheckSourceChanges filepath_Join_clean (worldAtHour 10) gitPipeline = Ok r
    /\ String.length (NewHash r) = 64%nat.
Proof.
  assert (Hr : exists r, CheckSourceChanges filepath_Join_clean (worldAtHour 10) gitPipeline
                         = Ok r)
    by (eexists; vm_compute; reflexivity).
  destruct Hr as [r Hr]. exists r. split; [exact Hr|].
  apply (check_digest_has_64_digits filepath_Join_clean (worldAtHour 10) gitPipeline r Hr).
Defined.

(** X25. Waiting for the interval of [GetSyncInterval] is enough for
    [ShouldSync]: with a policy in mode auto that is not paused, once
    the time since the last check has reached the interval that
    [GetSyncInterval] returns (the parsed one raised to a minute, five
    minutes by default), [ShouldSync] permits the sync. The empty
    interval is taken not to parse, as [time.ParseDuration] has it. *)
Theorem GetSyncInterval_wait_suffices (ParseDuration : string -> option Z)
    (FormatSeconds : Z -> string) (w : World) (ds : DocumentSet) (policy : SyncPolicy) :
  ParseDuration "" = None ->
  DSSyncPolicy (DSSpec ds) = Some policy ->
  PauseSync policy = false ->
  Mode policy = SyncModeAuto ->
  (forall t, LastSourceCheckTime (DSStatus ds) = Some t ->
             GetSyncInterval ParseDuration ds <= GoTime.Since (now w) t) ->
  ShouldSync ParseDuration FormatSeconds w ds = (true, "sync interval reached").
Proof.
  intros Hempty Hp Hpause Hmode Hwait. unfold ShouldSync. rewrite Hp, Hpause, Hmode.
  change (negb (String.eqb SyncModeAuto SyncModeAuto)) with false. cbv iota.
  destruct (LastSourceCheckTime (DSStatus ds)) as [t|]; [|reflexivity].
  specialize (Hwait t eq_refl). unfold GetSyncInterval in Hwait. rewrite Hp in Hwait.
  cbv zeta.
  destruct (String.eqb_spec (Interval policy) "") as [He|He].
  - rewrite He, Hempty in *.
    destruct (Z.ltb_spec (GoTime.Since (now w) t) (5 * GoTime.Minute)); [lia | reflexivity].
  - destruct (ParseDuration (Interval policy)) as [d|].
    + destruct (Z.ltb_spec d GoTime.Minute);
        destruct (Z.ltb_spec (GoTime.Since (now w) t) d); try reflexivity; lia.
    + destruct (Z.ltb_spec (GoTime.Since (now w) t) (5 * GoTime.Minute)); [lia | reflexivity].
Qed.

Lemma GetSyncInterval_wait_suffices_witness :
  let w := bucketWorld [] GoTime.Minute in
  GetSyncInterval GoTime.ParseDuration_integral hastyPipeline = GoTime.Minute
  /\ ShouldSync GoTime.ParseDuration_integral GoTime.FormatSeconds_exact w hastyPipeline
     = (true, "sync interval reached").
Proof.
  intros w. split; [vm_compute; reflexivity|].
  apply (GetSyncInterval_wait_suffices GoTime.ParseDuration_integral
           GoTime.FormatSeconds_exact w hastyPipeline (autoEvery "10s")
           eq_refl eq_refl eq_refl eq_refl).
  intros t Ht. injection Ht as <-. vm_compute. discriminate.
Defined.

(** ** The Pipeline reconciler: failures and deletion *)

Lemma pipeline_updateStatusFailed_message c p msg :
  let p' := pStored (PipelineReconciler.updateStatusFailed c p msg) in
  p' = p
  \/ (PipelineReconciler.phaseOf p' = DocumentSetPhaseFailed
      /\ DSMessage (DSStatus (PDocumentSet p')) = msg
      /\ PStatus p' = PStatus p).
Proof.
  unfold PipelineReconciler.updateStatusFailed, PipelineReconciler.statusUpdateThen.
  destruct (statusUpdate (PCluster c)); [right; repeat split | now left].
Qed.

(** What [createIndexJob] leaves: the pipeline as it was, an Indexing
    pipeline, or a Failed one whose message tells that the creation was
    refused. *)
Lemma pipeline_createIndexJob_cause (c : PipelineCluster) (p : Pipeline) :
  PipelineReconciler.phaseOf p = DocumentSetPhaseEmbedding
  \/ PipelineReconciler.phaseOf p = DocumentSetPhaseIndexing ->
  let p' := pStored (PipelineReconciler.createIndexJob c p) in
  p' = p
  \/ PipelineReconciler.phaseOf p' = DocumentSetPhaseIndexing
  \/ (PipelineReconciler.phaseOf p' = DocumentSetPhaseFailed
      /\ failureCause c p (DSMessage (DSStatus (PDocumentSet p')))
      /\ PStatus p' = PStatus p).
Proof.
  intros Hph. unfold PipelineReconciler.createIndexJob.
  destruct (SetControllerReference (PCluster c)); [|now left].
  cbv zeta.
  match goal with
  | |- context [apiCreateIndexJob c ?j] => destruct (apiCreateIndexJob c j) as [| |msg] eqn:Hc
  end; cbn [PipelineReconciler.pafter pStored].
  1, 2: unfold PipelineReconciler.statusUpdateThen;
    destruct (statusUpdate (PCluster c)); [right; left; reflexivity | now left].
  destruct (pipeline_updateStatusFailed_message c p ("Failed to create IndexJob: " ++ msg))
    as [Hk|(Hf & Hm & Hs)]; [now left|].
  right. right. split; [exact Hf|]. split; [|exact Hs].
  rewrite Hm. eapply index_task_refused; eauto.
Qed.

(** X26. A pipeline becomes Failed for a cause that its message names.
    When a reconciliation turns a pipeline that was not Failed into a
    Failed one, then the API server refused to create its Embed Task (it
    was Pending) or its Index Task (it was Embedding or Indexing), or
    showed the Embed Task (it was Embedding) or the Index Task (it was
    Indexing) that its status refers to as Failed; the message of the
    status is the text for that cause followed by the error, or by the
    message of the failed task; the collection and the references of the
    status are kept. *)
Theorem pipeline_fails_for_a_named_cause (c : PipelineCluster) (p : Pipeline) :
  let p' := pStored (PipelineReconciler.Reconcile c p) in
  PipelineReconciler.phaseOf p <> DocumentSetPhaseFailed ->
  PipelineReconciler.phaseOf p' = DocumentSetPhaseFailed ->
  failureCause c p (DSMessage (DSStatus (PDocumentSet p')))
  /\ PStatus p' = PStatus p.
Proof.
  intros p' Hnot Hfailed. subst p'.
  unfold PipelineReconciler.Reconcile in *.
  destruct (getSelf (PCluster c)); try contradiction.
  destruct (negb (metav1_IsZero (DeletionTimestamp (DSMeta (PDocumentSet p))))).
  { unfold PipelineReconciler.handleDeletion in Hfailed.
    destruct (update (PCluster c)); contradiction. }
  destruct (negb (ContainsFinalizer _ _)).
  { destruct (update (PCluster c)); contradiction. }
  cbv zeta in *. fold (PipelineReconciler.phaseOf p) in *.
  assert (Hinit : PipelineReconciler.phaseOf
                    (pStored (PipelineReconciler.initializeStatus c p))
                  = DocumentSetPhaseFailed -> False).
  { unfold PipelineReconciler.initializeStatus, PipelineReconciler.statusUpdateThen.
    destruct (statusUpdate (PCluster c)); [discriminate | exact Hnot]. }
  destruct (String.eqb_spec (PipelineReconciler.phaseOf p) "") as [H0|H0];
    [contradiction|].
  destruct (String.eqb_spec (PipelineReconciler.phaseOf p) DocumentSetPhasePending) as [H1|H1].
  { unfold PipelineReconciler.handlePendingPhase in *.
    destruct (SetControllerReference (PCluster c)); [|contradiction].
    cbv zeta in *.
    match goal with
    | |- context [apiCreateEmbeddingJob c ?e] =>
        destruct (apiCreateEmbeddingJob c e) as [| |msg] eqn:Hc
    end; cbn [PipelineReconciler.pafter pStored] in *.
    1, 2: unfold PipelineReconciler.statusUpdateThen in *;
      destruct (statusUpdate (PCluster c)); [discriminate Hfailed | contradiction].
    destruct (pipeline_updateStatusFailed_message c p ("Failed to create EmbeddingJob: " ++ msg))
      as [Hk|(_ & Hm & Hs)]; [rewrite Hk in Hfailed; contradiction|].
    split; [|exact Hs]. rewrite Hm. eapply embed_task_refused; eauto. }
  destruct (String.eqb_spec (PipelineReconciler.phaseOf p) DocumentSetPhaseEmbedding) as [H2|H2].
  { unfold PipelineReconciler.handleEmbeddingPhase in *.
    destruct (getEmbeddingJob c _ _) as [child| |e] eqn:Hget; [|contradiction|contradiction].
    cbv zeta in *.
    destruct (String.eqb (EJPhase (EJStatus child)) EmbeddingJobPhaseSucceeded).
    { destruct (pipeline_createIndexJob_cause c p (or_introl H2)) as [Hk|[Hk|(_ & Hm & Hs)]].
      - rewrite Hk in Hfailed. contradiction.
      - rewrite Hk in Hfailed. discriminate Hfailed.
      - split; assumption. }
    destruct (String.eqb_spec (EJPhase (EJStatus child)) EmbeddingJobPhaseFailed) as [Hf|Hf].
    { destruct (pipeline_updateStatusFailed_message c p
                  ("EmbeddingJob failed: " ++ EJMessage (EJStatus child)))
        as [Hk|(_ & Hm & Hs)]; [rewrite Hk in Hfailed; contradiction|].
      split; [|exact Hs]. rewrite Hm. eapply embed_task_failed; eauto. }
    destruct (String.eqb (EJPhase (EJStatus child)) EmbeddingJobPhaseRunning);
      [|contradiction].
    unfold PipelineReconciler.statusUpdateThen in Hfailed.
    destruct (statusUpdate (PCluster c)); [|contradiction].
    exfalso. exact (Hnot Hfailed). }
  destruct (String.eqb_spec (PipelineReconciler.phaseOf p) DocumentSetPhaseIndexing) as [H3|H3].
  { unfold PipelineReconciler.handleIndexingPhase in *.
    destruct (getIndexJob c _ _) as [child| |e] eqn:Hget; [| |contradiction].
    - cbv zeta in *.
      destruct (String.eqb (IJPhase (IJStatus child)) IndexJobPhaseSucceeded).
      { unfold PipelineReconciler.updateStatusReady, PipelineReconciler.statusUpdateThen
          in Hfailed.
        destruct (statusUpdate (PCluster c)); [discriminate Hfailed | contradiction]. }
      destruct (String.eqb_spec (IJPhase (IJStatus child)) IndexJobPhaseFailed) as [Hf|Hf].
      { destruct (pipeline_updateStatusFailed_message c p
                    ("IndexJob failed: " ++ IJMessage (IJStatus child)))
          as [Hk|(_ & Hm & Hs)]; [rewrite Hk in Hfailed; contradiction|].
        split; [|exact Hs]. rewrite Hm. eapply index_task_failed; eauto. }
      destruct (_ || _); [|contradiction].
      unfold PipelineReconciler.statusUpdateThen in Hfailed.
      destruct (statusUpdate (PCluster c)); [|contradiction].
      exfalso. exact (Hnot Hfailed).
    - destruct (pipeline_createIndexJob_cause c p (or_intror H3)) as [Hk|[Hk|(_ & Hm & Hs)]].
      + rewrite Hk in Hfailed. contradiction.
      + rewrite Hk in Hfailed. discriminate Hfailed.
      + split; assumption. }
  destruct (String.eqb_spec (PipelineReconciler.phaseOf p) DocumentSetPhaseReady) as [H4|H4].
  { unfold PipelineReconciler.handleReadyPhase in Hfailed.
    destruct (negb _); contradiction. }
  destruct (String.eqb_spec (PipelineReconciler.phaseOf p) DocumentSetPhaseFailed);
    contradiction.
Qed.

Lemma pipeline_fails_for_a_named_cause_witness :
  let c1 := healthyPipelineCluster NotFound NotFound 0 0 in
  let c2 := healthyPipelineCluster (Found (embedChild EmbeddingJobPhaseFailed "out of memory"))
              NotFound (30 * GoTime.Second) 7 in
  let p := pipelineAfter [c1; c1; c1] newPipeline in
  let p' := pStored (PipelineReconciler.Reconcile c2 p) in
  PipelineReconciler.phaseOf p = DocumentSetPhaseEmbedding
  /\ PipelineReconciler.phaseOf p' = DocumentSetPhaseFailed
  /\ DSMessage (DSStatus (PDocumentSet p')) = "EmbeddingJob failed: out of memory"
  /\ CurrentCollection (PStatus p') = "docs_20250115100000".
Proof.
  intros c1 c2 p p'.
  assert (Hnot : PipelineReconciler.phaseOf p <> DocumentSetPhaseFailed)
    by (vm_compute; discriminate).
  assert (Hfailed : PipelineReconciler.phaseOf p' = DocumentSetPhaseFailed)
    by (vm_compute; reflexivity).
  destruct (pipeline_fails_for_a_named_cause c2 p Hnot Hfailed) as (_ & Hs).
  split; [vm_compute; reflexivity|]. split; [exact Hfailed|].
  split; vm_compute; reflexivity.
Defined.

(** X27. A pipeline that carries a deletion timestamp (a timestamp that
    is set and is not the zero time, as [IsZero] tests it) is only
    released, in whatever phase it is and whatever the API server
    answers: its status and its spec are left as they are, no Embed Task
    and no Index Task is created (the children are left to the garbage
    collection of the owner references), the finalizers of others are
    kept, and when the object is found and the update accepted the
    finalizer of the controller is gone and no requeue is asked for. *)
Theorem deleted_pipeline_is_released (c : PipelineCluster) (p : Pipeline) (t : Z) :
  let r := PipelineReconciler.Reconcile c p in
  DeletionTimestamp (DSMeta (PDocumentSet p)) = Some t ->
  t <> GoTime.zeroTime ->
  DSStatus (PDocumentSet (pStored r)) = DSStatus (PDocumentSet p)
  /\ PStatus (pStored r) = PStatus p
  /\ DSSpec (PDocumentSet (pStored r)) = DSSpec (PDocumentSet p)
  /\ List.forallb (fun x => negb (isPipelineCreate x)) (pCalls r) = true
  /\ (forall g, g <> documentSetFinalizer ->
                ContainsFinalizer (DSMeta (PDocumentSet (pStored r))) g
                = ContainsFinalizer (DSMeta (PDocumentSet p)) g)
  /\ (getSelf (PCluster c) = Found tt -> update (PCluster c) = Ok tt ->
      ContainsFinalizer (DSMeta (PDocumentSet (pStored r))) documentSetFinalizer = false
      /\ pCalls r = [PCallUpdate]
      /\ pOutcome r = Return noRequeue).
Proof.
  intros r Hdel Ht. subst r.
  unfold PipelineReconciler.Reconcile, PipelineReconciler.handleDeletion.
  cbv zeta. rewrite Hdel, (deletion_requested t Ht).
  destruct (getSelf (PCluster c)) as [[]| |e].
  - destruct (update (PCluster c)) as [[]|e];
      cbn [pStored pCalls pOutcome PipelineReconciler.withMeta PDocumentSet DSMeta DSStatus
             DSSpec PStatus List.forallb isPipelineCreate negb andb].
    + repeat split; auto.
      * intros g Hg. now apply ContainsFinalizer_Remove_other.
      * apply ContainsFinalizer_Remove.
    + repeat split; auto; discriminate.
  - repeat split; auto; discriminate.
  - repeat split; auto; discriminate.
Qed.

Lemma deleted_pipeline_is_released_witness :
  let c := healthyPipelineCluster NotFound NotFound 0 0 in
  let r := PipelineReconciler.Reconcile c (deletedPipeline DocumentSetPhaseEmbedding 500) in
  Finalizers (DSMeta (PDocumentSet (pStored r))) = ["backup.example.com/hold"]
  /\ pCalls r = [PCallUpdate]
  /\ PipelineReconciler.phaseOf (pStored r) = DocumentSetPhaseEmbedding.
Proof.
  intros c r.
  destruct (deleted_pipeline_is_released c (deletedPipeline DocumentSetPhaseEmbedding 500) 500
              eq_refl ltac:(discriminate)) as (Hst & _ & _ & _ & _ & Hrel).
  destruct (Hrel eq_refl eq_refl) as (_ & Hcalls & _).
  split; [vm_compute; reflexivity|]. split; [exact Hcalls|].
  unfold PipelineReconciler.phaseOf. fold r in Hst. rewrite Hst. reflexivity.
Defined.

Lemma append_inj_l (a b c : string) : a ++ b = a ++ c -> b = c.
Proof.
  induction a as [|x a IH]; intros H.
  - exact H.
  - rewrite !append_cons in H. injection H as H. now apply IH.
Qed.

(** X28. A refused write of the status after the Embed Task was created
    leaves that task behind. When the API server creates the Embed Task
    of a Pending pipeline and then refuses the update of the status,
    the pipeline stays as it was and the reconciliation ends with that
    error; the next reconciliation, in another second of the clock,
    creates a second Embed Task, under another name and for another
    collection, and the status, once its update is accepted, refers to
    the second one and to its collection. *)
Theorem refused_status_write_repeats_the_embed_task
    (c1 c2 : PipelineCluster) (p : Pipeline) (err : string) :
  let ds := PDocumentSet p in
  let r1 := PipelineReconciler.Reconcile c1 p in
  let r2 := PipelineReconciler.Reconcile c2 (pStored r1) in
  getSelf (PCluster c1) = Found tt ->
  getSelf (PCluster c2) = Found tt ->
  DeletionTimestamp (DSMeta ds) = None ->
  ContainsFinalizer (DSMeta ds) documentSetFinalizer = true ->
  PipelineReconciler.phaseOf p = DocumentSetPhasePending ->
  SetControllerReference (PCluster c1) = Ok tt ->
  SetControllerReference (PCluster c2) = Ok tt ->
  (forall e, createFailed (apiCreateEmbeddingJob c1 e) = false) ->
  (forall e, createFailed (apiCreateEmbeddingJob c2 e) = false) ->
  statusUpdate (PCluster c1) = Err err ->
  Format_compact (nowStamp c1) <> Format_compact (nowStamp c2) ->
  pStored r1 = p
  /\ pOutcome r1 = ReturnErr err
  /\ exists e1 e2,
       pCalls r1 = [PCallCreateEmbeddingJob e1; PCallStatusUpdate]
       /\ pCalls r2 = [PCallCreateEmbeddingJob e2; PCallStatusUpdate]
       /\ NEName e1 <> NEName e2
       /\ NEVectorDBCollection e1 <> NEVectorDBCollection e2
       /\ (statusUpdate (PCluster c2) = Ok tt ->
           LastEmbeddingJobRef (PStatus (pStored r2)) = NEName e2
           /\ CurrentCollection (PStatus (pStored r2)) = NEVectorDBCollection e2).
Proof.
  intros ds r1 r2 Hs1 Hs2 Hd Hf Hph Hr1 Hr2 Hc1 Hc2 Hu Hstamp.
  assert (Hpending : forall c, getSelf (PCluster c) = Found tt ->
            PipelineReconciler.Reconcile c p = PipelineReconciler.handlePendingPhase c p).
  { intros c Hs. rewrite (pipeline_Reconcile_dispatch c p tt Hs Hd Hf). cbv zeta.
    rewrite Hph. reflexivity. }
  assert (E1 : pStored r1 = p /\ pOutcome r1 = ReturnErr err /\
               exists e1, pCalls r1 = [PCallCreateEmbeddingJob e1; PCallStatusUpdate]
                 /\ NEName e1 = Name (DSMeta ds) ++ "-embedding-" ++ Format_compact (nowStamp c1)
                 /\ NEVectorDBCollection e1
                    = IndexCollection (PSpec p) ++ "_" ++ Format_compact (nowStamp c1)).
  { subst r1. rewrite (Hpending c1 Hs1). unfold PipelineReconciler.handlePendingPhase.
    rewrite Hr1. cbv zeta. fold ds.
    match goal with
    | |- context [apiCreateEmbeddingJob c1 ?e] =>
        pose proof (Hc1 e) as Hc; destruct (apiCreateEmbeddingJob c1 e)
    end; try discriminate;
      unfold PipelineReconciler.statusUpdateThen; rewrite Hu;
      cbn [PipelineReconciler.pafter pStored pCalls pOutcome app];
      (split; [reflexivity|]); (split; [reflexivity|]);
      eexists; (split; [reflexivity|]); split; reflexivity. }
  destruct E1 as (Hk & Ho & e1 & Hcalls1 & Hn1 & Hcoll1).
  split; [exact Hk|]. split; [exact Ho|].
  exists e1. subst r2. rewrite Hk, (Hpending c2 Hs2).
  unfold PipelineReconciler.handlePendingPhase. rewrite Hr2. cbv zeta. fold ds.
  assert (Hname : NEName e1
                  <> Name (DSMeta ds) ++ "-embedding-" ++ Format_compact (nowStamp c2)).
  { rewrite Hn1. intros H. apply append_inj_l, append_inj_l in H. contradiction. }
  assert (Hcoll : NEVectorDBCollection e1
                  <> IndexCollection (PSpec p) ++ "_" ++ Format_compact (nowStamp c2)).
  { rewrite Hcoll1. intros H. apply append_inj_l, append_inj_l in H. contradiction. }
  match goal with
  | |- context [apiCreateEmbeddingJob c2 ?e] =>
      pose proof (Hc2 e) as Hc; exists e; destruct (apiCreateEmbeddingJob c2 e)
  end; try discriminate;
    (split; [exact Hcalls1|]);
    unfold PipelineReconciler.statusUpdateThen;
    destruct (statusUpdate (PCluster c2));
    cbn [PipelineReconciler.pafter pStored pCalls app NEName NEVectorDBCollection
           PipelineReconciler.withStatus PStatus LastEmbeddingJobRef CurrentCollection];
    (split; [reflexivity|]); (split; [exact Hname|]); (split; [exact Hcoll|]);
    intros Hok; first [discriminate Hok | split; reflexivity].
Qed.

Lemma refused_status_write_repeats_the_embed_task_witness :
  let c := healthyPipelineCluster NotFound NotFound 0 0 in
  let c1 := withFailingStatus c "the object has been modified" in
  let c2 := healthyPipelineCluster NotFound NotFound (30 * GoTime.Second) 30 in
  let p := pipelineAfter [c; c] newPipeline in
  let r1 := PipelineReconciler.Reconcile c1 p in
  let r2 := PipelineReconciler.Reconcile c2 (pStored r1) in
  PipelineReconciler.phaseOf p = DocumentSetPhasePending
  /\ pStored r1 = p
  /\ List.length (pCalls r1) = 2%nat
  /\ LastEmbeddingJobRef (PStatus (pStored r2)) = "docs-embedding-20250115100030".
Proof.
  intros c c1 c2 p r1 r2.
  assert (Hp : PipelineReconciler.phaseOf p = DocumentSetPhasePending)
    by (vm_compute; reflexivity).
  destruct (refused_status_write_repeats_the_embed_task c1 c2 p "the object has been modified"
              eq_refl eq_refl eq_refl eq_refl Hp eq_refl eq_refl
              (fun _ => eq_refl) (fun _ => eq_refl) eq_refl
              ltac:(vm_compute; discriminate))
    as (Hk & _ & e1 & e2 & H1 & H2 & _ & _ & Href).
  split; [exact Hp|]. split; [exact Hk|].
  split; [exact (f_equal (@List.length _) H1)|].
  vm_compute. reflexivity.
Defined.
